(** * Virtual try-on client: the codec helpers, the AI gateway and the
      view/session handlers of [App.tsx], embedded and verified.

    The development follows the layout of the repository:
    - [Js]       the browser primitives the code calls (string split, the
                 MIME regular expression, base64, [File]);
    - [Codec]    [fileToBase64] and [dataURLtoFile] (App.tsx, lines 7-38);
    - [Gateway]  the four operations of services/geminiService;
    - [App]      the state of the [App] component and its handlers. *)

From Stdlib Require Import NArith ZArith Lia ZifyNat Ascii String.
From Stdlib.Strings Require Import Byte.
From stdpp Require Import strings gmap list.

Local Open Scope string_scope.
Local Open Scope list_scope.

(* ===================================================================== *)
(** ** Browser primitives                                                 *)
(* ===================================================================== *)

Module Js.

(** Texts are Rocq strings: a character stands for one code unit below
    256, which covers the MIME types, base64 payloads, URLs and storage
    keys that the code takes apart. *)

(** A JavaScript exception value.  [e.message] is what the handlers read;
    a [ProgressEvent] (the argument of [reader.onerror]) has none. *)
Inductive JsError : Type :=
  | Error (message : string)
  | ProgressEvent
  | DOMException (name message : string).

(** [e.message], with the empty string standing for [undefined]: both are
    falsy, which is all the [e.message || fallback] idiom inspects. *)
Definition message_of (e : JsError) : string :=
  match e with
  | Error m => m
  | ProgressEvent => ""
  | DOMException _ m => m
  end.

(** A computation that either completes with a value or throws (for a
    promise: resolves or rejects). *)
Inductive JsResult (A : Type) : Type :=
  | Ok (a : A)
  | Throw (e : JsError).
Arguments Ok {A} a.
Arguments Throw {A} e.

Definition bindR {A B} (c : JsResult A) (k : A -> JsResult B) : JsResult B :=
  match c with
  | Ok a => k a
  | Throw e => Throw e
  end.

(** JavaScript truthiness of a string: only the empty string is falsy. *)
Definition truthy (s : string) : bool :=
  match s with
  | EmptyString => false
  | String _ _ => true
  end.

(** [a || b] on strings. *)
Definition or_else (a b : string) : string := if truthy a then a else b.

(** Every character of [s] satisfies [p]. *)
Fixpoint string_forall (p : ascii -> bool) (s : string) : bool :=
  match s with
  | EmptyString => true
  | String c r => p c && string_forall p r
  end.

Definition is_comma (c : ascii) : bool := Ascii.eqb c ","%char.

(** *** [String.prototype.split(',')] *)

Fixpoint split_comma (s : string) : list string :=
  match s with
  | EmptyString => [EmptyString]
  | String c r =>
      if is_comma c then EmptyString :: split_comma r
      else match split_comma r with
           | p :: ps => String c p :: ps
           | [] => [String c EmptyString]
           end
  end.

(** *** The regular expression [/:(.*?);/]

    [.] matches any character except a line terminator; [*?] is lazy, so
    the capture stops at the first [;].  The match is the leftmost one:
    every [:] is tried in turn as the start. *)

Definition is_line_terminator (c : ascii) : bool :=
  Ascii.eqb c "010"%char || Ascii.eqb c "013"%char.

Fixpoint lazy_until_semicolon (s : string) : option string :=
  match s with
  | EmptyString => None
  | String c r =>
      if Ascii.eqb c ";"%char then Some EmptyString
      else if is_line_terminator c then None
      else match lazy_until_semicolon r with
           | Some m => Some (String c m)
           | None => None
           end
  end.

(** [s.match(/:(.*?);/)], returning capture group 1. *)
Fixpoint match_mime (s : string) : option string :=
  match s with
  | EmptyString => None
  | String c r =>
      if Ascii.eqb c ":"%char then
        match lazy_until_semicolon r with
        | Some m => Some m
        | None => match_mime r
        end
      else match_mime r
  end.

(** *** [String.prototype.replace(/\s+/g, '-')] *)

(** [\s] on code units below 256; a text given by its UTF-8 bytes is read
    rightly as long as it is ASCII. *)

Definition is_js_space (c : ascii) : bool :=
  let n := N_of_ascii c in
  ((9 <=? n) && (n <=? 13) || (n =? 32) || (n =? 160))%N.

(** [in_run] tells whether the previous character was already part of the
    whitespace run being replaced. *)
Fixpoint replace_spaces_from (in_run : bool) (s : string) : string :=
  match s with
  | EmptyString => EmptyString
  | String c r =>
      if is_js_space c then
        if in_run then replace_spaces_from true r
        else String "-"%char (replace_spaces_from true r)
      else String c (replace_spaces_from false r)
  end.

Definition replace_spaces (s : string) : string := replace_spaces_from false s.

(** *** Base64 (RFC 4648 alphabet) *)

Definition b64_char (n : N) : ascii :=
  if (n <? 26)%N then ascii_of_N (n + 65)
  else if (n <? 52)%N then ascii_of_N (n + 71)
  else if (n <? 62)%N then ascii_of_N (n - 4)
  else if (n =? 62)%N then "+"%char
  else "/"%char.

Definition b64_index (c : ascii) : option N :=
  let n := N_of_ascii c in
  if ((65 <=? n) && (n <=? 90))%N then Some (n - 65)%N
  else if ((97 <=? n) && (n <=? 122))%N then Some (n - 71)%N
  else if ((48 <=? n) && (n <=? 57))%N then Some (n + 4)%N
  else if (n =? 43)%N then Some 62%N
  else if (n =? 47)%N then Some 63%N
  else None.

(** The encoder behind [FileReader.readAsDataURL]: three bytes become four
    sextets, the last group is padded with [=]. *)
Fixpoint b64_encode_chars (bs : list N) : list ascii :=
  match bs with
  | [] => []
  | [a] =>
      [b64_char (a / 4); b64_char ((a mod 4) * 16); "="%char; "="%char]
  | [a; b] =>
      [b64_char (a / 4); b64_char ((a mod 4) * 16 + b / 16);
       b64_char ((b mod 16) * 4); "="%char]
  | a :: b :: c :: rest =>
      b64_char (a / 4) :: b64_char ((a mod 4) * 16 + b / 16)
        :: b64_char ((b mod 16) * 4 + c / 64) :: b64_char (c mod 64)
        :: b64_encode_chars rest
  end%N.

Definition base64_encode (bs : list byte) : string :=
  string_of_list_ascii (b64_encode_chars (map Byte.to_N bs)).

(** [atob]: the forgiving-base64 decoder of the HTML standard. *)

Definition is_ascii_whitespace (c : ascii) : bool :=
  let n := N_of_ascii c in
  ((n =? 9) || (n =? 10) || (n =? 12) || (n =? 13) || (n =? 32))%N.

Definition is_equals (c : ascii) : bool := Ascii.eqb c "="%char.

(** Remove one or two trailing [=]. *)
Fixpoint strip_padding (d : list ascii) : list ascii :=
  match d with
  | [] => []
  | c :: r =>
      match r with
      | [] => if is_equals c then [] else [c]
      | [c'] => if is_equals c && is_equals c' then [] else c :: strip_padding r
      | _ => c :: strip_padding r
      end
  end.

Fixpoint sextets_of (d : list ascii) : option (list N) :=
  match d with
  | [] => Some []
  | c :: r =>
      match b64_index c, sextets_of r with
      | Some n, Some ns => Some (n :: ns)
      | _, _ => None
      end
  end.

(** Four sextets give three bytes; a tail of three gives two bytes and a
    tail of two gives one, the left-over bits being discarded. *)
Fixpoint bytes_of_sextets (l : list N) : list N :=
  match l with
  | s0 :: s1 :: s2 :: s3 :: rest =>
      (s0 * 4 + s1 / 16) :: ((s1 mod 16) * 16 + s2 / 4)
        :: ((s2 mod 4) * 64 + s3) :: bytes_of_sextets rest
  | [s0; s1; s2] => [s0 * 4 + s1 / 16; (s1 mod 16) * 16 + s2 / 4]
  | [s0; s1] => [s0 * 4 + s1 / 16]
  | _ => []
  end%N.

(** The sextets the encoder writes, before the padding. *)
Fixpoint sextets_of_bytes (bs : list N) : list N :=
  match bs with
  | [] => []
  | [a] => [a / 4; (a mod 4) * 16]
  | [a; b] => [a / 4; (a mod 4) * 16 + b / 16; (b mod 16) * 4]
  | a :: b :: c :: rest =>
      a / 4 :: (a mod 4) * 16 + b / 16 :: (b mod 16) * 4 + c / 64 :: c mod 64
        :: sextets_of_bytes rest
  end%N.

(** The characters the encoder writes are neither white space nor commas. *)
Definition encoded_char (c : ascii) : bool :=
  negb (is_ascii_whitespace c) && negb (is_comma c).

(** The message of the exception is the host's; this is the text of
    one host. *)
Definition atob_message : string :=
  "The string to be decoded is not correctly encoded.".

(** The result is a binary string: one character per decoded byte. *)
Definition atob (s : string) : JsResult string :=
  let d := filter (fun c => is_ascii_whitespace c = false) (list_ascii_of_string s) in
  let d := if (length d mod 4 =? 0)%nat then strip_padding d else d in
  if (length d mod 4 =? 1)%nat then
    Throw (DOMException "InvalidCharacterError" atob_message)
  else
    match sextets_of d with
    | Some ns => Ok (string_of_list_ascii (map ascii_of_N (bytes_of_sextets ns)))
    | None => Throw (DOMException "InvalidCharacterError" atob_message)
    end.

(** *** [File] *)

Record File : Type := mkFile {
  bits : list byte;      (* the content *)
  name : string;
  type : string;         (* the MIME type, [file.type] *)
}.

(** [u8arr[n] = bstr.charCodeAt(n)] for every [n], then [new Uint8Array]. *)
Definition char_codes (bstr : string) : list byte :=
  map byte_of_ascii (list_ascii_of_string bstr).

(** [FileReader.readAsDataURL]: a blob without a type is reported as
    [application/octet-stream]. *)
Definition readAsDataURL (f : File) : string :=
  "data:" +:+ (if truthy (type f) then type f else "application/octet-stream")
          +:+ ";base64," +:+ base64_encode (bits f).

End Js.

(* ===================================================================== *)
(** ** Image codec utilities (App.tsx, lines 7-38)                        *)
(* ===================================================================== *)

Module Codec.
Import Js.

(** The template literal [`data:${mimeType};base64,${data}`]. *)
Definition data_url (mimeType data : string) : string :=
  "data:" +:+ mimeType +:+ ";base64," +:+ data.

(** The text before the first comma of such a data URL. *)
Definition data_url_head (mimeType : string) : string :=
  "data:" +:+ mimeType +:+ ";base64".

(** A MIME type without parameters: it holds no comma, no semicolon and
    no line terminator. *)
Definition plain_mime (mime : string) : bool :=
  string_forall
    (fun c => negb (is_comma c || Ascii.eqb c ";"%char || is_line_terminator c))
    mime.

(** [fileToBase64].  [reader_error] tells whether the [FileReader] fires
    [onerror] for the file (the promise then rejects with the event);
    otherwise [onload] takes the text after the first comma of the result. *)
Definition fileToBase64 (reader_error : File -> bool) (file : File)
  : JsResult string :=
  if reader_error file then Throw ProgressEvent
  else
    let result := readAsDataURL file in
    match split_comma result !! 1%nat with
    | Some base64 =>
        if truthy base64 then Ok base64
        else Throw (Error "Failed to read base64 string from file.")
    | None => Throw (Error "Failed to read base64 string from file.")
    end.

(** [dataURLtoFile].  [Ok None] is the [null] result; [Throw] is the
    exception of [atob] on a payload that is not base64.  The file
    carries the captured type as it stands; [new File] puts a type in
    ASCII lower case, and drops one that holds a character outside
    U+0020..U+007E. *)
Definition dataURLtoFile (dataurl filename : string) : JsResult (option File) :=
  match split_comma dataurl with
  | arr0 :: arr1 :: _ =>
      match match_mime arr0 with
      | None => Ok None
      | Some mime =>
          bindR (atob arr1) (fun bstr =>
            Ok (Some (mkFile (char_codes bstr) filename mime)))
      end
  | _ => Ok None                       (* arr.length < 2 *)
  end.

End Codec.

(* ===================================================================== *)
(** ** AI gateway client (services/geminiService)                         *)
(* ===================================================================== *)

Module Gateway.
Import Js.

Inductive StyleTheme : Type := Photorealistic | MagazineCover | Artistic.
Inductive Language : Type := En | Ru.

Inductive Part : Type :=
  | InlineData (data mimeType : string)
  | TextPart (text : string).

Inductive Contents : Type :=
  | Prompt (text : string)
  | Parts (parts : list Part).

Inductive Modality : Type := IMAGE.

(** The [responseSchema] of the suggestion request is a constant of the
    code; the flag records whether it is sent. *)
Record Config : Type := mkConfig {
  systemInstruction : option string;
  responseMimeType : option string;
  responseSchema : bool;
  responseModalities : list Modality;
}.

Record Request : Type := mkRequest {
  model : string;
  contents : Contents;
  config : Config;
}.

Record Candidate : Type := mkCandidate {
  parts : list Part;                   (* [content?.parts], absent = [] *)
}.

Record Response : Type := mkResponse {
  candidates : list Candidate;         (* absent = [] *)
  blockReason : option string;         (* [promptFeedback?.blockReason] *)
  text : string;
}.

Record ImageResult : Type := mkImageResult {
  data : string;
  mimeType : string;
}.

Record ClothingSuggestion : Type := mkSuggestion {
  name : string;
  description : string;
}.

(** What the gateway depends on: the credential, the external model (the
    [nat] is the ordinal of the request, so that equal requests may be
    answered differently) and [JSON.parse] followed by the shape test
    [jsonResponse.suggestions && Array.isArray(jsonResponse.suggestions)]. *)
Record Env : Type := mkEnv {
  API_KEY : string;
  generateContent : nat -> Request -> JsResult Response;
  parseSuggestions : string -> JsResult (option (list ClothingSuggestion));
}.

Definition fileToGenerativePart (base64Data mimeType : string) : Part :=
  InlineData base64Data mimeType.

(** A [try { ... } catch (error) { throw new Error(msg) }] block.  The
    [console.error] call that these catch blocks make before they throw
    is not represented: the console of the model holds what the component
    itself logs. *)
Definition rethrow_as {A} (msg : string) (c : JsResult A) : JsResult A :=
  match c with
  | Ok a => Ok a
  | Throw _ => Throw (Error msg)
  end.

Definition is_inline (p : Part) : bool :=
  match p with
  | InlineData _ _ => true
  | TextPart _ => false
  end.

(** [response.candidates?.[0]?.content?.parts?.find(part => part.inlineData)] *)
Definition find_image (response : Response) : option ImageResult :=
  match candidates response with
  | [] => None
  | c :: _ =>
      match List.find is_inline (parts c) with
      | Some (InlineData d m) => Some (mkImageResult d m)
      | _ => None
      end
  end.

(** The common tail of the three image operations. *)
Definition image_or_throw (blocked none : string) (response : Response)
  : JsResult ImageResult :=
  match find_image response with
  | Some img => Ok img
  | None =>
      match blockReason response with
      | Some reason => Throw (Error (blocked +:+ reason))
      | None => Throw (Error none)
      end
  end.

Definition image_config : Config := mkConfig None None false [IMAGE].

(** *** getClothingSuggestions(prompt, lang) *)

Definition stylist_instruction (lang : Language) : string :=
  match lang with
  | Ru => "Ты — креативный и знающий модный стилист. На основе запроса пользователя предложи три различных и стильных варианта одежды. Для каждого предложения укажи краткое название и подробное, привлекательное описание, подходящее для создания изображения. Отвечай на русском языке."
  | En => "You are a creative and knowledgeable fashion stylist. Based on the user's request, provide three distinct and stylish clothing item suggestions. For each suggestion, provide a concise name and a detailed, appealing description suitable for generating an image. Respond in English."
  end.

Definition suggestions_request (prompt : string) (lang : Language) : Request :=
  mkRequest "gemini-2.5-pro" (Prompt prompt)
    (mkConfig (Some (stylist_instruction lang)) (Some "application/json") true []).

Definition getClothingSuggestions (env : Env) (n : nat)
    (prompt : string) (lang : Language) : JsResult (list ClothingSuggestion) :=
  if truthy (API_KEY env) then
    rethrow_as "Failed to get clothing suggestions. Please check the console."
      (bindR (generateContent env n (suggestions_request prompt lang))
         (fun response =>
            bindR (parseSuggestions env (text response)) (fun parsed =>
              match parsed with
              | Some suggestions => Ok suggestions
              | None => Throw (Error "AI response did not contain valid suggestions.")
              end)))
  else Throw (Error "API_KEY environment variable is not set.").

(** *** generateClothingImage(description) *)

Definition clothing_image_request (description : string) : Request :=
  mkRequest "gemini-2.5-flash-image"
    (Parts [TextPart ("Generate a high-resolution, photorealistic image of a single clothing item: " +:+ String "034"%char description +:+ String "034"%char ". The item should be displayed flat or on a mannequin against a pure white background. There should be no shadows or other objects in the image. This image is for a virtual try-on application.")])
    image_config.

Definition generateClothingImage (env : Env) (n : nat) (description : string)
  : JsResult ImageResult :=
  if truthy (API_KEY env) then
    rethrow_as "Failed to generate clothing image. Please check the console."
      (bindR (generateContent env n (clothing_image_request description))
         (image_or_throw "Clothing image generation was blocked due to: "
                         "No image was generated for the clothing item."))
  else Throw (Error "API_KEY environment variable is not set.").

(** *** removeBackground(imageBase64, imageMimeType) *)

Definition remove_background_request (imageBase64 imageMimeType : string)
  : Request :=
  mkRequest "gemini-2.5-flash-image"
    (Parts [fileToGenerativePart imageBase64 imageMimeType;
            TextPart "You are an expert image editor. Your task is to accurately remove the background from the provided image, leaving only the main person. The output image must have a transparent background."])
    image_config.

Definition removeBackground (env : Env) (n : nat)
    (imageBase64 imageMimeType : string) : JsResult ImageResult :=
  if truthy (API_KEY env) then
    rethrow_as "Failed to remove background. Please check the console for more details."
      (bindR (generateContent env n (remove_background_request imageBase64 imageMimeType))
         (image_or_throw "Background removal was blocked due to: "
                         "No image was generated during background removal."))
  else Throw (Error "API_KEY environment variable is not set.").

(** *** virtualTryOn(person, personMime, clothing, clothingMime, styleTheme) *)

Definition try_on_prompt (styleTheme : StyleTheme) : string :=
  match styleTheme with
  | MagazineCover => "You are a creative director for a high-fashion magazine. Your task is to create a dramatic and stylish magazine cover shot. Take the person from the first image and dress them in the outfit from the second image. The final image should be composed like a professional magazine cover, with bold lighting and a captivating pose. Preserve the person's face. The background can be stylized to fit the theme. Only output the final generated image."
  | Artistic => "You are a digital artist. Your task is to reinterpret the virtual try-on as a piece of art. Take the person from the first image and dress them in the outfit from the second image. The final image should be in a stylized, artistic manner (e.g., digital painting, watercolor effect, or graphic art style), while still being recognizable. Preserve the person's face. Only output the final generated image."
  | Photorealistic => "You are an expert virtual stylist. Your task is to take the person from the first image and dress them in the outfit from the second image. The final image should look realistic, preserving the person's face, body pose, and the original background as much as possible. Only output the final generated image."
  end.

Definition try_on_request (personImageBase64 personImageMimeType
    clothingImageBase64 clothingImageMimeType : string)
    (styleTheme : StyleTheme) : Request :=
  mkRequest "gemini-2.5-flash-image"
    (Parts [fileToGenerativePart personImageBase64 personImageMimeType;
            fileToGenerativePart clothingImageBase64 clothingImageMimeType;
            TextPart (try_on_prompt styleTheme)])
    image_config.

Definition virtualTryOn (env : Env) (n : nat)
    (personImageBase64 personImageMimeType
     clothingImageBase64 clothingImageMimeType : string)
    (styleTheme : StyleTheme) : JsResult ImageResult :=
  if truthy (API_KEY env) then
    rethrow_as "Failed to generate image. Please check the console for more details."
      (bindR (generateContent env n
                (try_on_request personImageBase64 personImageMimeType
                   clothingImageBase64 clothingImageMimeType styleTheme))
         (image_or_throw "Image generation was blocked due to: "
                         "No image was generated in the response."))
  else Throw (Error "API_KEY environment variable is not set.").

End Gateway.

(* ===================================================================== *)
(** ** The [App] component: state, environment, handler monad             *)
(* ===================================================================== *)

Module App.
Import Js Codec Gateway.

Record UploadedImage : Type := mkUploaded {
  file : File;
  previewUrl : string;
}.

Record HistoryItem : Type := mkHistoryItem {
  person : string;
  clothing : string;
  result : string;
}.

Module SavedSession.
Record t : Type := mk {
  personImage : string;                (* base64 data URL *)
  clothingImage : string;              (* base64 data URL *)
  removeBgEnabled : bool;
  styleTheme : StyleTheme;
}.
End SavedSession.

Module View.
Inductive t : Type := start | tryOn | history | result | loading.
End View.

Record GeneratedImage : Type := mkGenerated {
  url : string;
  generatedMimeType : string;
}.

(** A value of the [suggestionImages] record: the string ['loading'] or
    [{url, mimeType, file}]. *)
Inductive SuggestionImage : Type :=
  | Loading
  | Ready (url mimeType : string) (file : File).

(** The keys of the translation table that the handlers look up. *)
Inductive TranslationKey : Type :=
  | errorInvalidImage | errorNeedBothImagesUpload | magicMessage
  | removingBackground | generatingLook | errorUnexpected
  | errorSelectStyle | gettingSuggestions | generatingImageGallery
  | errorNeedBothImages | sessionSaved | errorSaveSession
  | deleteConfirmation.

Record AppState : Type := mkAppState {
  personImage : option UploadedImage;
  clothingImage : option UploadedImage;
  generatedImage : option GeneratedImage;
  isLoading : bool;
  loadingText : string;
  error : option string;
  view : View.t;
  history : list HistoryItem;
  removeBgEnabled : bool;
  styleTheme : StyleTheme;
  savedSession : option SavedSession.t;
  stylistPrompt : string;
  customStylistPrompt : string;
  preferredColors : string;
  suggestions : list ClothingSuggestion;
  suggestionImages : gmap string SuggestionImage;
  language : Language;
}.

(** The state setters of [useState]. *)
Definition set_personImage v s :=
  mkAppState v (clothingImage s) (generatedImage s) (isLoading s)
    (loadingText s) (error s) (view s) (history s) (removeBgEnabled s)
    (styleTheme s) (savedSession s) (stylistPrompt s)
    (customStylistPrompt s) (preferredColors s) (suggestions s)
    (suggestionImages s) (language s).

Definition set_clothingImage v s :=
  mkAppState (personImage s) v (generatedImage s) (isLoading s)
    (loadingText s) (error s) (view s) (history s) (removeBgEnabled s)
    (styleTheme s) (savedSession s) (stylistPrompt s)
    (customStylistPrompt s) (preferredColors s) (suggestions s)
    (suggestionImages s) (language s).

Definition set_generatedImage v s :=
  mkAppState (personImage s) (clothingImage s) v (isLoading s)
    (loadingText s) (error s) (view s) (history s) (removeBgEnabled s)
    (styleTheme s) (savedSession s) (stylistPrompt s)
    (customStylistPrompt s) (preferredColors s) (suggestions s)
    (suggestionImages s) (language s).

Definition set_isLoading v s :=
  mkAppState (personImage s) (clothingImage s) (generatedImage s) v
    (loadingText s) (error s) (view s) (history s) (removeBgEnabled s)
    (styleTheme s) (savedSession s) (stylistPrompt s)
    (customStylistPrompt s) (preferredColors s) (suggestions s)
    (suggestionImages s) (language s).

Definition set_loadingText v s :=
  mkAppState (personImage s) (clothingImage s) (generatedImage s)
    (isLoading s) v (error s) (view s) (history s) (removeBgEnabled s)
    (styleTheme s) (savedSession s) (stylistPrompt s)
    (customStylistPrompt s) (preferredColors s) (suggestions s)
    (suggestionImages s) (language s).

Definition set_error v s :=
  mkAppState (personImage s) (clothingImage s) (generatedImage s)
    (isLoading s) (loadingText s) v (view s) (history s) (removeBgEnabled s)
    (styleTheme s) (savedSession s) (stylistPrompt s)
    (customStylistPrompt s) (preferredColors s) (suggestions s)
    (suggestionImages s) (language s).

Definition set_view v s :=
  mkAppState (personImage s) (clothingImage s) (generatedImage s)
    (isLoading s) (loadingText s) (error s) v (history s)
    (removeBgEnabled s) (styleTheme s) (savedSession s) (stylistPrompt s)
    (customStylistPrompt s) (preferredColors s) (suggestions s)
    (suggestionImages s) (language s).

Definition set_history v s :=
  mkAppState (personImage s) (clothingImage s) (generatedImage s)
    (isLoading s) (loadingText s) (error s) (view s) v (removeBgEnabled s)
    (styleTheme s) (savedSession s) (stylistPrompt s)
    (customStylistPrompt s) (preferredColors s) (suggestions s)
    (suggestionImages s) (language s).

Definition set_removeBgEnabled v s :=
  mkAppState (personImage s) (clothingImage s) (generatedImage s)
    (isLoading s) (loadingText s) (error s) (view s) (history s) v
    (styleTheme s) (savedSession s) (stylistPrompt s)
    (customStylistPrompt s) (preferredColors s) (suggestions s)
    (suggestionImages s) (language s).

Definition set_styleTheme v s :=
  mkAppState (personImage s) (clothingImage s) (generatedImage s)
    (isLoading s) (loadingText s) (error s) (view s) (history s)
    (removeBgEnabled s) v (savedSession s) (stylistPrompt s)
    (customStylistPrompt s) (preferredColors s) (suggestions s)
    (suggestionImages s) (language s).

Definition set_savedSession v s :=
  mkAppState (personImage s) (clothingImage s) (generatedImage s)
    (isLoading s) (loadingText s) (error s) (view s) (history s)
    (removeBgEnabled s) (styleTheme s) v (stylistPrompt s)
    (customStylistPrompt s) (preferredColors s) (suggestions s)
    (suggestionImages s) (language s).

Definition set_stylistPrompt v s :=
  mkAppState (personImage s) (clothingImage s) (generatedImage s)
    (isLoading s) (loadingText s) (error s) (view s) (history s)
    (removeBgEnabled s) (styleTheme s) (savedSession s) v
    (customStylistPrompt s) (preferredColors s) (suggestions s)
    (suggestionImages s) (language s).

Definition set_customStylistPrompt v s :=
  mkAppState (personImage s) (clothingImage s) (generatedImage s)
    (isLoading s) (loadingText s) (error s) (view s) (history s)
    (removeBgEnabled s) (styleTheme s) (savedSession s) (stylistPrompt s) v
    (preferredColors s) (suggestions s) (suggestionImages s) (language s).

Definition set_preferredColors v s :=
  mkAppState (personImage s) (clothingImage s) (generatedImage s)
    (isLoading s) (loadingText s) (error s) (view s) (history s)
    (removeBgEnabled s) (styleTheme s) (savedSession s) (stylistPrompt s)
    (customStylistPrompt s) v (suggestions s) (suggestionImages s)
    (language s).

Definition set_suggestions v s :=
  mkAppState (personImage s) (clothingImage s) (generatedImage s)
    (isLoading s) (loadingText s) (error s) (view s) (history s)
    (removeBgEnabled s) (styleTheme s) (savedSession s) (stylistPrompt s)
    (customStylistPrompt s) (preferredColors s) v (suggestionImages s)
    (language s).

Definition set_suggestionImages v s :=
  mkAppState (personImage s) (clothingImage s) (generatedImage s)
    (isLoading s) (loadingText s) (error s) (view s) (history s)
    (removeBgEnabled s) (styleTheme s) (savedSession s) (stylistPrompt s)
    (customStylistPrompt s) (preferredColors s) (suggestions s) v
    (language s).

Definition set_language v s :=
  mkAppState (personImage s) (clothingImage s) (generatedImage s)
    (isLoading s) (loadingText s) (error s) (view s) (history s)
    (removeBgEnabled s) (styleTheme s) (savedSession s) (stylistPrompt s)
    (customStylistPrompt s) (preferredColors s) (suggestions s)
    (suggestionImages s) v.

(** *** The browser around the component *)

Record Browser : Type := mkBrowser {
  localStorage : gmap string string;
  console : list string;               (* the labels passed to [console.error] *)
  alerts : list string;
}.

Inductive StorageOp : Type :=
  | GetItem (key : string)
  | SetItem (key value : string)
  | RemoveItem (key : string).

(** The calls made on the gateway, with the arguments of the call site. *)
Inductive GatewayCall : Type :=
  | removeBackgroundCall (imageBase64 imageMimeType : string)
  | virtualTryOnCall (personBase64 personMimeType clothingBase64
                      clothingMimeType : string) (styleTheme : StyleTheme)
  | getClothingSuggestionsCall (prompt : string) (lang : Language)
                               (preferredColors : string)
  | generateClothingImageCall (description : string) (styleTheme : StyleTheme).

(** Everything the handlers take from outside: the gateway, the
    translation table (module [./translations]), the file reader, object
    URLs, whether a storage access throws (quota, access denied),
    [window.confirm], and [JSON.stringify]/[JSON.parse] at the types the
    state has. *)
Record Env : Type := mkEnv {
  gateway : Gateway.Env;
  translations : Language -> TranslationKey -> string;
  reader_error : File -> bool;
  createObjectURL : File -> string;
  storage_throws : gmap string string -> StorageOp -> bool;
  confirm : string -> bool;
  stringify_history : list HistoryItem -> string;
  parse_history : string -> JsResult (list HistoryItem);
  stringify_session : SavedSession.t -> string;
  parse_session : string -> JsResult SavedSession.t;
  parse_bool : string -> JsResult bool;
}.

(** [t(key)] of [useLocalization], called without arguments:
    [translations[language][key] || translations['en'][key]]. *)
Definition t (env : Env) (language : Language) (key : TranslationKey) : string :=
  or_else (translations env language key) (translations env En key).

Record World : Type := mkWorld {
  app : AppState;
  browser : Browser;
  calls : list GatewayCall;
}.

(** *** The handler monad

    A handler runs on the world and either returns or throws; what it did
    before throwing stays done.  An asynchronous handler is run from its
    call to its last continuation: the requests it awaits are answered by
    the environment, and nothing else touches the state in between. *)
Definition Handler (A : Type) : Type := World -> JsResult A * World.

Definition ret {A} (a : A) : Handler A := fun w => (Ok a, w).

Definition bind {A B} (c : Handler A) (k : A -> Handler B) : Handler B :=
  fun w =>
    match c w with
    | (Ok a, w') => k a w'
    | (Throw e, w') => (Throw e, w')
    end.

Notation "'let!' x ':=' c 'in' k" := (bind c (fun x => k))
  (at level 10, x pattern, c at level 100, k at level 200).
Notation "c >> k" := (bind c (fun _ => k))
  (at level 100, k at level 200, right associativity).

Definition throw {A} (e : JsError) : Handler A := fun w => (Throw e, w).

(** A promise already settled, awaited. *)
Definition await {A} (r : JsResult A) : Handler A := fun w => (r, w).

(** [try { body } catch (e) { handler e }] *)
Definition try_catch {A} (body : Handler A) (handler : JsError -> Handler A)
  : Handler A :=
  fun w =>
    match body w with
    | (Ok a, w') => (Ok a, w')
    | (Throw e, w') => handler e w'
    end.

(** [try { body } finally { final }] *)
Definition try_finally {A} (body : Handler A) (final : Handler unit)
  : Handler A :=
  fun w =>
    match body w with
    | (r, w') =>
        match final w' with
        | (Ok _, w'') => (r, w'')
        | (Throw e, w'') => (Throw e, w'')
        end
    end.

Definition get_app : Handler AppState := fun w => (Ok (app w), w).

Definition modify_app (f : AppState -> AppState) : Handler unit :=
  fun w => (Ok tt, mkWorld (f (app w)) (browser w) (calls w)).

Definition modify_browser (f : Browser -> Browser) : Handler unit :=
  fun w => (Ok tt, mkWorld (app w) (f (browser w)) (calls w)).

Definition setPersonImage v := modify_app (set_personImage v).
Definition setClothingImage v := modify_app (set_clothingImage v).
Definition setGeneratedImage v := modify_app (set_generatedImage v).
Definition setIsLoading v := modify_app (set_isLoading v).
Definition setLoadingText v := modify_app (set_loadingText v).
Definition setError v := modify_app (set_error v).
Definition setView v := modify_app (set_view v).
Definition setHistory (f : list HistoryItem -> list HistoryItem) :=
  modify_app (fun s => set_history (f (history s)) s).
Definition setRemoveBgEnabled v := modify_app (set_removeBgEnabled v).
Definition setStyleTheme v := modify_app (set_styleTheme v).
Definition setSavedSession v := modify_app (set_savedSession v).
Definition setStylistPrompt v := modify_app (set_stylistPrompt v).
Definition setCustomStylistPrompt v := modify_app (set_customStylistPrompt v).
Definition setPreferredColors v := modify_app (set_preferredColors v).
Definition setSuggestions v := modify_app (set_suggestions v).
Definition setSuggestionImages
    (f : gmap string SuggestionImage -> gmap string SuggestionImage) :=
  modify_app (fun s => set_suggestionImages (f (suggestionImages s)) s).

(** A gateway operation is started: the call is logged and the promise it
    returns is the operation run as the request with the next ordinal. *)
Definition gateway_start {A} (c : GatewayCall) (op : nat -> JsResult A)
  : Handler (JsResult A) :=
  fun w => (Ok (op (length (calls w))),
            mkWorld (app w) (browser w) (calls w ++ [c])).

(** [await operation(...)] *)
Definition gateway_call {A} (c : GatewayCall) (op : nat -> JsResult A)
  : Handler A :=
  let! promise := gateway_start c op in await promise.

(** [localStorage], whose every access may throw. *)
Definition storage_error : JsError := DOMException "SecurityError" EmptyString.

Definition getItem (env : Env) (key : string) : Handler (option string) :=
  fun w =>
    if storage_throws env (localStorage (browser w)) (GetItem key)
    then (Throw storage_error, w)
    else (Ok (localStorage (browser w) !! key), w).

Definition setItem (env : Env) (key value : string) : Handler unit :=
  fun w =>
    if storage_throws env (localStorage (browser w)) (SetItem key value)
    then (Throw storage_error, w)
    else (Ok tt, mkWorld (app w)
                   (mkBrowser (<[key := value]> (localStorage (browser w)))
                      (console (browser w)) (alerts (browser w)))
                   (calls w)).

Definition removeItem (env : Env) (key : string) : Handler unit :=
  fun w =>
    if storage_throws env (localStorage (browser w)) (RemoveItem key)
    then (Throw storage_error, w)
    else (Ok tt, mkWorld (app w)
                   (mkBrowser (delete key (localStorage (browser w)))
                      (console (browser w)) (alerts (browser w)))
                   (calls w)).

Definition console_error (label : string) : Handler unit :=
  modify_browser (fun b =>
    mkBrowser (localStorage b) (console b ++ [label]) (alerts b)).

Definition alert (msg : string) : Handler unit :=
  modify_browser (fun b =>
    mkBrowser (localStorage b) (console b) (alerts b ++ [msg])).

(* ===================================================================== *)
(** ** Handlers of the [App] component (App.tsx, lines 648-852)           *)
(* ===================================================================== *)

Inductive Slot : Type := PersonSlot | ClothingSlot.

Definition set_slot (slot : Slot) (v : option UploadedImage) : Handler unit :=
  match slot with
  | PersonSlot => setPersonImage v
  | ClothingSlot => setClothingImage v
  end.

(** [file.type.startsWith('image/')] *)
Definition is_image_type (mime : string) : bool :=
  String.prefix "image/" mime.

Definition handleImageChange (env : Env) (setter : Slot) (file : File)
  : Handler unit :=
  let! st := get_app in
  if negb (is_image_type (type file)) then
    setError (Some (t env (language st) errorInvalidImage))
  else
    let previewUrl := createObjectURL env file in
    set_slot setter (Some (mkUploaded file previewUrl)) >>
    setError None.

(** The requests of a try-on (the [try] block up to the [virtualTryOn]
    call).  The values read from the component state ([removeBgEnabled],
    [styleTheme], [t]) are those of the render whose closure is running,
    [st]. *)
Definition tryOn_requests (env : Env) (st : AppState)
    (personImage clothingImage : UploadedImage) : Handler ImageResult :=
  let t := t env (language st) in
  setLoadingText (t magicMessage) >>
  let! personBase64 :=
    await (fileToBase64 (reader_error env) (file personImage)) in
  let personMimeType := type (file personImage) in
  let! person :=
    (if removeBgEnabled st then
       setLoadingText (t removingBackground) >>
       let! bgRemoved :=
         gateway_call (removeBackgroundCall personBase64 personMimeType)
           (fun n => removeBackground (gateway env) n
                       personBase64 personMimeType) in
       ret (data bgRemoved, mimeType bgRemoved)
     else ret (personBase64, personMimeType)) in
  let personBase64 := fst person in
  let personMimeType := snd person in
  setLoadingText (t generatingLook) >>
  let! clothingBase64 :=
    await (fileToBase64 (reader_error env) (file clothingImage)) in
  gateway_call
    (virtualTryOnCall personBase64 personMimeType clothingBase64
       (type (file clothingImage)) (styleTheme st))
    (fun n => virtualTryOn (gateway env) n personBase64 personMimeType
                clothingBase64 (type (file clothingImage)) (styleTheme st)).

(** The rest of the [try] block: show the result and record it. *)
Definition tryOn_show (personImage clothingImage : UploadedImage)
    (result : ImageResult) : Handler unit :=
  let resultUrl := data_url (mimeType result) (data result) in
  setGeneratedImage (Some (mkGenerated resultUrl (mimeType result))) >>
  let newHistoryItem :=
    mkHistoryItem (previewUrl personImage) (previewUrl clothingImage)
      resultUrl in
  setHistory (fun prev => newHistoryItem :: prev) >>
  setView View.result.

(** What runs before the [try] block once both images are there. *)
Definition tryOn_begin : Handler unit :=
  setIsLoading true >>
  setError None >>
  setGeneratedImage None >>
  setView View.loading.

Definition handleTryOn (env : Env) : Handler unit :=
  let! st := get_app in
  let t := t env (language st) in
  match personImage st, clothingImage st with
  | Some personImage, Some clothingImage =>
      tryOn_begin >>
      try_finally
        (try_catch
           (let! result := tryOn_requests env st personImage clothingImage in
            tryOn_show personImage clothingImage result)
           (fun e =>
              setError (Some (or_else (message_of e) (t errorUnexpected))) >>
              setView View.tryOn))
        (setIsLoading false >>
         setLoadingText EmptyString)
  | _, _ => setError (Some (t errorNeedBothImagesUpload))
  end.

(** *** Suggestions *)

(** The [.then] callback of one image generation. *)
Definition on_image (suggestion : ClothingSuggestion) (imageResult : ImageResult)
  : Handler unit :=
  let imageUrl := data_url (mimeType imageResult) (data imageResult) in
  let! imageFile :=
    await (dataURLtoFile imageUrl
             (replace_spaces (name suggestion) +:+ ".png")) in
  match imageFile with
  | Some imageFile =>
      setSuggestionImages
        (fun prev => <[name suggestion :=
                         Ready imageUrl (mimeType imageResult) imageFile]> prev)
  | None => ret tt
  end.

(** The [.catch] callback. *)
Definition on_image_error (suggestion : ClothingSuggestion) (e : JsError)
  : Handler unit :=
  console_error ("Failed to generate image for " +:+ name suggestion) >>
  setSuggestionImages (fun prev => delete (name suggestion) prev).

(** [generateClothingImage(...).then(...).catch(...)] once the generation
    has settled with [outcome]. *)
Definition settle (suggestion : ClothingSuggestion)
    (outcome : JsResult ImageResult) : Handler unit :=
  try_catch
    (let! imageResult := await outcome in on_image suggestion imageResult)
    (on_image_error suggestion).

(** The body of [results.forEach]: mark the tile as loading, start the
    generation.  The pending promises are returned in call order. *)
Fixpoint start_generations (styleTheme : StyleTheme) (env : Env)
    (results : list ClothingSuggestion)
  : Handler (list (ClothingSuggestion * JsResult ImageResult)) :=
  match results with
  | [] => ret []
  | suggestion :: rest =>
      setSuggestionImages (fun prev => <[name suggestion := Loading]> prev) >>
      let! promise :=
        gateway_start
          (generateClothingImageCall (description suggestion) styleTheme)
          (fun n => generateClothingImage (gateway env) n
                      (description suggestion)) in
      let! pending := start_generations styleTheme env rest in
      ret ((suggestion, promise) :: pending)
  end.

(** [await Promise.all(imagePromises)]: the promises settle one at a time,
    [order] giving the positions in settling order. *)
Fixpoint settle_all (pending : list (ClothingSuggestion * JsResult ImageResult))
    (order : list nat) : Handler unit :=
  match order with
  | [] => ret tt
  | i :: rest =>
      match pending !! i with
      | Some (suggestion, outcome) =>
          settle suggestion outcome >> settle_all pending rest
      | None => settle_all pending rest
      end
  end.

Definition finalPrompt (st : AppState) : string :=
  if String.eqb (stylistPrompt st) "custom" then customStylistPrompt st
  else stylistPrompt st.

(** [handleGetSuggestions], run by the closure of the render whose state
    is [st].  The 200 ms timer only turns [isLoading] on while the request
    is pending; the [finally] block turns it off. *)
Definition getSuggestions_in (env : Env) (order : list nat) (st : AppState)
  : Handler unit :=
  let t := t env (language st) in
  let finalPrompt := finalPrompt st in
  if negb (truthy finalPrompt) then setError (Some (t errorSelectStyle))
  else
    setLoadingText (t gettingSuggestions) >>
    setError None >>
    setSuggestions [] >>
    setSuggestionImages (fun _ => ∅) >>
    try_finally
      (try_catch
         (let! results :=
            gateway_call
              (getClothingSuggestionsCall finalPrompt (language st)
                 (preferredColors st))
              (fun n => getClothingSuggestions (gateway env) n finalPrompt
                          (language st)) in
          setSuggestions results >>
          setLoadingText (t generatingImageGallery) >>
          let! imagePromises :=
            start_generations (styleTheme st) env results in
          settle_all imagePromises order)
         (fun e => setError (Some (or_else (message_of e) (t errorUnexpected)))))
      (setIsLoading false >>
       setLoadingText EmptyString).

Definition handleGetSuggestions (env : Env) (order : list nat) : Handler unit :=
  let! st := get_app in getSuggestions_in env order st.

Definition handleUseSuggestionImage (env : Env) (file : File) : Handler unit :=
  let previewUrl := createObjectURL env file in
  setClothingImage (Some (mkUploaded file previewUrl)) >>
  setError None.

(** *** Sessions *)

Definition handleSaveSession (env : Env) : Handler unit :=
  let! st := get_app in
  let t := t env (language st) in
  match personImage st, clothingImage st with
  | Some personImage, Some clothingImage =>
      let session :=
        SavedSession.mk (previewUrl personImage) (previewUrl clothingImage)
          (removeBgEnabled st) (styleTheme st) in
      try_catch
        (setItem env "trayonSavedSession" (stringify_session env session) >>
         setSavedSession (Some session) >>
         alert (t sessionSaved))
        (fun _ => setError (Some (t errorSaveSession)))
  | _, _ => setError (Some (t errorNeedBothImages))
  end.

Definition handleLoadSession : Handler unit :=
  let! st := get_app in
  match savedSession st with
  | Some savedSession =>
      let! personFile :=
        await (dataURLtoFile (SavedSession.personImage savedSession) "person.png") in
      let! clothingFile :=
        await (dataURLtoFile (SavedSession.clothingImage savedSession) "clothing.png") in
      match personFile with
       | Some personFile =>
           setPersonImage
             (Some (mkUploaded personFile (SavedSession.personImage savedSession)))
       | None => ret tt
       end >>
      match clothingFile with
       | Some clothingFile =>
           setClothingImage
             (Some (mkUploaded clothingFile (SavedSession.clothingImage savedSession)))
       | None => ret tt
       end >>
      setRemoveBgEnabled (SavedSession.removeBgEnabled savedSession) >>
      setStyleTheme (SavedSession.styleTheme savedSession) >>
      setView View.tryOn
  | None => ret tt
  end.

Definition handleStartNew (env : Env) : Handler unit :=
  setPersonImage None >>
  setClothingImage None >>
  setGeneratedImage None >>
  setError None >>
  setStyleTheme Photorealistic >>
  setRemoveBgEnabled true >>
  setStylistPrompt EmptyString >>
  setCustomStylistPrompt EmptyString >>
  setPreferredColors EmptyString >>
  setSuggestions [] >>
  setSuggestionImages (fun _ => ∅) >>
  removeItem env "trayonPersonImage" >>
  removeItem env "trayonClothingImage".

(** The menu button: [() => { handleStartNew(); setView('tryOn'); }]. *)
Definition onStart (env : Env) : Handler unit :=
  handleStartNew env >> setView View.tryOn.

(** *** History *)

(** [prev.filter((_, index) => keep(_, index))], [index] counting from
    [from]. *)
Fixpoint filter_index {A} (keep : A -> nat -> bool) (from : nat) (l : list A)
  : list A :=
  match l with
  | [] => []
  | x :: r =>
      if keep x from then x :: filter_index keep (S from) r
      else filter_index keep (S from) r
  end.

Definition handleDeleteHistoryItem (env : Env) (indexToDelete : nat)
  : Handler unit :=
  let! st := get_app in
  if confirm env (t env (language st) deleteConfirmation) then
    setHistory (fun prev =>
      filter_index (fun _ index => negb (index =? indexToDelete)%nat) 0 prev)
  else ret tt.

(** *** Hooks and persistence effects (App.tsx, lines 68-106, 538-643) *)

(** [useTheme]: the lazy initialiser and the effect run when [theme]
    changes. *)
Definition useTheme_init (env : Env) : Handler string :=
  try_catch
    (let! savedTheme := getItem env "trayonTheme" in
     ret (match savedTheme with
          | Some savedTheme => or_else savedTheme "light"
          | None => "light"
          end))
    (fun _ => ret "light").

Definition useTheme_effect (env : Env) (theme : string) : Handler unit :=
  try_catch (setItem env "trayonTheme" theme)
    (fun _ => console_error "Failed to save theme").

Definition language_code (l : Language) : string :=
  match l with En => "en" | Ru => "ru" end.

(** The unchecked cast [as Language]; the type has the two values the code
    ever stores, a text other than ['en'] is read as ['ru'] (the code
    would keep such a text as it is). *)
Definition as_Language (s : string) : Language :=
  if String.eqb s "en" then En else Ru.

Definition useLocalization_init (env : Env) : Handler Language :=
  try_catch
    (let! savedLang := getItem env "trayonLanguage" in
     ret (match savedLang with
          | Some savedLang => if truthy savedLang then as_Language savedLang else Ru
          | None => Ru
          end))
    (fun _ => ret Ru).

Definition useLocalization_effect (env : Env) : Handler unit :=
  let! st := get_app in
  try_catch (setItem env "trayonLanguage" (language_code (language st)))
    (fun _ => console_error "Failed to save language").

Definition removeBgEnabled_init (env : Env) : Handler bool :=
  try_catch
    (let! saved := getItem env "trayonRemoveBg" in
     match saved with
     | Some saved => await (parse_bool env saved)
     | None => ret true
     end)
    (fun _ => ret true).

Definition styleTheme_name (s : StyleTheme) : string :=
  match s with
  | Photorealistic => "Photorealistic"
  | MagazineCover => "Magazine Cover"
  | Artistic => "Artistic"
  end.

Definition styleTheme_init (env : Env) : Handler StyleTheme :=
  try_catch
    (let! saved := getItem env "trayonStyleTheme" in
     ret (match saved with
          | Some saved =>
              if String.eqb saved "Photorealistic" then Photorealistic
              else if String.eqb saved "Magazine Cover" then MagazineCover
              else if String.eqb saved "Artistic" then Artistic
              else Photorealistic
          | None => Photorealistic
          end))
    (fun _ => ret Photorealistic).

(** [if (text) body(text)] for a text read from storage. *)
Definition when_present (text : option string) (body : string -> Handler unit)
  : Handler unit :=
  match text with
  | Some text => if truthy text then body text else ret tt
  | None => ret tt
  end.

Definition restore_image (slot : Slot) (filename : string) (persisted : string)
  : Handler unit :=
  let! file := await (dataURLtoFile persisted filename) in
  match file with
  | Some file => set_slot slot (Some (mkUploaded file persisted))
  | None => ret tt
  end.

(** The effect run once after the first render. *)
Definition load_effect (env : Env) : Handler unit :=
  try_catch
    (let! savedHistory := getItem env "trayonHistory" in
     when_present savedHistory (fun savedHistory =>
       let! parsed := await (parse_history env savedHistory) in
       setHistory (fun _ => parsed)) >>
     let! savedSessionData := getItem env "trayonSavedSession" in
     when_present savedSessionData (fun savedSessionData =>
       let! parsed := await (parse_session env savedSessionData) in
       setSavedSession (Some parsed)) >>
     let! persistedPerson := getItem env "trayonPersonImage" in
     let! persistedClothing := getItem env "trayonClothingImage" in
     when_present persistedPerson (restore_image PersonSlot "person.png") >>
     when_present persistedClothing (restore_image ClothingSlot "clothing.png"))
    (fun _ => console_error "Failed to load data from localStorage").

Definition persist_history (env : Env) : Handler unit :=
  let! st := get_app in
  try_catch (setItem env "trayonHistory" (stringify_history env (history st)))
    (fun _ => console_error "Failed to save history").

Definition persist_removeBg (env : Env) : Handler unit :=
  let! st := get_app in
  try_catch
    (setItem env "trayonRemoveBg" (if removeBgEnabled st then "true" else "false"))
    (fun _ => console_error "Failed to save removeBg setting").

Definition persist_styleTheme (env : Env) : Handler unit :=
  let! st := get_app in
  try_catch (setItem env "trayonStyleTheme" (styleTheme_name (styleTheme st)))
    (fun _ => console_error "Failed to save style theme").

Definition persist_image (env : Env) (key label : string)
    (image : option UploadedImage) : Handler unit :=
  try_catch
    (match image with
     | Some image => setItem env key (previewUrl image)
     | None => removeItem env key
     end)
    (fun _ => console_error label).

Definition persist_personImage (env : Env) : Handler unit :=
  let! st := get_app in
  persist_image env "trayonPersonImage" "Failed to save person image"
    (personImage st).

Definition persist_clothingImage (env : Env) : Handler unit :=
  let! st := get_app in
  persist_image env "trayonClothingImage" "Failed to save clothing image"
    (clothingImage st).

(** *** Vocabulary for the suggestion properties *)

(** The promises [forEach] creates when the first image request has the
    ordinal [n]. *)
Definition pending_of (env : Env) (n : nat) (results : list ClothingSuggestion)
  : list (ClothingSuggestion * JsResult ImageResult) :=
  imap (fun i suggestion =>
          (suggestion,
           generateClothingImage (gateway env) (n + i) (description suggestion)))
    results.

(** What [settle] leaves under the name of a suggestion whose tile was
    loading: the image, the untouched ['loading'] mark when the data URL
    gives no file, or nothing. *)
Definition settled_entry (suggestion : ClothingSuggestion)
    (outcome : JsResult ImageResult) : option SuggestionImage :=
  match outcome with
  | Ok imageResult =>
      let imageUrl := data_url (mimeType imageResult) (data imageResult) in
      match dataURLtoFile imageUrl
              (replace_spaces (name suggestion) +:+ ".png") with
      | Ok (Some imageFile) =>
          Some (Ready imageUrl (mimeType imageResult) imageFile)
      | Ok None => Some Loading
      | Throw _ => None
      end
  | Throw _ => None
  end.

(** The world with another text in the preferred-colors field, and the
    world with every trace of that text removed. *)
Definition with_colors (colors : string) (w : World) : World :=
  mkWorld (set_preferredColors colors (app w)) (browser w) (calls w).

Definition forget_call (c : GatewayCall) : GatewayCall :=
  match c with
  | getClothingSuggestionsCall prompt lang _ =>
      getClothingSuggestionsCall prompt lang EmptyString
  | _ => c
  end.

Definition forget_colors (w : World) : World :=
  mkWorld (set_preferredColors EmptyString (app w)) (browser w)
    (map forget_call (calls w)).

(** A generation that failed. *)
Definition rejected {A} (outcome : JsResult A) : bool :=
  match outcome with
  | Throw _ => true
  | Ok _ => false
  end.

(** The tiles marked as loading by [forEach]. *)
Definition mark_loading (images : gmap string SuggestionImage)
    (results : list ClothingSuggestion) : gmap string SuggestionImage :=
  foldl (fun m suggestion => <[name suggestion := Loading]> m) images results.

(** Two worlds that differ at most in the preferred-colors text, and
    handlers that cannot tell such worlds apart. *)
Definition agree (w1 w2 : World) : Prop := forget_colors w1 = forget_colors w2.

Definition sim {A} (h1 h2 : Handler A) : Prop :=
  forall w1 w2, agree w1 w2 ->
    fst (h1 w1) = fst (h2 w2) /\ agree (snd (h1 w1)) (snd (h2 w2)).


(** *** Vocabulary for the storage properties *)

(** The world after [console.error(label)]. *)
Definition logged (label : string) (w : World) : World :=
  mkWorld (app w)
    (mkBrowser (localStorage (browser w)) (console (browser w) ++ [label])
       (alerts (browser w)))
    (calls w).

(** The storage access an image effect makes. *)
Definition image_access (key : string) (image : option UploadedImage)
  : StorageOp :=
  match image with
  | Some image => SetItem key (previewUrl image)
  | None => RemoveItem key
  end.

(** The persistence effects with the storage access each one makes in the
    state [st] and the label it logs when the access throws. *)
Definition persistence_effects (env : Env) (theme : string) (st : AppState)
  : list (Handler unit * StorageOp * string) :=
  [ (useTheme_effect env theme, SetItem "trayonTheme" theme,
     "Failed to save theme");
    (useLocalization_effect env,
     SetItem "trayonLanguage" (language_code (language st)),
     "Failed to save language");
    (persist_history env,
     SetItem "trayonHistory" (stringify_history env (history st)),
     "Failed to save history");
    (persist_removeBg env,
     SetItem "trayonRemoveBg" (if removeBgEnabled st then "true" else "false"),
     "Failed to save removeBg setting");
    (persist_styleTheme env,
     SetItem "trayonStyleTheme" (styleTheme_name (styleTheme st)),
     "Failed to save style theme");
    (persist_personImage env,
     image_access "trayonPersonImage" (personImage st),
     "Failed to save person image");
    (persist_clothingImage env,
     image_access "trayonClothingImage" (clothingImage st),
     "Failed to save clothing image") ].

(** The snapshot [handleSaveSession] builds. *)
Definition snapshot (st : AppState) (p c : UploadedImage) : SavedSession.t :=
  SavedSession.mk (previewUrl p) (previewUrl c) (removeBgEnabled st)
    (styleTheme st).

End App.

(* ===================================================================== *)
(** ** Sample inputs                                                      *)
(* ===================================================================== *)

Module Samples.
Import Js Codec Gateway App.

Definition photo : File := mkFile [x89; x50; x4e; x47] "me.png" "image/png".
Definition dress : File := mkFile [xff; xd8; xff] "dress.jpg" "image/jpeg".
Definition logo : File :=
  mkFile [x41; x42; x43] "logo.svg" "image/svg+xml;charset=utf-8".

(** A translation table to run the handlers with. *)
Definition english (key : TranslationKey) : string :=
  match key with
  | errorInvalidImage => "Please upload a valid image file."
  | errorNeedBothImagesUpload => "Please upload both a person and a clothing item."
  | magicMessage => "AI is working its magic..."
  | removingBackground => "Removing background..."
  | generatingLook => "Generating your look..."
  | errorUnexpected => "An unexpected error occurred."
  | errorSelectStyle => "Please select a style."
  | gettingSuggestions => "Getting suggestions..."
  | generatingImageGallery => "Generating images..."
  | errorNeedBothImages => "Both images are needed to save a session."
  | sessionSaved => "Session saved."
  | errorSaveSession => "Could not save the session."
  | deleteConfirmation => "Delete this item?"
  end.

Definition picture (mimeType : string) : Response :=
  mkResponse [mkCandidate [InlineData "QUJD" mimeType]] None EmptyString.

Definition coat : ClothingSuggestion := mkSuggestion "Wool coat" "A long grey wool coat".
Definition scarf : ClothingSuggestion := mkSuggestion "Silk scarf" "A red silk scarf".
Definition boots : ClothingSuggestion := mkSuggestion "Ankle boots" "Black leather ankle boots".

(** A model that answers every request with a PNG. *)
Definition studio : Gateway.Env :=
  Gateway.mkEnv "key" (fun _ _ => Ok (picture "image/png"))
    (fun _ => Ok (Some [coat; scarf; boots])).

(** No network. *)
Definition offline : Gateway.Env :=
  Gateway.mkEnv "key" (fun _ _ => Throw (Error "Failed to fetch"))
    (fun _ => Ok None).

(** The second request (the image of the first suggestion) fails; the
    fourth is answered with the MIME type [last]. *)
Definition stylist (last : string) : Gateway.Env :=
  Gateway.mkEnv "key"
    (fun n _ =>
       match n with
       | 1 => Throw (Error "Failed to fetch")
       | 3 => Ok (picture last)
       | _ => Ok (picture "image/png")
       end)
    (fun _ => Ok (Some [coat; scarf; boots])).

(** A model that sends back the text it was asked with, as the one
    suggestion of its answer. *)
Definition echo : Gateway.Env :=
  Gateway.mkEnv "key"
    (fun _ request =>
       Ok (mkResponse []  None
             match contents request with
             | Prompt text => text
             | Parts _ => EmptyString
             end))
    (fun text => Ok (Some [mkSuggestion text text])).

(** Object URLs: [blob:], the origin, an identifier. *)
Definition blob_url (f : File) : string :=
  "blob:http://localhost:3000/" +:+ Js.name f.

Definition browser_env (gw : Gateway.Env)
    (storage_throws : gmap string string -> StorageOp -> bool) : App.Env :=
  App.mkEnv gw (fun _ => english) (fun _ => false) blob_url storage_throws
    (fun _ => true)
    (fun _ => "[]") (fun _ => Ok [])
    (fun _ => "{}") (fun _ => Throw (Error "Unexpected end of JSON input"))
    (fun s => Ok (String.eqb s "true")).

Definition storage_ok : gmap string string -> StorageOp -> bool :=
  fun _ _ => false.

(** The quota is used up: every write throws. *)
Definition storage_full : gmap string string -> StorageOp -> bool :=
  fun _ op => match op with SetItem _ _ => true | _ => false end.

(** Storage access is denied: every access throws. *)
Definition storage_denied : gmap string string -> StorageOp -> bool :=
  fun _ _ => true.

Definition initial : AppState :=
  mkAppState None None None false EmptyString None View.start [] true
    Photorealistic None EmptyString EmptyString EmptyString [] ∅ Ru.

Definition fresh : World := mkWorld initial (mkBrowser ∅ [] []) [].

(** Both images uploaded, on the try-on screen. *)
Definition ready : World :=
  mkWorld
    (set_view View.tryOn
       (set_clothingImage (Some (mkUploaded dress (blob_url dress)))
          (set_personImage (Some (mkUploaded photo (blob_url photo))) initial)))
    (mkBrowser ∅ [] []) [].

(** A style chosen in the stylist panel. *)
Definition styled : World :=
  mkWorld (set_stylistPrompt "A casual weekend outfit" (app ready))
    (browser ready) [].

(** Upload two pictures, choose the settings, save the session, start
    over, then load the saved session. *)
Definition save_restart_load (env : App.Env) : Handler unit :=
  onStart env >>
  handleImageChange env PersonSlot photo >>
  handleImageChange env ClothingSlot dress >>
  setRemoveBgEnabled false >>
  setStyleTheme Artistic >>
  handleSaveSession env >>
  setView View.start >>
  onStart env >>
  setView View.start >>
  handleLoadSession.

End Samples.

(* ===================================================================== *)
(** ** Further vocabulary for the codec                                   *)
(* ===================================================================== *)

Module CodecMore.
Import Js Codec.

(** The text up to the first semicolon: what the capture of
    [/:(.*?);/] keeps of a MIME type. *)
Fixpoint before_semicolon (s : string) : string :=
  match s with
  | EmptyString => EmptyString
  | String c r =>
      if Ascii.eqb c ";"%char then EmptyString
      else String c (before_semicolon r)
  end.

(** No comma. *)
Definition comma_free (s : string) : bool :=
  string_forall (fun c => negb (is_comma c)) s.

(** No comma and no line terminator. *)
Definition one_line (s : string) : bool :=
  string_forall (fun c => negb (is_comma c || is_line_terminator c)) s.

(** A character [atob] rejects: not in the alphabet, not white space, not
    the padding sign. *)
Definition foreign_char (c : ascii) : bool :=
  negb (is_ascii_whitespace c) && negb (is_equals c)
  && match b64_index c with Some _ => false | None => true end.

Fixpoint string_exists (p : ascii -> bool) (s : string) : bool :=
  match s with
  | EmptyString => false
  | String c r => p c || string_exists p r
  end.

(** [payload.split(',')[0]]: of the text after the first comma of a data
    URL, the part [dataURLtoFile] hands to [atob]. *)
Definition first_field (s : string) : string :=
  match split_comma s with
  | field :: _ => field
  | [] => EmptyString
  end.

(** The type [new File(bits, name, {type})] gives the file: the empty
    text when [type] holds a character outside U+0020..U+007E, else
    [type] in ASCII lower case.  The files of the model carry the type
    they were built with; the two agree exactly on the types that
    [File_type] leaves as they are. *)
Definition ascii_lower (c : ascii) : ascii :=
  let n := N_of_ascii c in
  if ((65 <=? n) && (n <=? 90))%N then ascii_of_N (n + 32) else c.

Fixpoint lower_case (s : string) : string :=
  match s with
  | EmptyString => EmptyString
  | String c r => String (ascii_lower c) (lower_case r)
  end.

Definition File_type (type : string) : string :=
  if string_forall (fun c => ((32 <=? N_of_ascii c) && (N_of_ascii c <=? 126))%N)
       type
  then lower_case type
  else EmptyString.

(** A text of ASCII characters: its code units and its UTF-8 bytes are
    the same. *)
Definition ascii_text (s : string) : bool :=
  string_forall (fun c => (N_of_ascii c <? 128)%N) s.

End CodecMore.

(* ===================================================================== *)
(** ** The earlier gateway client (services/geminiService, first version) *)
(* ===================================================================== *)

Module Legacy.
Import Js Gateway.

(** [virtualTryOn(person, personMime, clothing, clothingMime)], before the
    style themes were introduced: one fixed prompt. *)
Definition try_on_request (personImageBase64 personImageMimeType
    clothingImageBase64 clothingImageMimeType : string) : Request :=
  mkRequest "gemini-2.5-flash-image"
    (Parts [fileToGenerativePart personImageBase64 personImageMimeType;
            fileToGenerativePart clothingImageBase64 clothingImageMimeType;
            TextPart "You are an expert virtual stylist. Your task is to take the person from the first image and dress them in the outfit from the second image. The final image should look realistic, preserving the person's face, body pose, and the original background as much as possible. Only output the final generated image."])
    image_config.

Definition virtualTryOn (env : Env) (n : nat)
    (personImageBase64 personImageMimeType
     clothingImageBase64 clothingImageMimeType : string)
  : JsResult ImageResult :=
  if truthy (API_KEY env) then
    rethrow_as "Failed to generate image. Please check the console for more details."
      (bindR (generateContent env n
                (try_on_request personImageBase64 personImageMimeType
                   clothingImageBase64 clothingImageMimeType))
         (image_or_throw "Image generation was blocked due to: "
                         "No image was generated in the response."))
  else Throw (Error "API_KEY environment variable is not set.").

End Legacy.

(* ===================================================================== *)
(** ** Further vocabulary for the gateway                                 *)
(* ===================================================================== *)

Module GatewayMore.
Import Js Gateway.

(** The three image operations, each with its arguments. *)
Inductive ImageOperation : Type :=
  | GenerateClothingImage (description : string)
  | RemoveBackground (imageBase64 imageMimeType : string)
  | VirtualTryOn (personImageBase64 personImageMimeType
                  clothingImageBase64 clothingImageMimeType : string)
                 (styleTheme : StyleTheme).

Definition run_operation (env : Env) (n : nat) (op : ImageOperation)
  : JsResult ImageResult :=
  match op with
  | GenerateClothingImage d => generateClothingImage env n d
  | RemoveBackground b m => removeBackground env n b m
  | VirtualTryOn pb pm cb cm s => virtualTryOn env n pb pm cb cm s
  end.

Definition request_of (op : ImageOperation) : Request :=
  match op with
  | GenerateClothingImage d => clothing_image_request d
  | RemoveBackground b m => remove_background_request b m
  | VirtualTryOn pb pm cb cm s => try_on_request pb pm cb cm s
  end.

(** The message of the error an operation throws for whatever went wrong
    inside its [try] block. *)
Definition failure_message (op : ImageOperation) : string :=
  match op with
  | GenerateClothingImage _ =>
      "Failed to generate clothing image. Please check the console."
  | RemoveBackground _ _ =>
      "Failed to remove background. Please check the console for more details."
  | VirtualTryOn _ _ _ _ _ =>
      "Failed to generate image. Please check the console for more details."
  end.

(** The parts of the request that carry an image. *)
Definition image_parts (request : Request) : list Part :=
  match contents request with
  | Parts ps => List.filter is_inline ps
  | Prompt _ => []
  end.

End GatewayMore.

(* ===================================================================== *)
(** ** Further vocabulary for the handlers                                *)
(* ===================================================================== *)

Module AppMore.
Import Js Codec Gateway App.

(** The part of the state a try-on has no business with: the uploads, the
    settings, the saved session and the stylist panel. *)
Definition beside_tryOn (st : AppState) :=
  (personImage st, clothingImage st, removeBgEnabled st, styleTheme st,
   savedSession st, stylistPrompt st, customStylistPrompt st,
   preferredColors st, suggestions st, suggestionImages st, language st).

(** The part of the state the stylist panel has no business with. *)
Definition beside_suggestions (st : AppState) :=
  (personImage st, clothingImage st, generatedImage st, view st, history st,
   removeBgEnabled st, styleTheme st, savedSession st, stylistPrompt st,
   customStylistPrompt st, preferredColors st, language st).

(** The part of the state that saving and loading a session, and sharing,
    leave alone. *)
Definition beside_session (st : AppState) :=
  (generatedImage st, isLoading st, loadingText st, history st,
   stylistPrompt st, customStylistPrompt st, preferredColors st,
   suggestions st, suggestionImages st, language st).

(** What [handleStartNew] resets. *)
Definition reset_by_startNew (st : AppState) :=
  (personImage st, clothingImage st, generatedImage st, error st,
   styleTheme st, removeBgEnabled st, stylistPrompt st,
   customStylistPrompt st, preferredColors st, suggestions st,
   suggestionImages st).

(** What saving a session leaves alone besides. *)
Definition beside_save (st : AppState) :=
  (personImage st, clothingImage st, view st, removeBgEnabled st,
   styleTheme st, beside_session st).

(** The state [handleStartNew] leaves in the fields it resets. *)
Definition cleared :=
  (@None UploadedImage, @None UploadedImage, @None GeneratedImage,
   @None string, Photorealistic, true, EmptyString, EmptyString, EmptyString,
   @nil ClothingSuggestion, (∅ : gmap string SuggestionImage)).

(** The state after the setters of [handleStartNew]. *)
Definition started_over (st : AppState) : AppState :=
  set_suggestionImages ∅
    (set_suggestions []
       (set_preferredColors EmptyString
          (set_customStylistPrompt EmptyString
             (set_stylistPrompt EmptyString
                (set_removeBgEnabled true
                   (set_styleTheme Photorealistic
                      (set_error None
                         (set_generatedImage None
                            (set_clothingImage None
                               (set_personImage None st)))))))))).

(** The browser with a key removed from the storage. *)
Definition without (key : string) (b : Browser) : Browser :=
  mkBrowser (delete key (localStorage b)) (console b) (alerts b).

(** Two worlds with the same tiles and the same browser. *)
Definition same_panel (w1 w2 : World) : Prop :=
  suggestionImages (app w1) = suggestionImages (app w2)
  /\ browser w1 = browser w2.

(** The world of [handleGetSuggestions] once the suggestions [results]
    have come and [forEach] has marked the tiles and started the
    generations. *)
Definition marked (env : Env) (w : World) (results : list ClothingSuggestion)
  : World :=
  mkWorld
    (set_suggestionImages (mark_loading ∅ results)
       (set_loadingText (t env (language (app w)) generatingImageGallery)
          (set_suggestions results
             (set_suggestionImages ∅
                (set_suggestions []
                   (set_error None
                      (set_loadingText
                         (t env (language (app w)) gettingSuggestions)
                         (app w))))))))
    (browser w)
    (calls w
       ++ getClothingSuggestionsCall (finalPrompt (app w)) (language (app w))
            (preferredColors (app w))
       :: map (fun s => generateClothingImageCall (description s)
                          (styleTheme (app w))) results).

(** The world [handleGetSuggestions] leaves when the generations started
    in the world [m] have settled in the order [order]. *)
Definition finished (pending : list (ClothingSuggestion * JsResult ImageResult))
    (order : list nat) (m : World) : World :=
  let settled := snd (settle_all pending order m) in
  mkWorld (set_loadingText EmptyString (set_isLoading false (app settled)))
    (browser settled) (calls settled).

(** The page is loaded again: the component starts from a state of its
    own, and finds under [key] what the last visit left there. *)
Definition same_item (key : string) (w1 w2 : World) : Prop :=
  localStorage (browser w1) !! key = localStorage (browser w2) !! key.

(** The storage works: no access throws. *)
Definition storage_works (env : Env) : Prop :=
  forall store op, storage_throws env store op = false.

End AppMore.

(* ===================================================================== *)
(** ** The controls of the stylist panel (App.tsx, lines 969-991)         *)
(* ===================================================================== *)

Module Screen.
Import Js Codec Gateway App.

(** The [disabled] attribute of the suggestions button:
    [isLoading || (!stylistPrompt ||
       (stylistPrompt === 'custom' && !customStylistPrompt))]. *)
Definition getSuggestions_disabled (st : AppState) : bool :=
  isLoading st
  || (negb (truthy (stylistPrompt st))
      || (String.eqb (stylistPrompt st) "custom"
          && negb (truthy (customStylistPrompt st)))).

(** The [onClick] of a suggestion tile:
    [const imageInfo = suggestionImages[suggestion.name];
     if (imageInfo && imageInfo !== 'loading')
       handleUseSuggestionImage(imageInfo.file);] *)
Definition onTileClick (env : Env) (suggestion : ClothingSuggestion)
  : Handler unit :=
  let! st := get_app in
  match suggestionImages st !! name suggestion with
  | Some (Ready _ _ file) => handleUseSuggestionImage env file
  | Some Loading => ret tt
  | None => ret tt
  end.

End Screen.

(* ===================================================================== *)
(** ** Sharing the result (App.tsx, lines 771-793)                        *)
(* ===================================================================== *)

Module Share.
Import Js Codec Gateway App.

(** The translation keys [handleShare] looks up. *)
Inductive ShareKey : Type :=
  | errorCreateFile | shareTitle | shareText | errorShareSupport
  | errorShareGeneric.

(** The argument of [navigator.share]. *)
Record ShareData : Type := mkShareData {
  files : list File;
  title : string;
  text : string;
}.

(** The Web Share API, either function of which a browser may lack:
    [navigator.share] resolves or rejects (the user dismissed the sheet,
    permission denied), [navigator.canShare] tells whether the files can
    be shared. *)
Record Navigator : Type := mkNavigator {
  share : option (ShareData -> JsResult unit);
  canShare : option (list File -> bool);
}.

Record Env : Type := mkEnv {
  navigator : Navigator;
  translations : Language -> ShareKey -> string;
}.

(** [t(key)], as in [App.t]. *)
Definition t (env : Env) (language : Language) (key : ShareKey) : string :=
  or_else (translations env language key) (translations env En key).

Definition handleShare (env : Env) : Handler unit :=
  let! st := get_app in
  let t := t env (language st) in
  match generatedImage st, share (navigator env) with
  | Some generatedImage, Some share =>
      if negb (truthy (url generatedImage)) then ret tt
      else
        try_catch
          (let! file :=
             await (dataURLtoFile (url generatedImage) "tryon-result.png") in
           match file with
           | None => throw (Error (t errorCreateFile))
           | Some file =>
               match canShare (navigator env) with
               | Some canShare =>
                   if canShare [file] then
                     await (share (mkShareData [file] (t shareTitle)
                                     (t shareText)))
                   else throw (Error (t errorShareSupport))
               | None => throw (Error (t errorShareSupport))
               end
           end)
          (fun e =>
             console_error "Share failed:" >>
             setError (Some (or_else (message_of e) (t errorShareGeneric))))
  | _, _ => ret tt
  end.

(** The world after a share that failed with the error [e]. *)
Definition share_failed (env : Env) (e : JsError) (w : World) : World :=
  mkWorld
    (set_error
       (Some (or_else (message_of e)
                (t env (language (app w)) errorShareGeneric)))
       (app w))
    (mkBrowser (localStorage (browser w))
       (console (browser w) ++ ["Share failed:"]) (alerts (browser w)))
    (calls w).

(** A browser with the whole Web Share API, that accepts every file and
    whose user goes through with the share; one where the user dismisses
    the sheet; one without the API. *)
Definition sharing : Navigator :=
  mkNavigator (Some (fun _ => Ok tt)) (Some (fun _ => true)).

Definition dismissing : Navigator :=
  mkNavigator (Some (fun _ => Throw (DOMException "AbortError" "Share canceled")))
    (Some (fun _ => true)).

Definition english (key : ShareKey) : string :=
  match key with
  | errorCreateFile => "Could not create the file to share."
  | shareTitle => "My virtual try-on"
  | shareText => "Look what I tried on!"
  | errorShareSupport => "Sharing files is not supported here."
  | errorShareGeneric => "Sharing failed."
  end.

End Share.

(* ===================================================================== *)
(** ** The first version of the component (App.tsx, first version)        *)
(* ===================================================================== *)

Module LegacyApp.
Import Js Codec Gateway App.

Record AppState : Type := mkAppState {
  personImage : option UploadedImage;
  clothingImage : option UploadedImage;
  generatedImage : option string;
  isLoading : bool;
  error : option string;
}.

(** [handleTryOn] of the first version, run as the request with the
    ordinal [n]: the state it leaves and what it passes to
    [console.error]. *)
Definition handleTryOn (gateway : Gateway.Env) (reader_error : File -> bool)
    (n : nat) (st : AppState) : AppState * list JsError :=
  match personImage st, clothingImage st with
  | Some person, Some clothing =>
      let outcome :=
        bindR (fileToBase64 reader_error (file person)) (fun personImageBase64 =>
        bindR (fileToBase64 reader_error (file clothing)) (fun clothingImageBase64 =>
          Legacy.virtualTryOn gateway n
            personImageBase64 (type (file person))
            clothingImageBase64 (type (file clothing)))) in
      match outcome with
      | Ok result =>
          (mkAppState (personImage st) (clothingImage st)
             (Some (data_url (mimeType result) (data result))) false None,
           [])
      | Throw e =>
          (mkAppState (personImage st) (clothingImage st) None false
             (Some (or_else (message_of e) "An unexpected error occurred.")),
           [e])
      end
  | _, _ =>
      (mkAppState (personImage st) (clothingImage st) (generatedImage st)
         (isLoading st)
         (Some "Please upload both a person and a clothing item."),
       [])
  end.

(** A state of the current component shows what a state of the first
    version shows. *)
Definition shows (st : App.AppState) (old : AppState) : Prop :=
  App.personImage st = personImage old
  /\ App.clothingImage st = clothingImage old
  /\ url <$> App.generatedImage st = generatedImage old
  /\ App.isLoading st = isLoading old
  /\ App.error st = error old.

End LegacyApp.

(* ===================================================================== *)
(** ** Two suggestions under one name                                     *)
(* ===================================================================== *)

Module Namesakes.
Import Js Codec Gateway App.

Definition silk : ClothingSuggestion := mkSuggestion "Scarf" "A red silk scarf".
Definition wool : ClothingSuggestion := mkSuggestion "Scarf" "A blue wool scarf".

(** A model that gives both suggestions the same name.  The image of the
    first comes with a MIME type that [dataURLtoFile] cannot read back;
    the generation of the second ends as [second] tells. *)
Definition stylist (second : JsResult Response) : Gateway.Env :=
  Gateway.mkEnv "key"
    (fun n _ =>
       match n with
       | 1 => Ok (Samples.picture "image,png")
       | 2 => second
       | _ => Ok (Samples.picture "image/png")
       end)
    (fun _ => Ok (Some [silk; wool])).

End Namesakes.

(* ===================================================================== *)
(** ** Facts about the browser primitives                                 *)
(* ===================================================================== *)

Module JsFacts.
Import Js.

Ltac Zify.zify_post_hook ::= Z.to_euclidean_division_equations.

(** Lists three elements at a time, as the encoder reads them. *)
Lemma list_ind3 {A} (P : list A -> Prop) :
  P [] -> (forall a, P [a]) -> (forall a b, P [a; b]) ->
  (forall a b c rest, P rest -> P (a :: b :: c :: rest)) ->
  forall l, P l.
Proof.
  intros H0 H1 H2 H3.
  fix IH 1.
  intros [|a [|b [|c rest]]]; [apply H0 | apply H1 | apply H2 | apply H3, IH].
Qed.

Lemma append_cons c (s u : string) : String c s +:+ u = String c (s +:+ u).
Proof. reflexivity. Qed.

Lemma string_forall_app p (s u : string) :
  string_forall p (s +:+ u) = string_forall p s && string_forall p u.
Proof.
  induction s as [|c s IH]; [reflexivity|].
  rewrite append_cons. simpl. rewrite IH. by rewrite andb_assoc.
Qed.

Lemma string_forall_impl (p q : ascii -> bool) (s : string) :
  (forall c, p c = true -> q c = true) ->
  string_forall p s = true -> string_forall q s = true.
Proof.
  intros Hpq. induction s as [|c s IH]; [done|]. simpl.
  intros [Hc Hs]%andb_prop. by rewrite (Hpq _ Hc), IH.
Qed.

Lemma string_forall_of_list p (l : list ascii) :
  string_forall p (string_of_list_ascii l) = forallb p l.
Proof. induction l as [|c l IH]; [done|]. simpl. by rewrite IH. Qed.

(** *** [split(',')] *)

Lemma split_comma_no_comma (s : string) :
  string_forall (fun c => negb (is_comma c)) s = true -> split_comma s = [s].
Proof.
  induction s as [|c s IH]; [done|]. simpl.
  intros [Hc Hs]%andb_prop. apply negb_true_iff in Hc. rewrite Hc.
  by rewrite (IH Hs).
Qed.

Lemma split_comma_app (s u : string) :
  string_forall (fun c => negb (is_comma c)) s = true ->
  split_comma (s +:+ String ","%char u) = s :: split_comma u.
Proof.
  induction s as [|c s IH]; [done|]. rewrite append_cons. simpl.
  intros [Hc Hs]%andb_prop. apply negb_true_iff in Hc. rewrite Hc.
  by rewrite (IH Hs).
Qed.

(** *** The MIME regular expression *)

Lemma lazy_until_semicolon_app (m rest : string) :
  string_forall
    (fun c => negb (Ascii.eqb c ";"%char || is_line_terminator c)) m = true ->
  lazy_until_semicolon (m +:+ String ";"%char rest) = Some m.
Proof.
  induction m as [|c m IH]; [done|]. rewrite append_cons. simpl.
  intros [Hc Hm]%andb_prop.
  apply negb_true_iff, orb_false_elim in Hc as [-> ->].
  by rewrite (IH Hm).
Qed.

(** *** Base64 *)

Local Open Scope N_scope.

Lemma below_64 (P : N -> bool) :
  forallb P (map N.of_nat (seq 0 64)) = true ->
  forall n, n < 64 -> P n = true.
Proof.
  intros H n Hn. rewrite forallb_forall in H. apply H.
  rewrite <- (N2Nat.id n). apply in_map, in_seq. lia.
Qed.

Lemma b64_index_char n : n < 64 -> b64_index (b64_char n) = Some n.
Proof.
  intros Hn.
  pose proof (below_64
    (fun k => match b64_index (b64_char k) with
              | Some j => j =? k
              | None => false
              end) eq_refl n Hn) as H.
  cbv beta in H. destruct (b64_index (b64_char n)); [|discriminate].
  apply N.eqb_eq in H. by subst.
Qed.

Lemma sextets_bound (bs : list N) :
  Forall (fun b => b < 256) bs -> Forall (fun s => s < 64) (sextets_of_bytes bs).
Proof.
  induction bs as [|a|a b|a b c rest IH] using list_ind3; intros Hbs; simpl;
    repeat match goal with
           | H : Forall _ (_ :: _) |- _ => apply Forall_cons in H as [? H]
           end;
    repeat (apply Forall_cons; split); auto; lia.
Qed.

Lemma bytes_of_sextets_of_bytes (bs : list N) :
  Forall (fun b => b < 256) bs -> bytes_of_sextets (sextets_of_bytes bs) = bs.
Proof.
  induction bs as [|a|a b|a b c rest IH] using list_ind3; intros Hbs; simpl;
    repeat match goal with
           | H : Forall _ (_ :: _) |- _ => apply Forall_cons in H as [? H]
           end.
  - done.
  - f_equal. lia.
  - f_equal; [lia|]. f_equal. lia.
  - rewrite IH by done. f_equal; [lia|]. f_equal; [lia|]. f_equal. lia.
Qed.

Lemma sextets_of_chars (ss : list N) :
  Forall (fun s => s < 64) ss -> sextets_of (map b64_char ss) = Some ss.
Proof.
  induction 1 as [|s ss Hs _ IH]; [done|]. simpl.
  by rewrite (b64_index_char s Hs), IH.
Qed.

Lemma strip_padding_cons c (d : list ascii) :
  is_equals c = false -> strip_padding (c :: d) = c :: strip_padding d.
Proof. intros Hc. destruct d as [|c' [|c'' d]]; simpl; by rewrite ?Hc. Qed.

Lemma b64_char_not_equals n : n < 64 -> is_equals (b64_char n) = false.
Proof.
  intros Hn. apply negb_true_iff.
  exact (below_64 (fun k => negb (is_equals (b64_char k))) eq_refl n Hn).
Qed.

Lemma strip_padding_encode (bs : list N) :
  Forall (fun b => b < 256) bs ->
  strip_padding (b64_encode_chars bs) = map b64_char (sextets_of_bytes bs).
Proof.
  induction bs as [|a|a b|a b c rest IH] using list_ind3; intros Hbs;
    repeat match goal with
           | H : Forall _ (_ :: _) |- _ => apply Forall_cons in H as [? H]
           end.
  - done.
  - cbn [b64_encode_chars sextets_of_bytes map].
    rewrite !strip_padding_cons by (apply b64_char_not_equals; lia). done.
  - cbn [b64_encode_chars sextets_of_bytes map].
    rewrite !strip_padding_cons by (apply b64_char_not_equals; lia). done.
  - cbn [b64_encode_chars sextets_of_bytes map].
    rewrite !strip_padding_cons by (apply b64_char_not_equals; lia).
    by rewrite IH.
Qed.

Lemma b64_char_encoded n : n < 64 -> encoded_char (b64_char n) = true.
Proof. exact (below_64 (fun k => encoded_char (b64_char k)) eq_refl n). Qed.

Lemma encode_chars_encoded (bs : list N) :
  Forall (fun b => b < 256) bs -> forallb encoded_char (b64_encode_chars bs) = true.
Proof.
  induction bs as [|a|a b|a b c rest IH] using list_ind3; intros Hbs;
    repeat match goal with
           | H : Forall _ (_ :: _) |- _ => apply Forall_cons in H as [? H]
           end;
    cbn [b64_encode_chars forallb];
    rewrite ?b64_char_encoded by lia; rewrite ?IH by done; done.
Qed.

Lemma encode_chars_length (bs : list N) :
  (length (b64_encode_chars bs) mod 4 = 0)%nat.
Proof.
  induction bs as [|a|a b|a b c rest IH] using list_ind3; try done.
  cbn [b64_encode_chars length]. lia.
Qed.

Lemma sextets_length (bs : list N) :
  (length (sextets_of_bytes bs) mod 4 <> 1)%nat.
Proof.
  induction bs as [|a|a b|a b c rest IH] using list_ind3; try done.
  cbn [sextets_of_bytes length]. lia.
Qed.

Lemma filter_whitespace_id (d : list ascii) :
  forallb encoded_char d = true ->
  filter (fun c => is_ascii_whitespace c = false) d = d.
Proof.
  induction d as [|c d IH]; [done|]. cbn [forallb].
  intros [Hc Hd]%andb_prop. apply andb_prop in Hc as [Hw _].
  apply negb_true_iff in Hw. rewrite filter_cons_True by done.
  by rewrite IH.
Qed.

Lemma to_N_bytes (bs : list byte) :
  Forall (fun b => b < 256) (map Byte.to_N bs).
Proof.
  induction bs as [|b bs IH]; constructor; [|done].
  pose proof (Byte.to_N_bounded b). lia.
Qed.

(** [atob] inverts the encoder of [readAsDataURL]: the binary string has
    one character per byte of the content. *)
Lemma atob_base64_encode (bs : list byte) :
  atob (base64_encode bs) = Ok (string_of_list_ascii (map ascii_of_byte bs)).
Proof.
  unfold atob, base64_encode.
  pose proof (to_N_bytes bs) as Hb.
  rewrite list_ascii_of_string_of_list_ascii.
  rewrite filter_whitespace_id by (by apply encode_chars_encoded).
  rewrite encode_chars_length. cbn [Nat.eqb].
  rewrite strip_padding_encode by done.
  rewrite length_map.
  destruct (Nat.eqb_spec (length (sextets_of_bytes (map Byte.to_N bs)) mod 4) 1)
    as [Heq|_]; [by apply sextets_length in Heq|].
  rewrite sextets_of_chars by (by apply sextets_bound).
  rewrite bytes_of_sextets_of_bytes by done.
  do 2 f_equal. rewrite map_map. apply map_ext. intros b.
  symmetry. apply ascii_of_byte_via_N.
Qed.

Lemma char_codes_binary (bs : list byte) :
  char_codes (string_of_list_ascii (map ascii_of_byte bs)) = bs.
Proof.
  unfold char_codes. rewrite list_ascii_of_string_of_list_ascii, map_map.
  rewrite <- (map_id bs) at 2. apply map_ext, byte_of_ascii_of_byte.
Qed.

Lemma base64_encode_no_comma (bs : list byte) :
  string_forall (fun c => negb (is_comma c)) (base64_encode bs) = true.
Proof.
  unfold base64_encode. rewrite string_forall_of_list.
  pose proof (encode_chars_encoded _ (to_N_bytes bs)) as H.
  rewrite forallb_forall in *. intros c Hc. specialize (H c Hc).
  by apply andb_prop in H as [_ H].
Qed.

End JsFacts.

(* ===================================================================== *)
(** ** The image codec                                                    *)
(* ===================================================================== *)

Module CodecFacts.
Import Js Codec JsFacts.

Lemma append_assoc (s u v : string) : (s +:+ u) +:+ v = s +:+ (u +:+ v).
Proof.
  induction s as [|c s IH]; [done|]. by rewrite !append_cons, IH.
Qed.

Lemma plain_mime_no_comma (mime : string) :
  plain_mime mime = true ->
  string_forall (fun c => negb (is_comma c)) mime = true.
Proof.
  apply string_forall_impl. intros c Hc.
  apply negb_true_iff, orb_false_elim in Hc as [Hc _].
  apply orb_false_elim in Hc as [-> _]. done.
Qed.

Lemma plain_mime_capture (mime : string) :
  plain_mime mime = true ->
  string_forall
    (fun c => negb (Ascii.eqb c ";"%char || is_line_terminator c)) mime = true.
Proof.
  apply string_forall_impl. intros c Hc.
  apply negb_true_iff, orb_false_elim in Hc as [Hc ->].
  apply orb_false_elim in Hc as [_ ->]. done.
Qed.

Lemma data_url_head_payload (mime payload : string) :
  data_url mime payload = data_url_head mime +:+ String ","%char payload.
Proof.
  unfold data_url, data_url_head.
  change (";base64," +:+ payload) with (";base64" +:+ String ","%char payload).
  by rewrite <- !append_assoc.
Qed.

Lemma split_data_url (mime payload : string) :
  string_forall (fun c => negb (is_comma c)) mime = true ->
  split_comma (data_url mime payload)
  = data_url_head mime :: split_comma payload.
Proof.
  intros Hm. rewrite data_url_head_payload. apply split_comma_app.
  unfold data_url_head. by rewrite !string_forall_app, Hm.
Qed.

Lemma match_mime_head (mime : string) :
  plain_mime mime = true -> match_mime (data_url_head mime) = Some mime.
Proof.
  intros Hm. unfold data_url_head.
  change (match_mime ("data:" +:+ mime +:+ ";base64"))
    with (match lazy_until_semicolon (mime +:+ String ";"%char "base64") with
          | Some m => Some m
          | None => match_mime (mime +:+ String ";"%char "base64")
          end).
  by rewrite lazy_until_semicolon_app by (by apply plain_mime_capture).
Qed.

(** On a data URL built from a plain MIME type and a comma-free payload,
    [dataURLtoFile] decodes the payload and keeps the type. *)
Lemma dataURLtoFile_data_url (mime payload filename : string) :
  plain_mime mime = true ->
  string_forall (fun c => negb (is_comma c)) payload = true ->
  dataURLtoFile (data_url mime payload) filename
  = bindR (atob payload)
      (fun bstr => Ok (Some (mkFile (char_codes bstr) filename mime))).
Proof.
  intros Hm Hp. unfold dataURLtoFile.
  rewrite split_data_url by (by apply plain_mime_no_comma).
  rewrite (split_comma_no_comma payload Hp).
  by rewrite match_mime_head.
Qed.

(** What [fileToBase64] resolves with, when it resolves. *)
Lemma fileToBase64_Ok reader_error (x : File) (base64 : string) :
  string_forall (fun c => negb (is_comma c)) (type x) = true ->
  fileToBase64 reader_error x = Ok base64 ->
  base64 = base64_encode (bits x).
Proof.
  intros Hm. unfold fileToBase64.
  destruct (reader_error x); [done|].
  assert (split_comma (readAsDataURL x) !! 1%nat = Some (base64_encode (bits x)))
    as ->.
  { unfold readAsDataURL.
    set (mime := if truthy (type x) then type x else "application/octet-stream").
    change ("data:" +:+ mime +:+ ";base64," +:+ base64_encode (bits x))
      with (data_url mime (base64_encode (bits x))).
    rewrite split_data_url.
    - by rewrite split_comma_no_comma by apply base64_encode_no_comma.
    - subst mime. by destruct (truthy (type x)). }
  destruct (truthy (base64_encode (bits x))); [|done].
  by intros [= <-].
Qed.

(** *** The round trip (C7) *)

(** C7, as the code has it.  For a file whose MIME type is plain (no
    comma, no semicolon, no line break) and whose content
    [fileToBase64] encodes without error, the data URL made of the type
    and of the encoded content is turned by [dataURLtoFile] into a file
    with the original bytes and the original type (and the name asked
    for). *)
Theorem codec_round_trip reader_error (x : File) (base64 filename : string) :
  plain_mime (type x) = true ->
  fileToBase64 reader_error x = Ok base64 ->
  dataURLtoFile (data_url (type x) base64) filename
  = Ok (Some (mkFile (bits x) filename (type x))).
Proof.
  intros Hmime Hread.
  rewrite (fileToBase64_Ok reader_error x base64) by
    (done || by apply plain_mime_no_comma).
  rewrite dataURLtoFile_data_url by (done || apply base64_encode_no_comma).
  rewrite atob_base64_encode. cbn [bindR]. by rewrite char_codes_binary.
Qed.

Lemma codec_round_trip_witness :
  dataURLtoFile (data_url "image/png" "iVBORw==") "me.png" = Ok (Some Samples.photo).
Proof.
  exact (codec_round_trip (fun _ => false) Samples.photo "iVBORw==" "me.png"
           eq_refl eq_refl).
Defined.

(** C7 as stated fails: the content of the file encodes without error,
    but its MIME type carries a parameter, and the file that comes back
    has lost it. *)
Lemma codec_round_trip_drops_parameter :
  fileToBase64 (fun _ => false) Samples.logo = Ok "QUJD"
  /\ dataURLtoFile (data_url (type Samples.logo) "QUJD") "logo.svg"
     = Ok (Some (mkFile (bits Samples.logo) "logo.svg" "image/svg+xml"))
  /\ "image/svg+xml" <> type Samples.logo.
Proof. vm_compute. split_and!; done. Qed.

End CodecFacts.

(* ===================================================================== *)
(** ** The try-on handler                                                 *)
(* ===================================================================== *)

Module TryOnFacts.
Import Js Codec Gateway App.

(** Reduce the projections of worlds and pairs. *)
Ltac step := cbn beta iota zeta delta [fst snd app browser calls] in *.

(** Unfold the monad down to functions on worlds, leaving the gateway and
    the codec folded. *)

Ltac run_monad :=
  unfold set_slot, gateway_call, gateway_start,
    setPersonImage, setClothingImage, setGeneratedImage, setIsLoading,
    setLoadingText, setError, setView, setHistory, setRemoveBgEnabled,
    setStyleTheme, setSavedSession, setStylistPrompt, setCustomStylistPrompt,
    setPreferredColors, setSuggestions, setSuggestionImages,
    console_error, alert, modify_app, modify_browser, get_app,
    try_finally, try_catch, await, throw, bind, ret in *;
  step.

Ltac run :=
  unfold onStart, handleTryOn, tryOn_begin, tryOn_requests, tryOn_show,
    handleSaveSession, handleLoadSession, handleStartNew,
    handleDeleteHistoryItem, handleImageChange, handleUseSuggestionImage in *;
  run_monad.

(** *** The errors a try-on can end with *)

Lemma rethrow_as_message {A} msg (c : JsResult A) e :
  rethrow_as msg c = Throw e -> e = Error msg.
Proof. destruct c; [done|]. by intros [= <-]. Qed.

Lemma removeBackground_message env n b m e :
  removeBackground env n b m = Throw e -> message_of e <> EmptyString.
Proof.
  unfold removeBackground. destruct (truthy (API_KEY env)).
  - by intros ->%rethrow_as_message.
  - by intros [= <-].
Qed.

Lemma virtualTryOn_message env n pb pm cb cm s e :
  virtualTryOn env n pb pm cb cm s = Throw e -> message_of e <> EmptyString.
Proof.
  unfold virtualTryOn. destruct (truthy (API_KEY env)).
  - by intros ->%rethrow_as_message.
  - by intros [= <-].
Qed.

Lemma fileToBase64_message reader_error f e :
  fileToBase64 reader_error f = Throw e ->
  e = ProgressEvent \/ message_of e <> EmptyString.
Proof.
  unfold fileToBase64. destruct (reader_error f); [intros [= <-]; by left|].
  destruct (split_comma (readAsDataURL f) !! 1%nat) as [b|];
    [destruct (truthy b); [done|] |]; intros [= <-]; by right.
Qed.

(** The message the [catch] block of the handlers shows for [e]. *)
Lemma shown_message_nonempty (e : JsError) (fallback : string) :
  fallback <> EmptyString ->
  (e = ProgressEvent \/ message_of e <> EmptyString) ->
  or_else (message_of e) fallback <> EmptyString.
Proof.
  intros Hf [-> | He]; [done|]. unfold or_else.
  by destruct (message_of e).
Qed.

(** *** What the requests do to the world *)

Ltac oracle :=
  match goal with
  | |- context [match fileToBase64 ?a ?b with _ => _ end] =>
      destruct (fileToBase64 a b) eqn:?
  | |- context [match removeBackground ?a ?b ?c ?d with _ => _ end] =>
      destruct (removeBackground a b c d) eqn:?
  | |- context [match virtualTryOn ?a ?b ?c ?d ?e ?f ?g with _ => _ end] =>
      destruct (virtualTryOn a b c d e f g) eqn:?
  | |- context [if removeBgEnabled ?s then _ else _] =>
      destruct (removeBgEnabled s) eqn:?
  end; step.

Lemma tryOn_requests_frame env st p c w r w' :
  tryOn_requests env st p c w = (r, w') ->
  (exists text, app w' = set_loadingText text (app w))
  /\ browser w' = browser w
  /\ match r with
     | Ok _ => True
     | Throw e => e = ProgressEvent \/ message_of e <> EmptyString
     end.
Proof.
  run. repeat oracle; intros [= <- <-]; step;
    (split_and!; [by eexists | done |]);
    try match goal with
        | |- match ?x with _ => _ end => destruct x eqn:?
        end;
    eauto using fileToBase64_message, removeBackground_message,
      virtualTryOn_message.
Qed.

(** *** Validation (C3) *)

(** C3.  A try-on started while the person image or the clothing image is
    missing returns at once: the only thing it does is set the validation
    message [errorNeedBothImagesUpload]; no gateway call is made, and the
    view stays where it was, [tryOn], without passing through [loading]
    ([isLoading] and [loadingText] are untouched as well). *)
Theorem tryOn_missing_image env w :
  view (app w) = View.tryOn ->
  personImage (app w) = None \/ clothingImage (app w) = None ->
  let message := t env (language (app w)) errorNeedBothImagesUpload in
  handleTryOn env w
  = (Ok tt, mkWorld (set_error (Some message) (app w)) (browser w) (calls w))
  /\ calls (snd (handleTryOn env w)) = calls w
  /\ view (app (snd (handleTryOn env w))) = View.tryOn
  /\ isLoading (app (snd (handleTryOn env w))) = isLoading (app w)
  /\ error (app (snd (handleTryOn env w))) = Some message.
Proof.
  intros Hview Hmissing message.
  assert (handleTryOn env w
          = (Ok tt, mkWorld (set_error (Some message) (app w)) (browser w)
                      (calls w))) as ->.
  { run. destruct Hmissing as [-> | Hc];
      [done | rewrite Hc; by destruct (personImage (app w))]. }
  by rewrite <- Hview.
Qed.

Lemma tryOn_missing_image_witness :
  let env := Samples.browser_env Samples.studio Samples.storage_ok in
  let w := mkWorld (set_view View.tryOn Samples.initial)
             (mkBrowser ∅ [] []) [] in
  calls (snd (handleTryOn env w)) = []
  /\ view (app (snd (handleTryOn env w))) = View.tryOn
  /\ error (app (snd (handleTryOn env w)))
     = Some "Please upload both a person and a clothing item.".
Proof.
  intros env w.
  destruct (tryOn_missing_image env w eq_refl (or_introl eq_refl))
    as (_ & Hcalls & Hview & _ & Herror).
  split_and!; [exact Hcalls | exact Hview | exact Herror].
Defined.

(** *** Order of the gateway calls (C1) *)

(** C1, as the code has it.  When both images are present and both files
    are read into base64: with the toggle on and the [removeBackground]
    call returning [bg], the calls made are that one [removeBackground]
    call, on the original person image, followed by one [virtualTryOn]
    call whose person image and MIME type are [bg]'s; with the toggle off
    the only call is [virtualTryOn] on the original person image. *)
Theorem tryOn_call_order env w p c pb cb :
  personImage (app w) = Some p ->
  clothingImage (app w) = Some c ->
  fileToBase64 (reader_error env) (file p) = Ok pb ->
  fileToBase64 (reader_error env) (file c) = Ok cb ->
  let made := calls (snd (handleTryOn env w)) in
  (removeBgEnabled (app w) = true ->
   forall bg,
     removeBackground (gateway env) (length (calls w)) pb (type (file p)) = Ok bg ->
     made = calls w ++
            [removeBackgroundCall pb (type (file p));
             virtualTryOnCall (data bg) (mimeType bg) cb (type (file c))
               (styleTheme (app w))])
  /\ (removeBgEnabled (app w) = false ->
      made = calls w ++
             [virtualTryOnCall pb (type (file p)) cb (type (file c))
                (styleTheme (app w))]).
Proof.
  intros Hp Hc Hpb Hcb made. subst made. split.
  - intros Hon bg Hbg. run. rewrite Hp, Hc. step. rewrite Hpb, Hon. step.
    rewrite Hbg. step. rewrite Hcb. step.
    destruct (virtualTryOn _ _ _ _ _ _ _); step; by rewrite <- app_assoc.
  - intros Hoff. run. rewrite Hp, Hc. step. rewrite Hpb, Hoff. step.
    rewrite Hcb. step.
    by destruct (virtualTryOn _ _ _ _ _ _ _).
Qed.

Lemma tryOn_call_order_witness :
  calls (snd (handleTryOn (Samples.browser_env Samples.studio Samples.storage_ok)
                Samples.ready))
  = [removeBackgroundCall "iVBORw==" "image/png";
     virtualTryOnCall "QUJD" "image/png" "/9j/" "image/jpeg" Photorealistic].
Proof.
  exact (proj1 (tryOn_call_order
                  (Samples.browser_env Samples.studio Samples.storage_ok)
                  Samples.ready _ _ "iVBORw==" "/9j/"
                  eq_refl eq_refl eq_refl eq_refl)
           eq_refl (mkImageResult "QUJD" "image/png") eq_refl).
Defined.

(** C1 as stated fails: both images are present and the toggle is on, the
    [removeBackground] call fails (no network), and no [virtualTryOn] call
    follows. *)
Lemma tryOn_removal_failure_stops :
  let env := Samples.browser_env Samples.offline Samples.storage_ok in
  personImage (app Samples.ready)
    = Some (mkUploaded Samples.photo (Samples.blob_url Samples.photo))
  /\ clothingImage (app Samples.ready)
    = Some (mkUploaded Samples.dress (Samples.blob_url Samples.dress))
  /\ removeBgEnabled (app Samples.ready) = true
  /\ calls (snd (handleTryOn env Samples.ready))
     = [removeBackgroundCall "iVBORw==" "image/png"].
Proof. vm_compute. done. Qed.

(** The world a try-on leaves, from the outcome of its requests. *)
Lemma handleTryOn_settled env w p c :
  personImage (app w) = Some p ->
  clothingImage (app w) = Some c ->
  snd (handleTryOn env w)
  = let (r, w2) := tryOn_requests env (app w) p c (snd (tryOn_begin w)) in
    let shown :=
      match r with
      | Ok result =>
          let resultUrl := data_url (mimeType result) (data result) in
          set_view View.result
            (set_history
               (mkHistoryItem (previewUrl p) (previewUrl c) resultUrl
                  :: history (app w2))
               (set_generatedImage
                  (Some (mkGenerated resultUrl (mimeType result))) (app w2)))
      | Throw e =>
          set_view View.tryOn
            (set_error
               (Some (or_else (message_of e)
                        (t env (language (app w)) errorUnexpected)))
               (app w2))
      end in
    mkWorld (set_loadingText EmptyString (set_isLoading false shown))
      (browser w2) (calls w2).
Proof.
  intros Hp Hc. unfold handleTryOn, tryOn_show. run_monad. rewrite Hp, Hc.
  assert (exists w1, tryOn_begin w = (Ok tt, w1)) as [w1 Hw1]
    by (unfold tryOn_begin; run_monad; by eexists).
  rewrite Hw1. step.
  by destruct (tryOn_requests env (app w) p c w1) as [[result|e] w2].
Qed.

(** *** Outcome of a try-on (C2) *)

(** C2.  With both images present: when the requests of the try-on all
    resolve, with [result], one entry (person preview, clothing preview,
    data URL of the result) is put in front of the history and the view
    becomes [result]; when one of them fails - a file read, the
    background removal or the composite - the history is unchanged, the
    view becomes [tryOn] and the error message is a non-empty text.  The
    translation of [errorUnexpected], shown for an error without a
    message, is taken to be non-empty. *)
Theorem tryOn_outcome env w p c :
  personImage (app w) = Some p ->
  clothingImage (app w) = Some c ->
  t env (language (app w)) errorUnexpected <> EmptyString ->
  let w' := snd (handleTryOn env w) in
  match fst (tryOn_requests env (app w) p c (snd (tryOn_begin w))) with
  | Ok result =>
      history (app w')
      = mkHistoryItem (previewUrl p) (previewUrl c)
          (data_url (mimeType result) (data result)) :: history (app w)
      /\ view (app w') = View.result
  | Throw e =>
      history (app w') = history (app w)
      /\ view (app w') = View.tryOn
      /\ exists message, error (app w') = Some message
                          /\ message <> EmptyString
  end.
Proof.
  intros Hp Hc Ht w'. subst w'.
  rewrite (handleTryOn_settled env w p c Hp Hc).
  destruct (tryOn_requests env (app w) p c (snd (tryOn_begin w)))
    as [r w2] eqn:Hreq.
  destruct (tryOn_requests_frame _ _ _ _ _ _ _ Hreq) as ([text ->] & _ & Hr).
  destruct r as [result|e]; step.
  - done.
  - split_and!; [done..|]. eexists. split; [done|].
    by apply shown_message_nonempty.
Qed.

Lemma tryOn_outcome_witness :
  let env := Samples.browser_env Samples.studio Samples.storage_ok in
  history (app (snd (handleTryOn env Samples.ready)))
  = [mkHistoryItem "blob:http://localhost:3000/me.png"
       "blob:http://localhost:3000/dress.jpg" "data:image/png;base64,QUJD"]
  /\ view (app (snd (handleTryOn env Samples.ready))) = View.result.
Proof.
  intros env.
  exact (tryOn_outcome env Samples.ready _ _ eq_refl eq_refl
           ltac:(discriminate)).
Defined.

End TryOnFacts.

(* ===================================================================== *)
(** ** History                                                            *)
(* ===================================================================== *)

Module HistoryFacts.
Import Js Codec Gateway App TryOnFacts.

(** Past the index to delete, the filter keeps everything. *)
Lemma filter_index_past {A} (l : list A) (k from : nat) :
  k < from ->
  filter_index (fun _ index => negb (index =? k)%nat) from l = l.
Proof.
  revert from. induction l as [|x l IH]; intros from Hk; [done|]. simpl.
  destruct (Nat.eqb_spec from k) as [->|_]; [lia|]. simpl.
  by rewrite IH by lia.
Qed.

Lemma filter_index_delete {A} (l : list A) (i from : nat) :
  filter_index (fun _ index => negb (index =? from + i)%nat) from l
  = take i l ++ drop (S i) l.
Proof.
  revert i from. induction l as [|x l IH]; intros i from.
  - by destruct i.
  - simpl. destruct i as [|i].
    + rewrite Nat.add_0_r, Nat.eqb_refl. simpl.
      rewrite filter_index_past by lia. by rewrite drop_0.
    + destruct (Nat.eqb_spec from (from + S i)) as [Heq|_]; [lia|]. simpl.
      f_equal. rewrite <- (IH i (S from)).
      by replace (from + S i) with (S from + i) by lia.
Qed.

(** C9.  Deleting, once confirmed, the history item at a valid index [i]
    leaves a list one shorter that is the items before [i] followed by
    the items after [i], in their order: positions below [i] keep their
    item, positions from [i] on hold the item that came next. *)
Theorem delete_history_item env w i :
  confirm env (t env (language (app w)) deleteConfirmation) = true ->
  i < length (history (app w)) ->
  let h := history (app w) in
  let h' := history (app (snd (handleDeleteHistoryItem env i w))) in
  length h' = length h - 1
  /\ h' = take i h ++ drop (S i) h
  /\ (forall j, j < i -> h' !! j = h !! j)
  /\ (forall j, i <= j -> h' !! j = h !! S j).
Proof.
  intros Hyes Hi h h'.
  assert (h' = take i h ++ drop (S i) h) as ->.
  { subst h'. run. rewrite Hyes. step.
    apply (filter_index_delete (history (app w)) i 0). }
  assert (length (take i h) = i) as Htake by (rewrite length_take; subst h; lia).
  split_and!.
  - rewrite length_app, length_drop, Htake. subst h. lia.
  - done.
  - intros j Hj. rewrite lookup_app_l by lia. by apply lookup_take_lt.
  - intros j Hj. rewrite lookup_app_r by lia. rewrite Htake, lookup_drop.
    f_equal. lia.
Qed.

Lemma delete_history_item_witness :
  let env := Samples.browser_env Samples.studio Samples.storage_ok in
  let item := fun r => mkHistoryItem "p" "c" r in
  let w := mkWorld (set_history [item "r0"; item "r1"; item "r2"] Samples.initial)
             (mkBrowser ∅ [] []) [] in
  history (app (snd (handleDeleteHistoryItem env 1 w))) = [item "r0"; item "r2"].
Proof.
  intros env item w.
  exact (proj1 (proj2 (delete_history_item env w 1 eq_refl
                         ltac:(vm_compute; lia)))).
Defined.

End HistoryFacts.

(* ===================================================================== *)
(** ** Sessions                                                           *)
(* ===================================================================== *)

Module SessionFacts.
Import Js Codec Gateway App JsFacts CodecFacts TryOnFacts.

(** A text without a comma is not a data URL: [dataURLtoFile] gives
    [null]. *)
Lemma dataURLtoFile_no_comma (dataurl filename : string) :
  string_forall (fun c => negb (is_comma c)) dataurl = true ->
  dataURLtoFile dataurl filename = Ok None.
Proof.
  intros H. unfold dataURLtoFile. by rewrite split_comma_no_comma.
Qed.

(** Loading a session whose previews are not data URLs restores the two
    settings and shows the try-on screen, and leaves both images as they
    are. *)
Lemma handleLoadSession_object_urls w s :
  savedSession (app w) = Some s ->
  string_forall (fun c => negb (is_comma c)) (SavedSession.personImage s) = true ->
  string_forall (fun c => negb (is_comma c)) (SavedSession.clothingImage s) = true ->
  handleLoadSession w
  = (Ok tt,
     mkWorld
       (set_view View.tryOn
          (set_styleTheme (SavedSession.styleTheme s)
             (set_removeBgEnabled (SavedSession.removeBgEnabled s) (app w))))
       (browser w) (calls w)).
Proof.
  intros Hs Hp Hc. run. rewrite Hs. step.
  by rewrite !dataURLtoFile_no_comma.
Qed.

(** Loading a session whose previews are data URLs of a plain type, as the
    [SavedSession] interface describes them, does restore both images:
    the files are rebuilt from the payloads under the names [person.png]
    and [clothing.png]. *)
Lemma handleLoadSession_data_urls w s pm pb cm cb :
  savedSession (app w) = Some s ->
  plain_mime pm = true -> plain_mime cm = true ->
  SavedSession.personImage s = data_url pm (base64_encode pb) ->
  SavedSession.clothingImage s = data_url cm (base64_encode cb) ->
  let w' := snd (handleLoadSession w) in
  personImage (app w')
  = Some (mkUploaded (mkFile pb "person.png" pm) (SavedSession.personImage s))
  /\ clothingImage (app w')
     = Some (mkUploaded (mkFile cb "clothing.png" cm)
               (SavedSession.clothingImage s))
  /\ removeBgEnabled (app w') = SavedSession.removeBgEnabled s
  /\ styleTheme (app w') = SavedSession.styleTheme s
  /\ view (app w') = View.tryOn.
Proof.
  intros Hs Hpm Hcm Hp Hc w'. subst w'. run. rewrite Hs, Hp, Hc. step.
  rewrite !dataURLtoFile_data_url by (done || apply base64_encode_no_comma).
  rewrite !atob_base64_encode. cbn [bindR]. rewrite !char_codes_binary.
  by step.
Qed.

(** A successful save keeps one snapshot: the state holds it and the one
    storage key holds its text, whatever was saved before. *)
Lemma handleSaveSession_slot env w p c :
  personImage (app w) = Some p ->
  clothingImage (app w) = Some c ->
  let session := snapshot (app w) p c in
  storage_throws env (localStorage (browser w))
    (SetItem "trayonSavedSession" (stringify_session env session)) = false ->
  let w' := snd (handleSaveSession env w) in
  savedSession (app w') = Some session
  /\ localStorage (browser w')
     = <["trayonSavedSession" := stringify_session env session]>
         (localStorage (browser w)).
Proof.
  intros Hp Hc session Hok w'. subst w' session. unfold snapshot in *.
  run. rewrite Hp, Hc. step. unfold setItem. by rewrite Hok.
Qed.

(** C4 fails on the code.  Two pictures are uploaded, the toggle and the
    style are chosen and the session is saved; after starting over,
    loading the session restores the toggle and the style and shows the
    try-on screen, but both images stay empty: the snapshot holds the
    object URLs of the previews, which [dataURLtoFile] cannot read. *)
Theorem load_after_save_loses_uploads :
  let env := Samples.browser_env Samples.studio Samples.storage_ok in
  let w := snd (Samples.save_restart_load env Samples.fresh) in
  fst (Samples.save_restart_load env Samples.fresh) = Ok tt
  /\ savedSession (app w)
     = Some (SavedSession.mk "blob:http://localhost:3000/me.png"
               "blob:http://localhost:3000/dress.jpg" false Artistic)
  /\ personImage (app w) = None
  /\ clothingImage (app w) = None
  /\ removeBgEnabled (app w) = false
  /\ styleTheme (app w) = Artistic
  /\ view (app w) = View.tryOn.
Proof. vm_compute. done. Qed.

End SessionFacts.

(* ===================================================================== *)
(** ** Local storage failures                                             *)
(* ===================================================================== *)

Module StorageFacts.
Import Js Codec Gateway App JsFacts TryOnFacts.

Ltac run_storage :=
  unfold useTheme_init, useTheme_effect, useLocalization_init,
    useLocalization_effect, removeBgEnabled_init, styleTheme_init,
    persist_history, persist_removeBg, persist_styleTheme,
    persist_personImage, persist_clothingImage, persist_image, image_access,
    logged in *;
  run;
  unfold getItem, setItem, removeItem in *;
  step.

(** Every persistence effect returns and leaves the error message alone;
    when its storage access throws, all it does is log its label. *)
Lemma persistence_effect_contained env theme w h op label :
  (h, op, label) ∈ persistence_effects env theme (app w) ->
  fst (h w) = Ok tt
  /\ error (app (snd (h w))) = error (app w)
  /\ (storage_throws env (localStorage (browser w)) op = true ->
      h w = (Ok tt, logged label w)).
Proof.
  unfold persistence_effects. rewrite !elem_of_cons, elem_of_nil.
  intros H. repeat destruct H as [[= -> -> ->] | H]; [..|done];
    run_storage;
    try destruct (personImage (app w)); try destruct (clothingImage (app w));
    step;
    match goal with
    | |- context [storage_throws ?e ?s ?o] =>
        destruct (storage_throws e s o) eqn:Hthrows
    end; step; split_and!; done.
Qed.

(** The lazy initialisers fall back on their default, silently. *)
Lemma initialisers_default env w :
  let throws key := storage_throws env (localStorage (browser w)) (GetItem key) in
  (throws "trayonTheme" = true -> useTheme_init env w = (Ok "light", w))
  /\ (throws "trayonLanguage" = true -> useLocalization_init env w = (Ok Ru, w))
  /\ (throws "trayonRemoveBg" = true -> removeBgEnabled_init env w = (Ok true, w))
  /\ (throws "trayonStyleTheme" = true ->
      styleTheme_init env w = (Ok Photorealistic, w)).
Proof. split_and!; intros H; run_storage; by rewrite H. Qed.

Ltac branch :=
  match goal with
  | |- context [if storage_throws ?e ?s ?o then _ else _] =>
      destruct (storage_throws e s o) eqn:?
  | |- context [match localStorage ?b !! ?k with _ => _ end] =>
      destruct (localStorage b !! k) eqn:?
  | |- context [if truthy ?s then _ else _] => destruct (truthy s) eqn:?
  | |- context [match parse_history ?e ?s with _ => _ end] =>
      destruct (parse_history e s) eqn:?
  | |- context [match parse_session ?e ?s with _ => _ end] =>
      destruct (parse_session e s) eqn:?
  | |- context [match dataURLtoFile ?u ?f with _ => _ end] =>
      destruct (dataURLtoFile u f) as [[?|]|?] eqn:?
  end; step.

(** The start-up effect returns and leaves the error message alone; when
    one of its four reads throws, it logs its label. *)
Lemma load_effect_contained env w :
  let throws key := storage_throws env (localStorage (browser w)) (GetItem key) in
  let w' := snd (load_effect env w) in
  fst (load_effect env w) = Ok tt
  /\ error (app w') = error (app w)
  /\ (throws "trayonHistory" = true \/ throws "trayonSavedSession" = true \/
      throws "trayonPersonImage" = true \/ throws "trayonClothingImage" = true ->
      console (browser w')
      = console (browser w) ++ ["Failed to load data from localStorage"]).
Proof.
  intros throws w'. subst throws w'.
  unfold load_effect, when_present, restore_image. run_storage.
  repeat branch; (split_and!; [done | done |]);
    intros [H | [H | [H | H]]]; first [done | congruence].
Qed.

(** A failed write while saving a session is caught, and shown. *)
Lemma handleSaveSession_failure env w p c :
  personImage (app w) = Some p ->
  clothingImage (app w) = Some c ->
  storage_throws env (localStorage (browser w))
    (SetItem "trayonSavedSession"
       (stringify_session env (snapshot (app w) p c))) = true ->
  handleSaveSession env w
  = (Ok tt,
     mkWorld
       (set_error (Some (t env (language (app w)) errorSaveSession)) (app w))
       (browser w) (calls w)).
Proof.
  intros Hp Hc Hthrows. unfold snapshot in *. run_storage.
  rewrite Hp, Hc. step. by rewrite Hthrows.
Qed.

(** The two [removeItem] calls of [handleStartNew] are not guarded: when
    the first one throws, the exception leaves the handler and the menu
    button never reaches its [setView('tryOn')]. *)
Lemma handleStartNew_escapes env w :
  storage_throws env (localStorage (browser w))
    (RemoveItem "trayonPersonImage") = true ->
  exists w', onStart env w = (Throw storage_error, w')
             /\ view (app w') = view (app w).
Proof.
  intros Hthrows. run_storage. rewrite Hthrows. by eexists.
Qed.

(** C8, as the code has it.  A local-storage failure in a lazy initialiser
    (theme, language, background toggle, style theme) is caught and the
    default value is used, nothing else happening.  In a persistence
    effect (theme, language, history, toggle, style theme, person and
    clothing previews) and in the start-up load it is caught and logged:
    the effect returns, the error message is unchanged, the label is on
    the console.  A failed write while saving a session is caught too,
    nothing escapes, and the user is shown the [errorSaveSession]
    message. *)
Theorem storage_failures_contained env w :
  let store := localStorage (browser w) in
  let throws op := storage_throws env store op = true in
  ((throws (GetItem "trayonTheme") -> useTheme_init env w = (Ok "light", w))
   /\ (throws (GetItem "trayonLanguage") ->
       useLocalization_init env w = (Ok Ru, w))
   /\ (throws (GetItem "trayonRemoveBg") ->
       removeBgEnabled_init env w = (Ok true, w))
   /\ (throws (GetItem "trayonStyleTheme") ->
       styleTheme_init env w = (Ok Photorealistic, w)))
  /\ (forall theme h op label,
        (h, op, label) ∈ persistence_effects env theme (app w) ->
        fst (h w) = Ok tt
        /\ error (app (snd (h w))) = error (app w)
        /\ (throws op -> h w = (Ok tt, logged label w)))
  /\ (fst (load_effect env w) = Ok tt
      /\ error (app (snd (load_effect env w))) = error (app w)
      /\ (throws (GetItem "trayonHistory") \/
          throws (GetItem "trayonSavedSession") \/
          throws (GetItem "trayonPersonImage") \/
          throws (GetItem "trayonClothingImage") ->
          console (browser (snd (load_effect env w)))
          = console (browser w) ++ ["Failed to load data from localStorage"]))
  /\ (forall p c,
        personImage (app w) = Some p ->
        clothingImage (app w) = Some c ->
        throws (SetItem "trayonSavedSession"
                  (stringify_session env (snapshot (app w) p c))) ->
        handleSaveSession env w
        = (Ok tt,
           mkWorld
             (set_error (Some (t env (language (app w)) errorSaveSession))
                (app w))
             (browser w) (calls w))).
Proof.
  intros store throws. subst store throws. split_and!.
  - apply initialisers_default.
  - apply initialisers_default.
  - apply initialisers_default.
  - apply initialisers_default.
  - intros theme h op label. apply persistence_effect_contained.
  - apply load_effect_contained.
  - apply load_effect_contained.
  - apply load_effect_contained.
  - apply handleSaveSession_failure.
Qed.

Lemma storage_failures_contained_witness :
  let env := Samples.browser_env Samples.studio Samples.storage_denied in
  useTheme_init env Samples.ready = (Ok "light", Samples.ready)
  /\ persist_history env Samples.ready
     = (Ok tt, logged "Failed to save history" Samples.ready)
  /\ console (browser (snd (load_effect env Samples.ready)))
     = ["Failed to load data from localStorage"]
  /\ error (app (snd (handleSaveSession env Samples.ready)))
     = Some "Could not save the session.".
Proof.
  intros env.
  destruct (storage_failures_contained env Samples.ready)
    as ((Htheme & _) & Heffects & (_ & _ & Hload) & Hsave).
  split_and!.
  - exact (Htheme eq_refl).
  - refine (proj2 (proj2 (Heffects "light" (persist_history env) _ _ _)) eq_refl).
    unfold persistence_effects. do 2 right. left.
  - exact (Hload (or_introl eq_refl)).
  - by rewrite (Hsave _ _ eq_refl eq_refl eq_refl).
Defined.

(** C8 as stated fails: the storage is full, saving the session throws,
    and the failure is put before the user as the current error
    message. *)
Lemma save_failure_reaches_user :
  let env := Samples.browser_env Samples.studio Samples.storage_full in
  let w' := snd (handleSaveSession env Samples.ready) in
  storage_throws env (localStorage (browser Samples.ready))
    (SetItem "trayonSavedSession"
       (stringify_session env
          (SavedSession.mk "blob:http://localhost:3000/me.png"
             "blob:http://localhost:3000/dress.jpg" true Photorealistic)))
  = true
  /\ error (app Samples.ready) = None
  /\ error (app w') = Some (t env Ru errorSaveSession)
  /\ t env Ru errorSaveSession <> EmptyString
  /\ console (browser w') = [].
Proof. vm_compute. split_and!; done. Qed.

End StorageFacts.

(* ===================================================================== *)
(** ** Suggestions                                                        *)
(* ===================================================================== *)

Module SuggestionFacts.
Import Js Codec Gateway App JsFacts TryOnFacts.

#[local] Set Warnings "-clear-no-such-hyp".

Ltac run_suggestions :=
  unfold settle, on_image, on_image_error in *; run.

(** *** One generation settles *)

(** [settle] returns; it touches the suggestion-image map only, and there
    only the entry of its suggestion. *)
Lemma settle_effect suggestion outcome w :
  exists images,
    settle suggestion outcome w
    = (Ok tt,
       mkWorld (set_suggestionImages images (app w))
         (mkBrowser (localStorage (browser w))
            (console (browser w)
               ++ match settled_entry suggestion outcome with
                  | None => ["Failed to generate image for " +:+ name suggestion]
                  | Some _ => []
                  end)
            (alerts (browser w)))
         (calls w))
    /\ (forall k, k <> name suggestion ->
          images !! k = suggestionImages (app w) !! k)
    /\ (suggestionImages (app w) !! name suggestion = Some Loading ->
        images !! name suggestion = settled_entry suggestion outcome).
Proof.
  unfold settled_entry. run_suggestions.
  destruct outcome as [imageResult|e]; step.
  - destruct (dataURLtoFile _ _) as [[imageFile|]|e]; step.
    + eexists. split; [by rewrite app_nil_r; destruct w as [? []]|].
      split; [intros k Hk; by rewrite lookup_insert_ne|].
      intros _. by rewrite lookup_insert_eq.
    + exists (suggestionImages (app w)).
      split; [rewrite app_nil_r; by destruct w as [[] []]|]. done.
    + eexists. split; [done|].
      split; [intros k Hk; by rewrite lookup_delete_ne|].
      intros _. by rewrite lookup_delete_eq.
  - eexists. split; [done|].
    split; [intros k Hk; by rewrite lookup_delete_ne|].
    intros _. by rewrite lookup_delete_eq.
Qed.

(** *** The generations are started *)

Lemma mark_loading_lookup results images k :
  mark_loading images results !! k
  = if decide (k ∈ name <$> results) then Some Loading else images !! k.
Proof.
  revert images. induction results as [|s results IH]; intros images.
  - by rewrite decide_False by set_solver.
  - cbn [mark_loading foldl]. fold (mark_loading (<[name s:=Loading]> images) results).
    rewrite IH, fmap_cons. destruct (decide (k ∈ name <$> results)) as [Hin|Hout].
    + by rewrite decide_True by set_solver.
    + destruct (decide (k = name s)) as [->|Hne].
      * rewrite lookup_insert_eq. by rewrite decide_True by set_solver.
      * rewrite lookup_insert_ne by done. by rewrite decide_False by set_solver.
Qed.

Lemma pending_of_cons env n s results :
  pending_of env n (s :: results)
  = (s, generateClothingImage (gateway env) n (description s))
      :: pending_of env (S n) results.
Proof.
  unfold pending_of. cbn [imap]. rewrite Nat.add_0_r. f_equal.
  apply imap_ext. intros i x _. cbn. do 2 f_equal. lia.
Qed.

Lemma pending_of_lookup env n results i s o :
  pending_of env n results !! i = Some (s, o) <->
  results !! i = Some s
  /\ o = generateClothingImage (gateway env) (n + i) (description s).
Proof.
  unfold pending_of. rewrite list_lookup_imap.
  destruct (results !! i) as [s'|]; cbn; [|naive_solver].
  split; [by intros [= -> <-] | by intros [[= ->] ->]].
Qed.

Lemma pending_of_names env n results :
  (fun p => name p.1) <$> pending_of env n results = name <$> results.
Proof.
  revert n. induction results as [|s results IH]; intros n; [done|].
  by rewrite pending_of_cons, !fmap_cons, IH.
Qed.

Lemma start_generations_effect styleTheme env results w :
  start_generations styleTheme env results w
  = (Ok (pending_of env (length (calls w)) results),
     mkWorld
       (set_suggestionImages (mark_loading (suggestionImages (app w)) results)
          (app w))
       (browser w)
       (calls w
          ++ map (fun s => generateClothingImageCall (description s) styleTheme)
               results)).
Proof.
  revert w. induction results as [|s results IH]; intros w.
  - cbn. rewrite app_nil_r. by destruct w as [[] ? ?].
  - cbn [start_generations]. run. rewrite IH. step.
    rewrite pending_of_cons, length_app, Nat.add_1_r. cbn [map].
    by rewrite <- app_assoc.
Qed.

(** *** All the generations settle *)

(** Two promises of a batch with distinct names belong to different
    suggestions. *)
Lemma pending_names_apart
    (pending : list (ClothingSuggestion * JsResult ImageResult)) i j s o s' o' :
  NoDup ((fun p => name p.1) <$> pending) ->
  pending !! i = Some (s, o) -> pending !! j = Some (s', o') ->
  name s = name s' -> i = j.
Proof.
  intros Hnodup Hi Hj Heq.
  eapply (NoDup_lookup _ i j (name s) Hnodup);
    rewrite list_lookup_fmap; [by rewrite Hi | by rewrite Hj, Heq].
Qed.

Lemma settle_all_effect pending order w :
  NoDup ((fun p => name p.1) <$> pending) ->
  NoDup order ->
  (forall i s o, i ∈ order -> pending !! i = Some (s, o) ->
     suggestionImages (app w) !! name s = Some Loading) ->
  exists images logs,
    settle_all pending order w
    = (Ok tt,
       mkWorld (set_suggestionImages images (app w))
         (mkBrowser (localStorage (browser w)) logs (alerts (browser w)))
         (calls w))
    /\ (forall i s o, pending !! i = Some (s, o) ->
          images !! name s
          = if decide (i ∈ order) then settled_entry s o
            else suggestionImages (app w) !! name s)
    /\ (forall k, k ∉ (fun p => name p.1) <$> pending ->
          images !! k = suggestionImages (app w) !! k).
Proof.
  intros Hnames. revert w.
  induction order as [|i order IH]; intros w Horder Hloading.
  - exists (suggestionImages (app w)), (console (browser w)).
    split; [by destruct w as [[] [] ?]|]. split; [|done].
    intros i s o _. by rewrite decide_False by apply not_elem_of_nil.
  - apply NoDup_cons in Horder as [Hi Horder]. cbn [settle_all].
    destruct (pending !! i) as [[s o]|] eqn:Hpi.
    + destruct (settle_effect s o w) as (images1 & Hsettle & Hother & Hown).
      set (w1 := mkWorld (set_suggestionImages images1 (app w))
                   (mkBrowser (localStorage (browser w))
                      (console (browser w)
                         ++ match settled_entry s o with
                            | None => ["Failed to generate image for " +:+ name s]
                            | Some _ => []
                            end)
                      (alerts (browser w)))
                   (calls w)) in *.
      destruct (IH w1 Horder) as (images & logs & Hall & Hin & Hout).
      { intros j s' o' Hj Hpj. cbn. rewrite Hother.
        - apply (Hloading j s' o'); [by apply elem_of_cons; right | done].
        - intros Heq. apply Hi.
          by rewrite (pending_names_apart pending i j s o s' o'). }
      exists images, logs. split; [|split].
      * unfold bind. rewrite Hsettle, Hall. done.
      * intros j s' o' Hpj. rewrite (Hin j s' o' Hpj). cbn.
        destruct (decide (j = i)) as [->|Hne].
        -- rewrite decide_False by done.
           rewrite decide_True by (apply elem_of_cons; by left).
           rewrite Hpi in Hpj. injection Hpj as <- <-.
           apply Hown, (Hloading i s o); [apply elem_of_cons; by left | done].
        -- destruct (decide (j ∈ order)) as [Hj|Hj].
           ++ by rewrite decide_True by (apply elem_of_cons; by right).
           ++ rewrite decide_False
                by (intros [?|?]%elem_of_cons; [by apply Hne | by apply Hj]).
              apply Hother. intros Heq. apply Hne.
              by rewrite (pending_names_apart pending j i s' o' s o).
      * intros k Hk. rewrite (Hout k Hk). cbn. apply Hother.
        intros ->. apply Hk. apply list_elem_of_fmap.
        exists (s, o). split; [done|]. by eapply list_elem_of_lookup_2.
    + destruct (IH w Horder) as (images & logs & Hall & Hin & Hout).
      { intros j s' o' Hj. apply Hloading, elem_of_cons. by right. }
      exists images, logs. split; [done|]. split; [|done].
      intros j s' o' Hpj. rewrite (Hin j s' o' Hpj).
      destruct (decide (j ∈ order)) as [Hj|Hj].
      * by rewrite decide_True by (apply elem_of_cons; by right).
      * rewrite decide_False; [done|].
        intros [->|?]%elem_of_cons; [congruence | by apply Hj].
Qed.

(** *** The whole handler *)

(** Where every suggestion of a batch with distinct names ends up once
    all its generations have settled, in whatever order. *)
Lemma handleGetSuggestions_settled env order w results :
  truthy (finalPrompt (app w)) = true ->
  getClothingSuggestions (gateway env) (length (calls w))
    (finalPrompt (app w)) (language (app w)) = Ok results ->
  NoDup (name <$> results) ->
  order ≡ₚ seq 0 (length results) ->
  let w' := snd (handleGetSuggestions env order w) in
  (forall i s, results !! i = Some s ->
     suggestionImages (app w') !! name s
     = settled_entry s
         (generateClothingImage (gateway env) (S (length (calls w)) + i)
            (description s)))
  /\ (forall k, k ∉ name <$> results -> suggestionImages (app w') !! k = None)
  /\ isLoading (app w') = false.
Proof.
  intros Hprompt Hresults Hnames Horder w'. subst w'.
  unfold handleGetSuggestions, getSuggestions_in. run_monad.
  rewrite Hprompt. cbn [negb]. step.
  rewrite Hresults. step. rewrite start_generations_effect. step.
  rewrite length_app, Nat.add_1_r. cbn [length].
  lazymatch goal with
  | |- context [settle_all ?p order ?w3] =>
      destruct (settle_all_effect p order w3)
        as (images & logs & Hall & Hin & Hout)
  end.
  - by rewrite pending_of_names.
  - rewrite Horder. apply NoDup_seq.
  - intros i s o _ [Hs _]%pending_of_lookup. cbn.
    rewrite mark_loading_lookup, decide_True; [done|].
    apply list_elem_of_fmap. exists s. split; [done|].
    by eapply list_elem_of_lookup_2.
  - rewrite Hall. step. split.
    + intros i s Hs. cbn.
      rewrite (Hin i s (generateClothingImage (gateway env)
                          (S (length (calls w)) + i) (description s)))
        by (by apply pending_of_lookup).
      rewrite decide_True; [done|].
      rewrite Horder. apply elem_of_seq. apply lookup_lt_Some in Hs. lia.
    + split; [|done].
      intros k Hk. cbn. rewrite Hout by (by rewrite pending_of_names).
      cbn. rewrite mark_loading_lookup, decide_False by done.
      apply lookup_empty.
Qed.

(** *** The loading mark that stays (C10) *)

(** Whatever the batch and the order, [settle_all] returns and touches
    only the suggestion-image map and the console. *)
Lemma settle_all_shape pending order w :
  exists images logs,
    settle_all pending order w
    = (Ok tt,
       mkWorld (set_suggestionImages images (app w))
         (mkBrowser (localStorage (browser w)) logs (alerts (browser w)))
         (calls w)).
Proof.
  revert w. induction order as [|i order IH]; intros w.
  - exists (suggestionImages (app w)), (console (browser w)).
    by destruct w as [[] [] ?].
  - cbn [settle_all]. destruct (pending !! i) as [[s o]|]; [|apply IH].
    destruct (settle_effect s o w) as (images1 & Hsettle & _).
    unfold bind. rewrite Hsettle.
    match goal with
    | |- context [settle_all pending order ?w1] =>
        destruct (IH w1) as (images & logs & ->)
    end.
    by exists images, logs.
Qed.

(** A name under which every generation of the batch leaves the loading
    mark keeps it, however many generations settle and in whatever
    order. *)
Lemma settle_all_keeps pending order w k :
  (forall j s o, pending !! j = Some (s, o) -> name s = k ->
     settled_entry s o = Some Loading) ->
  suggestionImages (app w) !! k = Some Loading ->
  suggestionImages (app (snd (settle_all pending order w))) !! k = Some Loading.
Proof.
  intros Hk. revert w. induction order as [|i order IH]; intros w Hw; [done|].
  cbn [settle_all]. destruct (pending !! i) as [[s o]|] eqn:Hpi; [|by apply IH].
  destruct (settle_effect s o w) as (images1 & Hsettle & Hother & Hown).
  unfold bind. rewrite Hsettle. apply IH. cbn.
  destruct (decide (k = name s)) as [->|Hne].
  - rewrite Hown by done. by apply (Hk i s o).
  - by rewrite Hother.
Qed.

(** The handler, once the suggestions are there: the tiles are marked,
    the generations settle in the given order, the indicator goes off. *)
Lemma handleGetSuggestions_run env order w results :
  truthy (finalPrompt (app w)) = true ->
  getClothingSuggestions (gateway env) (length (calls w))
    (finalPrompt (app w)) (language (app w)) = Ok results ->
  exists w3,
    suggestionImages (app w3) = mark_loading ∅ results
    /\ suggestionImages (app (snd (handleGetSuggestions env order w)))
       = suggestionImages
           (app (snd (settle_all
                        (pending_of env (S (length (calls w))) results)
                        order w3)))
    /\ isLoading (app (snd (handleGetSuggestions env order w))) = false.
Proof.
  intros Hprompt Hresults.
  unfold handleGetSuggestions, getSuggestions_in. run_monad.
  rewrite Hprompt. cbn [negb]. step.
  rewrite Hresults. step. rewrite start_generations_effect. step.
  rewrite length_app, Nat.add_1_r. cbn [length].
  lazymatch goal with
  | |- context [settle_all ?p order ?w3] =>
      exists w3; destruct (settle_all_shape p order w3) as (images & logs & ->)
  end.
  cbn [fst snd app suggestionImages isLoading set_suggestionImages
       set_loadingText set_isLoading set_suggestions set_error].
  by split_and!.
Qed.

(** C10, as the code has it.  When the image generation of a suggestion
    succeeds and [dataURLtoFile] gives [null] for the data URL of the
    returned image, and no other suggestion of the batch has the name of
    this one, the entry of the suggestion is neither replaced nor removed:
    in whatever order the generations of the batch settle, once the
    handler is through and the loading indicator is off, the entry still
    is the ['loading'] mark. *)
Theorem unparsed_image_stays_loading env order w results i s imageResult :
  truthy (finalPrompt (app w)) = true ->
  getClothingSuggestions (gateway env) (length (calls w))
    (finalPrompt (app w)) (language (app w)) = Ok results ->
  results !! i = Some s ->
  (forall j s', results !! j = Some s' -> name s' = name s -> j = i) ->
  generateClothingImage (gateway env) (S (length (calls w)) + i)
    (description s) = Ok imageResult ->
  dataURLtoFile (data_url (mimeType imageResult) (data imageResult))
    (replace_spaces (name s) +:+ ".png") = Ok None ->
  let w' := snd (handleGetSuggestions env order w) in
  suggestionImages (app w') !! name s = Some Loading
  /\ isLoading (app w') = false.
Proof.
  intros Hprompt Hresults Hs Hunique Himage Hnull w'. subst w'.
  destruct (handleGetSuggestions_run env order w results Hprompt Hresults)
    as (w3 & Hmarked & -> & Hdone).
  split; [|done]. apply settle_all_keeps.
  - intros j s' o [Hs' ->]%pending_of_lookup Hname.
    pose proof (Hunique j s' Hs' Hname) as ->. rewrite Hs in Hs'.
    injection Hs' as <-. rewrite Himage. unfold settled_entry.
    by rewrite Hnull.
  - rewrite Hmarked, mark_loading_lookup, decide_True; [done|].
    apply list_elem_of_fmap. exists s. split; [done|].
    by eapply list_elem_of_lookup_2.
Qed.

Lemma sample_order : [2; 0; 1] ≡ₚ seq 0 3.
Proof.
  cbn. etrans; [apply perm_swap|]. apply perm_skip, perm_swap.
Qed.

Lemma sample_names :
  NoDup (name <$> [Samples.coat; Samples.scarf; Samples.boots]).
Proof. cbn. repeat (apply NoDup_cons; split; [set_solver|]). apply NoDup_nil_2. Qed.

Lemma unparsed_image_stays_loading_witness :
  let env := Samples.browser_env (Samples.stylist "image,png") Samples.storage_ok in
  suggestionImages (app (snd (handleGetSuggestions env [2; 0; 1] Samples.styled)))
    !! "Ankle boots" = Some Loading.
Proof.
  intros env.
  refine (proj1 (unparsed_image_stays_loading env [2; 0; 1] Samples.styled
                   [Samples.coat; Samples.scarf; Samples.boots] 2 Samples.boots
                   (mkImageResult "QUJD" "image,png")
                   eq_refl eq_refl eq_refl _ eq_refl eq_refl)).
  intros [|[|[|j]]] s' [= <-]; done.
Defined.

(** C10 as stated fails when two suggestions of a batch have the same
    name, the name being the key of the entry.  The image of the first is
    generated and [dataURLtoFile] gives [null] for it; when the generation
    of the second fails, the entry they share is removed, and when it
    succeeds, the entry is replaced by the picture of the second - in both
    cases the indicator is off and the entry is not the ['loading']
    mark. *)
Lemma unparsed_image_namesake :
  let failing :=
    Samples.browser_env (Namesakes.stylist (Throw (Error "Failed to fetch")))
      Samples.storage_ok in
  let painting :=
    Samples.browser_env (Namesakes.stylist (Ok (Samples.picture "image/png")))
      Samples.storage_ok in
  let removed := snd (handleGetSuggestions failing [0; 1] Samples.styled) in
  let replaced := snd (handleGetSuggestions painting [0; 1] Samples.styled) in
  suggestions (app removed) = [Namesakes.silk; Namesakes.wool]
  /\ generateClothingImage (gateway failing) 1 "A red silk scarf"
     = Ok (mkImageResult "QUJD" "image,png")
  /\ generateClothingImage (gateway painting) 1 "A red silk scarf"
     = Ok (mkImageResult "QUJD" "image,png")
  /\ dataURLtoFile (data_url "image,png" "QUJD")
       (replace_spaces "Scarf" +:+ ".png") = Ok None
  /\ suggestionImages (app removed) !! "Scarf" = None
  /\ isLoading (app removed) = false
  /\ suggestionImages (app replaced) !! "Scarf"
     = Some (Ready "data:image/png;base64,QUJD" "image/png"
               (mkFile [x41; x42; x43] "Scarf.png" "image/png"))
  /\ isLoading (app replaced) = false.
Proof. vm_compute. split_and!; done. Qed.

(** *** A batch of three with one failure (C6) *)

Lemma size_two {V} (m : gmap string V) a b x y :
  a <> b -> m !! a = Some x -> m !! b = Some y ->
  (forall k, k <> a -> k <> b -> m !! k = None) ->
  size m = 2.
Proof.
  intros Hab Ha Hb Hrest.
  assert (m = <[a := x]> {[b := y]}) as ->.
  { apply map_eq. intros k.
    destruct (decide (k = a)) as [->|Hka]; [by rewrite lookup_insert_eq|].
    rewrite lookup_insert_ne by done.
    destruct (decide (k = b)) as [->|Hkb]; [by rewrite lookup_singleton_eq|].
    rewrite lookup_singleton_ne by done. by apply Hrest. }
  rewrite map_size_insert_None by (by rewrite lookup_singleton_ne).
  by rewrite map_size_singleton.
Qed.

(** C6, as the code has it.  In a batch of three suggestions with
    distinct names, when exactly one image generation fails and each of
    the other two returns an image whose data URL [dataURLtoFile] turns
    into a file, then, in whatever order the three settle, the map ends
    with exactly two entries: none for the failed suggestion, and for each
    of the others the image generated for it. *)
Theorem batch_of_three_one_failure env order w s0 s1 s2 :
  truthy (finalPrompt (app w)) = true ->
  getClothingSuggestions (gateway env) (length (calls w))
    (finalPrompt (app w)) (language (app w)) = Ok [s0; s1; s2] ->
  NoDup [name s0; name s1; name s2] ->
  order ≡ₚ [0; 1; 2] ->
  let outcome i s :=
    generateClothingImage (gateway env) (S (length (calls w)) + i)
      (description s) in
  length (List.filter rejected [outcome 0 s0; outcome 1 s1; outcome 2 s2]) = 1 ->
  (forall i s imageResult,
     [s0; s1; s2] !! i = Some s -> outcome i s = Ok imageResult ->
     exists imageFile,
       dataURLtoFile (data_url (mimeType imageResult) (data imageResult))
         (replace_spaces (name s) +:+ ".png") = Ok (Some imageFile)) ->
  let images := suggestionImages (app (snd (handleGetSuggestions env order w))) in
  size images = 2
  /\ forall i s, [s0; s1; s2] !! i = Some s ->
       match outcome i s with
       | Throw _ => images !! name s = None
       | Ok imageResult =>
           exists imageFile,
             dataURLtoFile (data_url (mimeType imageResult) (data imageResult))
               (replace_spaces (name s) +:+ ".png") = Ok (Some imageFile)
             /\ images !! name s
                = Some (Ready (data_url (mimeType imageResult) (data imageResult))
                          (mimeType imageResult) imageFile)
       end.
Proof.
  intros Hprompt Hresults Hnames Horder outcome Hone Hfiles images.
  destruct (handleGetSuggestions_settled env order w [s0; s1; s2]
              Hprompt Hresults Hnames Horder) as (Hin & Hout & _).
  fold images in Hin, Hout.
  assert (Hentries : forall i s, [s0; s1; s2] !! i = Some s ->
            match outcome i s with
            | Throw _ => images !! name s = None
            | Ok imageResult =>
                exists imageFile,
                  dataURLtoFile
                    (data_url (mimeType imageResult) (data imageResult))
                    (replace_spaces (name s) +:+ ".png") = Ok (Some imageFile)
                  /\ images !! name s
                     = Some (Ready
                               (data_url (mimeType imageResult) (data imageResult))
                               (mimeType imageResult) imageFile)
            end).
  { intros i s Hs. rewrite (Hin i s Hs). fold (outcome i s).
    destruct (outcome i s) as [imageResult|e] eqn:Ho; [|done].
    destruct (Hfiles i s imageResult Hs Ho) as [imageFile Hfile].
    exists imageFile. split; [done|]. unfold settled_entry. by rewrite Hfile. }
  split; [|exact Hentries].
  pose proof (Hentries 0 s0 eq_refl) as H0.
  pose proof (Hentries 1 s1 eq_refl) as H1.
  pose proof (Hentries 2 s2 eq_refl) as H2.
  apply NoDup_cons in Hnames as [Hn0 Hnames].
  apply NoDup_cons in Hnames as [Hn1 _].
  assert (name s0 <> name s1 /\ name s0 <> name s2 /\ name s1 <> name s2)
    as (H01 & H02 & H12) by set_solver.
  assert (Hothers : forall k, k <> name s0 -> k <> name s1 -> k <> name s2 ->
            images !! k = None)
    by (intros k ? ? ?; apply Hout; set_solver).
  cbn [List.filter] in Hone.
  destruct (outcome 0 s0) as [r0|e0], (outcome 1 s1) as [r1|e1],
    (outcome 2 s2) as [r2|e2]; cbn in Hone; try discriminate Hone.
  - destruct H0 as (f0 & _ & H0), H1 as (f1 & _ & H1).
    eapply (size_two images (name s0) (name s1)); [done..|].
    intros k Hk0 Hk1. destruct (decide (k = name s2)) as [->|Hk2]; auto.
  - destruct H0 as (f0 & _ & H0), H2 as (f2 & _ & H2).
    eapply (size_two images (name s0) (name s2)); [done..|].
    intros k Hk0 Hk2. destruct (decide (k = name s1)) as [->|Hk1]; auto.
  - destruct H1 as (f1 & _ & H1), H2 as (f2 & _ & H2).
    eapply (size_two images (name s1) (name s2)); [done..|].
    intros k Hk1 Hk2. destruct (decide (k = name s0)) as [->|Hk0]; auto.
Qed.

Lemma batch_of_three_one_failure_witness :
  let env := Samples.browser_env (Samples.stylist "image/png") Samples.storage_ok in
  size (suggestionImages
          (app (snd (handleGetSuggestions env [2; 0; 1] Samples.styled)))) = 2.
Proof.
  intros env.
  refine (proj1 (batch_of_three_one_failure env [2; 0; 1] Samples.styled
                   Samples.coat Samples.scarf Samples.boots
                   eq_refl eq_refl sample_names sample_order eq_refl _)).
  intros [|[|[|i]]] s imageResult [= <-] [= <-]; by eexists.
Defined.

(** C6 as stated fails: the first generation fails and the other two
    succeed, but the third image comes with a MIME type that
    [dataURLtoFile] cannot read back, and the tile of the third
    suggestion does not hold its image: it keeps the ['loading'] mark. *)
Lemma batch_of_three_unreadable_image :
  let env := Samples.browser_env (Samples.stylist "image,png") Samples.storage_ok in
  let images :=
    suggestionImages (app (snd (handleGetSuggestions env [2; 0; 1] Samples.styled))) in
  suggestions (app (snd (handleGetSuggestions env [2; 0; 1] Samples.styled)))
    = [Samples.coat; Samples.scarf; Samples.boots]
  /\ rejected (generateClothingImage (gateway env) 1 "A long grey wool coat") = true
  /\ generateClothingImage (gateway env) 2 "A red silk scarf"
     = Ok (mkImageResult "QUJD" "image/png")
  /\ generateClothingImage (gateway env) 3 "Black leather ankle boots"
     = Ok (mkImageResult "QUJD" "image,png")
  /\ images !! "Wool coat" = None
  /\ images !! "Ankle boots" = Some Loading.
Proof. vm_compute. split_and!; done. Qed.

End SuggestionFacts.

(* ===================================================================== *)
(** ** The preferred colors                                               *)
(* ===================================================================== *)

Module ColorFacts.
Import Js Codec Gateway App JsFacts TryOnFacts.

Lemma agree_app w1 w2 :
  agree w1 w2 ->
  set_preferredColors EmptyString (app w1)
  = set_preferredColors EmptyString (app w2).
Proof. intros H. exact (f_equal app H). Qed.

Lemma agree_calls w1 w2 : agree w1 w2 -> length (calls w1) = length (calls w2).
Proof.
  intros H. apply (f_equal calls) in H. cbn in H.
  by rewrite <- (length_map forget_call (calls w1)), H, length_map.
Qed.

Lemma agree_parts w1 w2 :
  agree w1 w2 ->
  set_preferredColors EmptyString (app w1)
  = set_preferredColors EmptyString (app w2)
  /\ browser w1 = browser w2
  /\ map forget_call (calls w1) = map forget_call (calls w2).
Proof.
  intros H. split_and!;
    [exact (f_equal app H) | exact (f_equal browser H) | exact (f_equal calls H)].
Qed.

Lemma sim_ret {A} (a : A) : sim (ret a) (ret a).
Proof. by intros w1 w2 H. Qed.

Lemma sim_await {A} (r : JsResult A) : sim (await r) (await r).
Proof. by intros w1 w2 H. Qed.

Lemma sim_bind {A B} (h1 h2 : Handler A) (k1 k2 : A -> Handler B) :
  sim h1 h2 -> (forall a, sim (k1 a) (k2 a)) -> sim (bind h1 k1) (bind h2 k2).
Proof.
  intros Hh Hk w1 w2 H. unfold bind. destruct (Hh w1 w2 H) as [Hr Hw].
  destruct (h1 w1) as [[a|e] w1'], (h2 w2) as [[a'|e'] w2']; cbn in *;
    try discriminate; injection Hr as <-; [by apply Hk | done].
Qed.

Lemma sim_try_catch {A} (b1 b2 : Handler A) (c1 c2 : JsError -> Handler A) :
  sim b1 b2 -> (forall e, sim (c1 e) (c2 e)) ->
  sim (try_catch b1 c1) (try_catch b2 c2).
Proof.
  intros Hb Hc w1 w2 H. unfold try_catch. destruct (Hb w1 w2 H) as [Hr Hw].
  destruct (b1 w1) as [[a|e] w1'], (b2 w2) as [[a'|e'] w2']; cbn in *;
    try discriminate; injection Hr as <-; [done | by apply Hc].
Qed.

Lemma sim_try_finally {A} (b1 b2 : Handler A) (f1 f2 : Handler unit) :
  sim b1 b2 -> sim f1 f2 -> sim (try_finally b1 f1) (try_finally b2 f2).
Proof.
  intros Hb Hf w1 w2 H. unfold try_finally. destruct (Hb w1 w2 H) as [Hr Hw].
  destruct (b1 w1) as [r1 w1'], (b2 w2) as [r2 w2']; cbn in *. subst r2.
  destruct (Hf w1' w2' Hw) as [Hr' Hw'].
  destruct (f1 w1') as [[[]|e] w1''], (f2 w2') as [[[]|e'] w2'']; cbn in *;
    try discriminate; [done|]. by injection Hr' as <-.
Qed.

(** A state update that commutes with blanking the colors. *)
Lemma sim_modify_app (f : AppState -> AppState) :
  (forall st, set_preferredColors EmptyString (f st)
              = f (set_preferredColors EmptyString st)) ->
  sim (modify_app f) (modify_app f).
Proof.
  intros Hf w1 w2 H. split; [done|].
  destruct (agree_parts w1 w2 H) as (Happ & Hbrowser & Hcalls).
  unfold agree, forget_colors, modify_app. cbn.
  by rewrite !Hf, Happ, Hbrowser, Hcalls.
Qed.

Lemma sim_modify_browser (f : Browser -> Browser) :
  sim (modify_browser f) (modify_browser f).
Proof.
  intros w1 w2 H. split; [done|].
  destruct (agree_parts w1 w2 H) as (Happ & Hbrowser & Hcalls).
  unfold agree, forget_colors, modify_browser. cbn.
  by rewrite Happ, Hbrowser, Hcalls.
Qed.

Lemma sim_gateway_start {A} (c1 c2 : GatewayCall) (op : nat -> JsResult A) :
  forget_call c1 = forget_call c2 ->
  sim (gateway_start c1 op) (gateway_start c2 op).
Proof.
  intros Hc w1 w2 H. unfold gateway_start. cbn.
  rewrite (agree_calls w1 w2 H). split; [done|].
  destruct (agree_parts w1 w2 H) as (Happ & Hbrowser & Hcalls).
  unfold agree, forget_colors. cbn.
  by rewrite !map_app, Happ, Hbrowser, Hcalls; cbn; rewrite Hc.
Qed.

Ltac sim_step :=
  first
    [ apply sim_ret | apply sim_await | apply sim_modify_browser
    | apply sim_modify_app; intros []; reflexivity
    | apply sim_gateway_start; reflexivity
    | apply sim_bind; [|intros ?]
    | apply sim_try_catch; [|intros ?]
    | apply sim_try_finally ].

Lemma sim_settle s o : sim (settle s o) (settle s o).
Proof.
  unfold settle, on_image, on_image_error, setSuggestionImages, console_error.
  repeat sim_step. destruct a0; repeat sim_step.
Qed.

Lemma sim_settle_all pending order :
  sim (settle_all pending order) (settle_all pending order).
Proof.
  induction order as [|i order IH]; cbn [settle_all]; [apply sim_ret|].
  destruct (pending !! i) as [[s o]|]; [|done].
  apply sim_bind; [apply sim_settle | by intros _].
Qed.

Lemma sim_start_generations styleTheme env results :
  sim (start_generations styleTheme env results)
      (start_generations styleTheme env results).
Proof.
  induction results as [|s results IH]; cbn [start_generations];
    [apply sim_ret|].
  unfold setSuggestionImages. repeat sim_step. exact IH.
Qed.

Lemma sim_getSuggestions_in env order st1 st2 :
  set_preferredColors EmptyString st1 = set_preferredColors EmptyString st2 ->
  sim (getSuggestions_in env order st1) (getSuggestions_in env order st2).
Proof.
  intros Hst.
  assert (forall {B} (field : AppState -> B),
            (forall st, field (set_preferredColors EmptyString st) = field st) ->
            field st1 = field st2) as Hfield.
  { intros B field Hf. by rewrite <- (Hf st1), Hst, Hf. }
  unfold getSuggestions_in.
  rewrite (Hfield _ language), (Hfield _ finalPrompt), (Hfield _ styleTheme)
    by (by intros []).
  destruct (negb (truthy (finalPrompt st2)));
    unfold setError, setLoadingText, setSuggestions, setSuggestionImages,
      setIsLoading, gateway_call;
    repeat sim_step;
    first [apply sim_start_generations | apply sim_settle_all].
Qed.

(** The one request of [getClothingSuggestions]: two gateways with the same
    credential and parser that answer the request
    [suggestions_request prompt lang] alike give the same suggestions. *)
Lemma getClothingSuggestions_request (env env' : Gateway.Env) n prompt lang :
  API_KEY env = API_KEY env' ->
  parseSuggestions env = parseSuggestions env' ->
  generateContent env n (suggestions_request prompt lang)
  = generateContent env' n (suggestions_request prompt lang) ->
  getClothingSuggestions env n prompt lang
  = getClothingSuggestions env' n prompt lang.
Proof.
  intros Hkey Hparse Hanswer. unfold getClothingSuggestions.
  by rewrite Hkey, Hparse, Hanswer.
Qed.

(** C5 fails on the code.  Whatever the gateway answers and in whatever
    order the generations settle, two runs of the suggestion handler that
    differ only in the preferred-colors text end alike: same outcome, and
    the same world once that text is blanked where the handler itself
    wrote it down.  No request can have carried the text. *)
Theorem suggestions_ignore_colors env order w colors1 colors2 :
  let run colors := handleGetSuggestions env order (with_colors colors w) in
  fst (run colors1) = fst (run colors2)
  /\ forget_colors (snd (run colors1)) = forget_colors (snd (run colors2))
  /\ suggestions (app (snd (run colors1))) = suggestions (app (snd (run colors2)))
  /\ suggestionImages (app (snd (run colors1)))
     = suggestionImages (app (snd (run colors2))).
Proof.
  intros run. subst run.
  assert (sim (handleGetSuggestions env order) (handleGetSuggestions env order))
    as Hsim.
  { intros w1 w2 H. unfold handleGetSuggestions, bind, get_app.
    apply sim_getSuggestions_in; [|done]. by apply agree_app. }
  destruct (Hsim (with_colors colors1 w) (with_colors colors2 w) eq_refl)
    as [Hr Hw].
  split_and!; [done | done | |].
  - exact (f_equal (fun x => suggestions (app x)) Hw).
  - exact (f_equal (fun x => suggestionImages (app x)) Hw).
Qed.

(** The same on an example: an external model that answers with the
    request it received, so that anything sent would show.  The
    suggestions are the same for two color wishes, each of which was
    passed at the call site. *)
Lemma echo_shows_no_colors :
  let env := Samples.browser_env Samples.echo Samples.storage_ok in
  let run colors :=
    snd (handleGetSuggestions env [] (with_colors colors Samples.styled)) in
  suggestions (app (run "navy blue")) = suggestions (app (run "bright red"))
  /\ suggestions (app (run "navy blue"))
     = [mkSuggestion "A casual weekend outfit" "A casual weekend outfit"]
  /\ calls (run "navy blue")
     = [getClothingSuggestionsCall "A casual weekend outfit" Ru "navy blue";
        generateClothingImageCall "A casual weekend outfit" Photorealistic].
Proof. vm_compute. split_and!; done. Qed.

End ColorFacts.

(* ===================================================================== *)
(** ** More on the image codec                                            *)
(* ===================================================================== *)

Module CodecCases.
Import Js Codec JsFacts CodecFacts CodecMore.

Lemma one_line_comma_free (s : string) :
  one_line s = true -> string_forall (fun c => negb (is_comma c)) s = true.
Proof.
  apply string_forall_impl. intros c Hc.
  by apply negb_true_iff, orb_false_elim in Hc as [-> _].
Qed.

Lemma lazy_until_first_semicolon (m rest : string) :
  one_line m = true ->
  lazy_until_semicolon (m +:+ String ";"%char rest) = Some (before_semicolon m).
Proof.
  induction m as [|c m IH]; [done|]. rewrite append_cons. simpl.
  intros [Hc Hm]%andb_prop.
  apply negb_true_iff, orb_false_elim in Hc as [_ Hc].
  destruct (Ascii.eqb c ";"%char); [done|]. rewrite Hc.
  by rewrite (IH Hm).
Qed.

Lemma base64_encode_truthy (bs : list byte) :
  truthy (base64_encode bs) = match bs with [] => false | _ => true end.
Proof. by destruct bs as [|a [|b [|c rest]]]. Qed.

(** [fileToBase64] by cases. *)
Lemma fileToBase64_cases reader_error (x : File) :
  comma_free (type x) = true ->
  fileToBase64 reader_error x
  = if reader_error x then Throw ProgressEvent
    else match bits x with
         | [] => Throw (Error "Failed to read base64 string from file.")
         | _ => Ok (base64_encode (bits x))
         end.
Proof.
  intros Hm. unfold fileToBase64. destruct (reader_error x); [done|].
  assert (split_comma (readAsDataURL x) !! 1%nat = Some (base64_encode (bits x)))
    as ->.
  { unfold readAsDataURL.
    set (mime := if truthy (type x) then type x else "application/octet-stream").
    change ("data:" +:+ mime +:+ ";base64," +:+ base64_encode (bits x))
      with (data_url mime (base64_encode (bits x))).
    rewrite split_data_url.
    - by rewrite split_comma_no_comma by apply base64_encode_no_comma.
    - subst mime. by destruct (truthy (type x)). }
  rewrite base64_encode_truthy. by destruct (bits x).
Qed.

(** X1.  How [fileToBase64] ends, for a file whose type holds no comma:
    it rejects with the reader's event when the reader fails, and with an
    error of its own when the file is empty; in every other case it
    resolves with the base64 text of the content, and that text read by
    [atob] is the content again. *)
Theorem fileToBase64_outcomes reader_error (x : File) :
  comma_free (type x) = true ->
  (reader_error x = true -> fileToBase64 reader_error x = Throw ProgressEvent)
  /\ (reader_error x = false -> bits x = [] ->
      fileToBase64 reader_error x
      = Throw (Error "Failed to read base64 string from file."))
  /\ (reader_error x = false -> bits x <> [] ->
      fileToBase64 reader_error x = Ok (base64_encode (bits x)))
  /\ (forall base64,
        fileToBase64 reader_error x = Ok base64 ->
        bindR (atob base64) (fun bstr => Ok (char_codes bstr)) = Ok (bits x)).
Proof.
  intros Hm. rewrite fileToBase64_cases by done. split_and!.
  - by intros ->.
  - by intros -> ->.
  - intros -> Hbits. by destruct (bits x).
  - intros base64 Hread.
    assert (base64 = base64_encode (bits x)) as ->.
    { destruct (reader_error x); [done|].
      destruct (bits x); [done|]. by injection Hread. }
    rewrite atob_base64_encode. cbn [bindR]. by rewrite char_codes_binary.
Qed.

Lemma fileToBase64_outcomes_witness :
  fileToBase64 (fun _ => false) (mkFile [] "empty.png" "image/png")
  = Throw (Error "Failed to read base64 string from file.").
Proof.
  exact (proj1 (proj2 (fileToBase64_outcomes (fun _ => false)
                         (mkFile [] "empty.png" "image/png") eq_refl))
           eq_refl eq_refl).
Defined.

(** X2.  The round trip keeps the bytes whatever the parameters of the
    type: for a file whose type holds no comma and no line break, the data
    URL made of the type and of [fileToBase64]'s output comes back from
    [dataURLtoFile] as a file with the original bytes, and with the
    original type cut at its first semicolon. *)
Theorem round_trip_keeps_bytes reader_error (x : File) (base64 filename : string) :
  one_line (type x) = true ->
  fileToBase64 reader_error x = Ok base64 ->
  dataURLtoFile (data_url (type x) base64) filename
  = Ok (Some (mkFile (bits x) filename (before_semicolon (type x)))).
Proof.
  intros Hline Hread.
  pose proof (one_line_comma_free _ Hline) as Hcomma.
  rewrite (fileToBase64_Ok reader_error x base64) by done.
  unfold dataURLtoFile. rewrite split_data_url by done.
  rewrite split_comma_no_comma by apply base64_encode_no_comma.
  unfold data_url_head.
  change (match_mime ("data:" +:+ type x +:+ ";base64"))
    with (match lazy_until_semicolon (type x +:+ String ";"%char "base64") with
          | Some m => Some m
          | None => match_mime (type x +:+ String ";"%char "base64")
          end).
  rewrite lazy_until_first_semicolon by done.
  rewrite atob_base64_encode. cbn [bindR]. by rewrite char_codes_binary.
Qed.

Lemma round_trip_keeps_bytes_witness :
  dataURLtoFile (data_url "image/svg+xml;charset=utf-8" "QUJD") "logo.svg"
  = Ok (Some (mkFile [x41; x42; x43] "logo.svg" "image/svg+xml")).
Proof.
  exact (round_trip_keeps_bytes (fun _ => false) Samples.logo "QUJD" "logo.svg"
           eq_refl eq_refl).
Defined.

(** *** When [dataURLtoFile] gives [null], and when it throws *)

Lemma lazy_until_semicolon_none (s : string) :
  string_forall (fun c => negb (Ascii.eqb c ";"%char)) s = true ->
  lazy_until_semicolon s = None.
Proof.
  induction s as [|c s IH]; [done|]. simpl.
  intros [Hc Hs]%andb_prop. apply negb_true_iff in Hc. rewrite Hc.
  rewrite (IH Hs). by destruct (is_line_terminator c).
Qed.

Lemma match_mime_none (s : string) :
  string_forall (fun c => negb (Ascii.eqb c ";"%char)) s = true ->
  match_mime s = None.
Proof.
  induction s as [|c s IH]; [done|]. simpl.
  intros [Hc Hs]%andb_prop.
  rewrite (lazy_until_semicolon_none s Hs), (IH Hs).
  by destruct (Ascii.eqb c ":"%char).
Qed.

(** X3.  [dataURLtoFile] answers [null], and never throws, on a text that
    is not shaped as a data URL: a text without a comma, and a text whose
    part before the first comma holds no semicolon - whatever follows the
    comma, base64 or not. *)
Theorem dataURLtoFile_null (filename : string) :
  (forall dataurl,
     comma_free dataurl = true -> dataURLtoFile dataurl filename = Ok None)
  /\ (forall head rest,
        comma_free head = true ->
        string_forall (fun c => negb (Ascii.eqb c ";"%char)) head = true ->
        dataURLtoFile (head +:+ String ","%char rest) filename = Ok None).
Proof.
  split.
  - intros dataurl Hfree. unfold dataURLtoFile.
    by rewrite split_comma_no_comma.
  - intros head rest Hhead Hsemi. unfold dataURLtoFile.
    rewrite split_comma_app by done.
    destruct (split_comma rest) as [|arr1 more] eqn:Hrest;
      [by destruct rest; simpl in Hrest; repeat case_match|].
    by rewrite match_mime_none.
Qed.

Lemma dataURLtoFile_null_witness :
  dataURLtoFile "blob:http://localhost:3000/me.png" "person.png" = Ok None
  /\ dataURLtoFile "data:image/png,not base64 at all" "person.png" = Ok None.
Proof.
  split.
  - exact (proj1 (dataURLtoFile_null "person.png")
             "blob:http://localhost:3000/me.png" eq_refl).
  - exact (proj2 (dataURLtoFile_null "person.png") "data:image/png"
             "not base64 at all" eq_refl eq_refl).
Defined.

Lemma strip_padding_keeps c (d : list ascii) :
  is_equals c = false -> In c d -> In c (strip_padding d).
Proof.
  intros Hc. induction d as [|a d IH]; [done|].
  intros [->|Hin].
  - rewrite strip_padding_cons by done. by left.
  - destruct d as [|b [|b' d]].
    + done.
    + destruct Hin as [->|[]]. simpl.
      rewrite Hc, andb_false_r. right. by left.
    + change (strip_padding (a :: b :: b' :: d))
        with (a :: strip_padding (b :: b' :: d)).
      right. by apply IH.
Qed.

Lemma sextets_of_foreign c (d : list ascii) :
  b64_index c = None -> In c d -> sextets_of d = None.
Proof.
  intros Hc. induction d as [|a d IH]; [done|].
  intros [->|Hin]; simpl.
  - by rewrite Hc.
  - rewrite (IH Hin). by destruct (b64_index a).
Qed.

Lemma string_exists_In p (s : string) :
  string_exists p s = true ->
  exists c, In c (list_ascii_of_string s) /\ p c = true.
Proof.
  induction s as [|a s IH]; [done|]. simpl.
  intros [Ha|Hs]%orb_prop.
  - exists a. split; [by left | done].
  - destruct (IH Hs) as (c & Hin & Hc). exists c. split; [by right | done].
Qed.

Lemma atob_foreign (payload : string) :
  string_exists foreign_char payload = true ->
  atob payload = Throw (DOMException "InvalidCharacterError" atob_message).
Proof.
  intros (c & Hin & Hc)%string_exists_In. unfold foreign_char in Hc.
  apply andb_prop in Hc as [[Hw He]%andb_prop Hi].
  apply negb_true_iff in Hw, He.
  destruct (b64_index c) eqn:Hidx; [done|]. clear Hi.
  unfold atob.
  set (d := filter (fun c => is_ascii_whitespace c = false)
              (list_ascii_of_string payload)).
  assert (In c d) as Hd.
  { apply list_elem_of_In, list_elem_of_filter. split; [done|].
    by apply list_elem_of_In. }
  set (d' := if (length d mod 4 =? 0)%nat then strip_padding d else d).
  assert (In c d') as Hd'.
  { subst d'. destruct (length d mod 4 =? 0)%nat; [|done].
    by apply strip_padding_keeps. }
  destruct (length d' mod 4 =? 1)%nat; [done|].
  by rewrite (sextets_of_foreign c d' Hidx Hd').
Qed.

(** X4.  On a data URL with a proper head, [dataURLtoFile] does not answer
    [null] for a payload that is not base64.  The payload is what stands
    between the first comma and the next one, or the end; when it holds a
    character outside the base64 alphabet (other than white space and
    [=]), the [InvalidCharacterError] of [atob] leaves the function, with
    whatever message the host gives it. *)
Theorem dataURLtoFile_throws (mime payload filename : string) :
  plain_mime mime = true ->
  string_exists foreign_char (first_field payload) = true ->
  exists message,
    dataURLtoFile (data_url mime payload) filename
    = Throw (DOMException "InvalidCharacterError" message).
Proof.
  intros Hmime Hforeign. exists atob_message.
  unfold dataURLtoFile, first_field in *.
  rewrite split_data_url by (by apply plain_mime_no_comma).
  destruct (split_comma payload) as [|field more]; [done|].
  rewrite match_mime_head by done.
  by rewrite atob_foreign.
Qed.

Lemma dataURLtoFile_throws_witness :
  (exists message,
     dataURLtoFile "data:image/png;base64,iVBOR-_w" "person.png"
     = Throw (DOMException "InvalidCharacterError" message))
  /\ (exists message,
        dataURLtoFile "data:image/png;base64,iVBOR-_w,QUJD" "person.png"
        = Throw (DOMException "InvalidCharacterError" message)).
Proof.
  split.
  - exact (dataURLtoFile_throws "image/png" "iVBOR-_w" "person.png"
             eq_refl eq_refl).
  - exact (dataURLtoFile_throws "image/png" "iVBOR-_w,QUJD" "person.png"
             eq_refl eq_refl).
Defined.

End CodecCases.

(* ===================================================================== *)
(** ** More on the gateway client                                         *)
(* ===================================================================== *)

Module GatewayCases.
Import Js Gateway GatewayMore TryOnFacts.

Lemma find_inline_first (texts rest : list Part) d m :
  forallb (fun p => negb (is_inline p)) texts = true ->
  List.find is_inline (texts ++ InlineData d m :: rest) = Some (InlineData d m).
Proof.
  induction texts as [|p texts IH]; [done|]. simpl.
  intros [Hp Ht]%andb_prop. apply negb_true_iff in Hp. rewrite Hp. by apply IH.
Qed.

Lemma find_inline_none (ps : list Part) :
  forallb (fun p => negb (is_inline p)) ps = true ->
  List.find is_inline ps = None.
Proof.
  induction ps as [|p ps IH]; [done|]. simpl.
  intros [Hp Ht]%andb_prop. apply negb_true_iff in Hp. rewrite Hp. by apply IH.
Qed.

Lemma run_operation_unfold env n op :
  run_operation env n op
  = if truthy (API_KEY env) then
      rethrow_as (failure_message op)
        (bindR (generateContent env n (request_of op))
           (fun response =>
              match find_image response with
              | Some img => Ok img
              | None => Throw (Error EmptyString)
              end))
    else Throw (Error "API_KEY environment variable is not set.").
Proof.
  destruct op; simpl;
    unfold generateClothingImage, removeBackground, virtualTryOn, image_or_throw;
    destruct (truthy (API_KEY env)); try done;
    destruct (generateContent env n _) as [response|e]; try done; simpl;
    destruct (find_image response); try done;
    by destruct (blockReason response).
Qed.

(** X5.  What an image operation ([generateClothingImage],
    [removeBackground], [virtualTryOn]) returns: with the key set and the
    model answering, the result is the first inline part of the FIRST
    candidate, the text parts before it being skipped and everything after
    it - further parts, further candidates - being ignored. *)
Theorem image_operation_result env n op response first others texts rest d m :
  truthy (API_KEY env) = true ->
  generateContent env n (request_of op) = Ok response ->
  candidates response = first :: others ->
  parts first = texts ++ InlineData d m :: rest ->
  forallb (fun p => negb (is_inline p)) texts = true ->
  run_operation env n op = Ok (mkImageResult d m).
Proof.
  intros Hkey Hanswer Hfirst Hparts Htexts.
  rewrite run_operation_unfold, Hkey, Hanswer. simpl.
  unfold find_image. rewrite Hfirst, Hparts.
  by rewrite find_inline_first.
Qed.

Lemma image_operation_result_witness :
  let response :=
    mkResponse
      [mkCandidate [TextPart "Here you are"; InlineData "QUJD" "image/png";
                    InlineData "REVG" "image/jpeg"];
       mkCandidate [InlineData "R0hJ" "image/webp"]]
      None EmptyString in
  let env := mkEnv "key" (fun _ _ => Ok response) (fun _ => Ok None) in
  removeBackground env 0 "iVBORw==" "image/png"
  = Ok (mkImageResult "QUJD" "image/png").
Proof.
  intros response env.
  exact (image_operation_result env 0 (RemoveBackground "iVBORw==" "image/png")
           response _ _ [TextPart "Here you are"] _ "QUJD" "image/png"
           eq_refl eq_refl eq_refl eq_refl eq_refl).
Defined.

(** X6.  How an image operation fails.  Without a key it throws the
    [API_KEY] error.  With a key, whatever goes wrong - the request is
    rejected, the first candidate holds no inline part (an image in a
    later candidate does not count) - the caller gets one fixed message
    per operation: neither the cause nor the block reason of the model is
    in it. *)
Theorem image_operation_failure env n op :
  (truthy (API_KEY env) = false ->
   run_operation env n op
   = Throw (Error "API_KEY environment variable is not set."))
  /\ (truthy (API_KEY env) = true ->
      (forall e, generateContent env n (request_of op) = Throw e ->
         run_operation env n op = Throw (Error (failure_message op)))
      /\ (forall response,
            generateContent env n (request_of op) = Ok response ->
            match candidates response with
            | [] => True
            | first :: _ =>
                forallb (fun p => negb (is_inline p)) (parts first) = true
            end ->
            run_operation env n op = Throw (Error (failure_message op)))
      /\ (forall e, run_operation env n op = Throw e ->
            e = Error (failure_message op))).
Proof.
  rewrite run_operation_unfold. split; [by intros ->|]. intros ->.
  split_and!.
  - by intros e ->.
  - intros response -> Hnone. simpl. unfold find_image.
    destruct (candidates response) as [|first others]; [done|].
    by rewrite find_inline_none.
  - apply rethrow_as_message.
Qed.

Lemma image_operation_failure_witness :
  let blocked :=
    mkResponse [mkCandidate [TextPart "I cannot do that"];
                mkCandidate [InlineData "QUJD" "image/png"]]
      (Some "SAFETY") EmptyString in
  let env := mkEnv "key" (fun _ _ => Ok blocked) (fun _ => Ok None) in
  virtualTryOn (mkEnv EmptyString (fun _ _ => Ok blocked) (fun _ => Ok None))
    0 "iVBORw==" "image/png" "/9j/" "image/jpeg" Artistic
  = Throw (Error "API_KEY environment variable is not set.")
  /\ virtualTryOn env 0 "iVBORw==" "image/png" "/9j/" "image/jpeg" Artistic
     = Throw (Error "Failed to generate image. Please check the console for more details.").
Proof.
  intros blocked env. split.
  - exact (proj1 (image_operation_failure
                    (mkEnv EmptyString (fun _ _ => Ok blocked) (fun _ => Ok None))
                    0 (VirtualTryOn "iVBORw==" "image/png" "/9j/" "image/jpeg"
                         Artistic))
             eq_refl).
  - exact (proj1 (proj2 (proj2 (image_operation_failure env 0
                                  (VirtualTryOn "iVBORw==" "image/png" "/9j/"
                                     "image/jpeg" Artistic))
                           eq_refl))
             blocked eq_refl eq_refl).
Defined.

(** X7.  The style theme reaches the model through the text part alone,
    and the current [virtualTryOn] extends the earlier one: the image
    parts of the request are the person and the clothing, in this order,
    whatever the theme; the request is the earlier version's exactly when
    the theme is [Photorealistic], and there the two versions return the
    same. *)
Theorem virtualTryOn_extends_legacy env n pb pm cb cm style :
  image_parts (try_on_request pb pm cb cm style)
  = [InlineData pb pm; InlineData cb cm]
  /\ (try_on_request pb pm cb cm style = Legacy.try_on_request pb pm cb cm
      <-> style = Photorealistic)
  /\ virtualTryOn env n pb pm cb cm Photorealistic
     = Legacy.virtualTryOn env n pb pm cb cm.
Proof.
  split_and!; [done | | done].
  split; [|by intros ->].
  destruct style; [done | |]; intros [= H]; discriminate H.
Qed.

End GatewayCases.

(* ===================================================================== *)
(** ** More on the try-on                                                 *)
(* ===================================================================== *)

Module TryOnFrame.
Import Js Codec Gateway App AppMore JsFacts CodecFacts TryOnFacts HistoryFacts.

(** Reduce the fields read off a state built by setters. *)
Ltac fields :=
  cbn [personImage clothingImage generatedImage isLoading loadingText error
       view history removeBgEnabled styleTheme savedSession stylistPrompt
       customStylistPrompt preferredColors suggestions suggestionImages
       language
       set_personImage set_clothingImage set_generatedImage set_isLoading
       set_loadingText set_error set_view set_history set_removeBgEnabled
       set_styleTheme set_savedSession set_stylistPrompt
       set_customStylistPrompt set_preferredColors set_suggestions
       set_suggestionImages set_language
       app browser calls fst snd localStorage console alerts] in *.

(** X8.  A try-on never throws and stays within its business: whatever
    the state, the files and the answers of the gateway, [handleTryOn]
    returns; it leaves the uploads, the settings, the saved session, the
    stylist panel, the storage and the alerts as they were; it adds at
    most two gateway calls to the log; and, when both images were there,
    it ends with the loading flag off, the loading text empty and a view
    other than [loading].  (Nothing is said of the console, where the
    gateway reports a failed request.) *)
Theorem handleTryOn_frame env w :
  let w' := snd (handleTryOn env w) in
  fst (handleTryOn env w) = Ok tt
  /\ beside_tryOn (app w') = beside_tryOn (app w)
  /\ localStorage (browser w') = localStorage (browser w)
  /\ alerts (browser w') = alerts (browser w)
  /\ (exists made, calls w' = calls w ++ made /\ length made <= 2)
  /\ (personImage (app w) <> None -> clothingImage (app w) <> None ->
      isLoading (app w') = false
      /\ loadingText (app w') = EmptyString
      /\ view (app w') <> View.loading).
Proof.
  intros w'. subst w'. unfold beside_tryOn. run.
  destruct (personImage (app w)) as [p|] eqn:Hp;
    [destruct (clothingImage (app w)) as [c|] eqn:Hc|]; step.
  - repeat oracle; fields; rewrite ?Hp, ?Hc;
      (split_and!; [done | congruence | done | done | | done]);
      rewrite <- ?app_assoc;
      first [ by eexists; split; [done | simpl; lia]
            | exists []; rewrite app_nil_r; split; [done | simpl; lia] ].
  - fields. rewrite ?Hp, ?Hc. split_and!; try done.
    exists []. rewrite app_nil_r. split; [done | simpl; lia].
  - fields. rewrite ?Hp. split_and!; try done.
    exists []. rewrite app_nil_r. split; [done | simpl; lia].
Qed.

(** X9.  What a try-on shows.  With both images present: when the
    requests resolve, the generated image is the data URL of the result
    with its MIME type, and the error message is cleared; when one fails,
    no generated image is left - the result of an earlier try-on is gone
    as well - and the message is the error's own, or the translation of
    [errorUnexpected] when the error has none. *)
Theorem tryOn_shown env w p c :
  personImage (app w) = Some p ->
  clothingImage (app w) = Some c ->
  let w' := snd (handleTryOn env w) in
  match fst (tryOn_requests env (app w) p c (snd (tryOn_begin w))) with
  | Ok result =>
      generatedImage (app w')
      = Some (mkGenerated (data_url (mimeType result) (data result))
                (mimeType result))
      /\ error (app w') = None
  | Throw e =>
      generatedImage (app w') = None
      /\ error (app w')
         = Some (or_else (message_of e) (t env (language (app w)) errorUnexpected))
  end.
Proof.
  intros Hp Hc w'. subst w'.
  rewrite (handleTryOn_settled env w p c Hp Hc).
  destruct (tryOn_requests env (app w) p c (snd (tryOn_begin w)))
    as [r w2] eqn:Hreq.
  destruct (tryOn_requests_frame _ _ _ _ _ _ _ Hreq) as ([text ->] & _ & _).
  by destruct r.
Qed.

Lemma tryOn_shown_witness :
  let env := Samples.browser_env Samples.offline Samples.storage_ok in
  let before :=
    mkWorld (set_generatedImage
               (Some (mkGenerated "data:image/png;base64,QUJD" "image/png"))
               (app Samples.ready))
      (browser Samples.ready) [] in
  generatedImage (app (snd (handleTryOn env before))) = None
  /\ error (app (snd (handleTryOn env before)))
     = Some "Failed to remove background. Please check the console for more details.".
Proof.
  intros env before.
  exact (tryOn_shown env before _ _ eq_refl eq_refl).
Defined.

(** X10.  Files that cannot be read.  When the reader fails on the person
    file, no gateway call is made and the message is the translation of
    [errorUnexpected] (the reader's event carries no message).  The
    clothing file is read only after the background removal: when the
    removal is on and succeeds and the reader then fails on the clothing
    file, the one [removeBackground] call has been made for nothing, and
    no [virtualTryOn] call follows. *)
Theorem tryOn_unreadable_file env w p c :
  personImage (app w) = Some p ->
  clothingImage (app w) = Some c ->
  t env (language (app w)) errorUnexpected <> EmptyString ->
  let w' := snd (handleTryOn env w) in
  let unexpected := Some (t env (language (app w)) errorUnexpected) in
  (reader_error env (file p) = true ->
   calls w' = calls w /\ error (app w') = unexpected
   /\ view (app w') = View.tryOn)
  /\ (forall pb bg,
        fileToBase64 (reader_error env) (file p) = Ok pb ->
        removeBgEnabled (app w) = true ->
        removeBackground (gateway env) (length (calls w)) pb (type (file p))
        = Ok bg ->
        reader_error env (file c) = true ->
        calls w' = calls w ++ [removeBackgroundCall pb (type (file p))]
        /\ error (app w') = unexpected
        /\ view (app w') = View.tryOn).
Proof.
  intros Hp Hc Ht w' unexpected. subst w' unexpected.
  assert (forall s, s <> EmptyString -> or_else EmptyString s = s) as Hor
    by (by intros [|a s]).
  split.
  - intros Hfail. run. rewrite Hp, Hc. step.
    unfold fileToBase64. rewrite Hfail. step.
    cbn [message_of]. by rewrite (Hor _ Ht).
  - intros pb bg Hpb Hon Hbg Hfail. run. rewrite Hp, Hc. step.
    rewrite Hpb, Hon. step. rewrite Hbg. step.
    assert (fileToBase64 (reader_error env) (file c) = Throw ProgressEvent)
      as -> by (unfold fileToBase64; by rewrite Hfail).
    step. cbn [message_of]. by rewrite (Hor _ Ht).
Qed.

Lemma tryOn_unreadable_file_witness :
  let env :=
    App.mkEnv Samples.studio (fun _ => Samples.english)
      (fun f => String.eqb (Js.name f) "dress.jpg") Samples.blob_url
      Samples.storage_ok (fun _ => true) (fun _ => "[]") (fun _ => Ok [])
      (fun _ => "{}") (fun _ => Throw (Error "Unexpected end of JSON input"))
      (fun s => Ok (String.eqb s "true")) in
  calls (snd (handleTryOn env Samples.ready))
  = [removeBackgroundCall "iVBORw==" "image/png"]
  /\ error (app (snd (handleTryOn env Samples.ready)))
     = Some "An unexpected error occurred.".
Proof.
  intros env.
  destruct (proj2 (tryOn_unreadable_file env Samples.ready _ _ eq_refl eq_refl
                     ltac:(discriminate))
              "iVBORw==" (mkImageResult "QUJD" "image/png")
              eq_refl eq_refl eq_refl eq_refl) as (Hcalls & Herror & _).
  split; [exact Hcalls | exact Herror].
Defined.

(** X11.  Deleting undoes a try-on in the history: after a successful
    try-on, deleting (and confirming) the item at index 0 gives back the
    history there was before the try-on. *)
Theorem tryOn_then_delete env w p c result :
  personImage (app w) = Some p ->
  clothingImage (app w) = Some c ->
  fst (tryOn_requests env (app w) p c (snd (tryOn_begin w))) = Ok result ->
  confirm env (t env (language (app w)) deleteConfirmation) = true ->
  let w' := snd (handleTryOn env w) in
  history (app w')
  = mkHistoryItem (previewUrl p) (previewUrl c)
      (data_url (mimeType result) (data result)) :: history (app w)
  /\ history (app (snd (handleDeleteHistoryItem env 0 w'))) = history (app w).
Proof.
  intros Hp Hc Hok Hyes w'. subst w'.
  rewrite (handleTryOn_settled env w p c Hp Hc).
  destruct (tryOn_requests env (app w) p c (snd (tryOn_begin w)))
    as [r w2] eqn:Hreq.
  destruct (tryOn_requests_frame _ _ _ _ _ _ _ Hreq) as ([text Happ] & _ & _).
  simpl in Hok. subst r. split; [by rewrite Happ|].
  unfold handleDeleteHistoryItem. run_monad. rewrite Happ. simpl.
  rewrite Hyes. step. simpl.
  by rewrite filter_index_past by lia.
Qed.

Lemma tryOn_then_delete_witness :
  let env := Samples.browser_env Samples.studio Samples.storage_ok in
  history (app (snd (handleDeleteHistoryItem env 0
                       (snd (handleTryOn env Samples.ready))))) = [].
Proof.
  intros env.
  exact (proj2 (tryOn_then_delete env Samples.ready _ _
                  (mkImageResult "QUJD" "image/png")
                  eq_refl eq_refl eq_refl eq_refl)).
Defined.

End TryOnFrame.

(* ===================================================================== *)
(** ** More on sessions                                                   *)
(* ===================================================================== *)

Module SessionFrame.
Import Js Codec Gateway App AppMore CodecMore JsFacts CodecFacts TryOnFacts
  SessionFacts StorageFacts TryOnFrame.

(** X12.  Saving a session is all or nothing, and never throws.  Either
    the snapshot is written - the state holds it, the one storage key holds
    its text, one alert is raised, and an error message shown before stays
    shown - or nothing is saved and nothing written, and an error message
    is set.  In both cases the uploads, the settings, the view, the
    history, the stylist panel, the console and the call log are as they
    were. *)
Theorem handleSaveSession_frame env w :
  let w' := snd (handleSaveSession env w) in
  fst (handleSaveSession env w) = Ok tt
  /\ beside_save (app w') = beside_save (app w)
  /\ calls w' = calls w
  /\ console (browser w') = console (browser w)
  /\ ((exists session,
         savedSession (app w') = Some session
         /\ localStorage (browser w')
            = <["trayonSavedSession" := stringify_session env session]>
                (localStorage (browser w))
         /\ alerts (browser w')
            = alerts (browser w) ++ [t env (language (app w)) sessionSaved]
         /\ error (app w') = error (app w))
      \/ (savedSession (app w') = savedSession (app w)
          /\ browser w' = browser w
          /\ exists message, error (app w') = Some message)).
Proof.
  intros w'. subst w'. unfold beside_save, beside_session. run.
  unfold setItem.
  destruct (personImage (app w)) as [p|] eqn:Hp;
    [destruct (clothingImage (app w)) as [c|] eqn:Hc|]; step.
  - destruct (storage_throws env _ _); step; fields; rewrite ?Hp, ?Hc;
      (split_and!; [done..|]).
    + right. split_and!; [done | by destruct (browser w) | by eexists].
    + left. eexists. by split_and!.
  - fields. rewrite ?Hp, ?Hc. split_and!; [done..|].
    right. split_and!; [done | by destruct (browser w) | by eexists].
  - fields. rewrite ?Hp. split_and!; [done..|].
    right. split_and!; [done | by destruct (browser w) | by eexists].
Qed.

(** X13.  Loading a session touches the two images, the two settings and
    the view, nothing else - not the storage, the saved session or the
    error message.  Without a saved session it does nothing.  It throws
    when a saved preview is a data URL whose payload is not base64, and
    then it has changed nothing: both previews are decoded before the
    first setter runs. *)
Theorem handleLoadSession_frame w :
  let w' := snd (handleLoadSession w) in
  (beside_session (app w') = beside_session (app w)
   /\ savedSession (app w') = savedSession (app w)
   /\ error (app w') = error (app w)
   /\ browser w' = browser w
   /\ calls w' = calls w)
  /\ (savedSession (app w) = None -> handleLoadSession w = (Ok tt, w))
  /\ (forall e, fst (handleLoadSession w) = Throw e -> w' = w)
  /\ (forall s, savedSession (app w) = Some s ->
        fst (handleLoadSession w) = Ok tt ->
        removeBgEnabled (app w') = SavedSession.removeBgEnabled s
        /\ styleTheme (app w') = SavedSession.styleTheme s
        /\ view (app w') = View.tryOn).
Proof.
  intros w'. subst w'. unfold beside_session. run.
  destruct (savedSession (app w)) as [s|] eqn:Hs; step.
  - destruct (dataURLtoFile (SavedSession.personImage s) "person.png")
      as [[pf|]|pe]; step;
      (destruct (dataURLtoFile (SavedSession.clothingImage s) "clothing.png")
         as [[cf|]|ce]; step); fields; rewrite ?Hs;
      (split_and!; [done.. | | ]);
      first [ by intros e [=] | by intros e _ | idtac ];
      first [ by intros s' [= <-] _ | by intros s' _ [=] ].
  - split_and!; try done.
Qed.

(** The menu button, by what the two removals do. *)
Lemma onStart_run env w :
  let store := localStorage (browser w) in
  onStart env w
  = if storage_throws env store (RemoveItem "trayonPersonImage") then
      (Throw storage_error, mkWorld (started_over (app w)) (browser w) (calls w))
    else if storage_throws env (delete "trayonPersonImage" store)
              (RemoveItem "trayonClothingImage") then
      (Throw storage_error,
       mkWorld (started_over (app w)) (without "trayonPersonImage" (browser w))
         (calls w))
    else
      (Ok tt,
       mkWorld (set_view View.tryOn (started_over (app w)))
         (without "trayonClothingImage"
            (without "trayonPersonImage" (browser w)))
         (calls w)).
Proof.
  intros store. subst store.
  unfold onStart, handleStartNew, removeItem, started_over, without. run_monad.
  destruct (storage_throws env _ _); step; [by destruct (browser w)|].
  by destruct (storage_throws env _ _).
Qed.

(** X14.  A session whose previews are base64 data URLs of a plain type,
    as the [SavedSession] interface describes them, does come back: save
    the session, start over from the menu, load the session - both images
    are there again with their bytes, under the names [person.png] and
    [clothing.png], together with the toggle and the style theme of the
    time of saving; the view is the try-on screen.  The storage is taken
    to work, and the two types to be such as [new File] keeps as they are
    (printable ASCII, no upper-case letter). *)
Theorem save_restart_load_data_urls env w p c pm pb cm cb :
  storage_works env ->
  personImage (app w) = Some p ->
  clothingImage (app w) = Some c ->
  plain_mime pm = true -> plain_mime cm = true ->
  File_type pm = pm -> File_type cm = cm ->
  previewUrl p = data_url pm (base64_encode pb) ->
  previewUrl c = data_url cm (base64_encode cb) ->
  let saved := snd (handleSaveSession env w) in
  let restarted := snd (onStart env saved) in
  let loaded := snd (handleLoadSession restarted) in
  (personImage (app restarted) = None /\ clothingImage (app restarted) = None)
  /\ personImage (app loaded)
     = Some (mkUploaded (mkFile pb "person.png" pm) (previewUrl p))
  /\ clothingImage (app loaded)
     = Some (mkUploaded (mkFile cb "clothing.png" cm) (previewUrl c))
  /\ removeBgEnabled (app loaded) = removeBgEnabled (app w)
  /\ styleTheme (app loaded) = styleTheme (app w)
  /\ view (app loaded) = View.tryOn.
Proof.
  intros Hstorage Hp Hc Hpm Hcm _ _ Hpu Hcu saved restarted loaded.
  destruct (handleSaveSession_slot env w p c Hp Hc (Hstorage _ _))
    as [Hsaved _].
  fold saved in Hsaved.
  assert (savedSession (app restarted) = Some (snapshot (app w) p c)
          /\ personImage (app restarted) = None
          /\ clothingImage (app restarted) = None) as (Hkept & Hnop & Hnoc).
  { subst restarted. rewrite onStart_run. cbn zeta. rewrite !Hstorage.
    unfold started_over. by fields. }
  split; [done|].
  destruct (handleLoadSession_data_urls restarted _ pm pb cm cb Hkept Hpm Hcm
              Hpu Hcu) as (H1 & H2 & H3 & H4 & H5).
  by split_and!.
Qed.

Lemma save_restart_load_data_urls_witness :
  let env := Samples.browser_env Samples.studio Samples.storage_ok in
  let restored :=
    mkWorld
      (set_styleTheme Artistic
         (set_clothingImage
            (Some (mkUploaded Samples.dress "data:image/jpeg;base64,/9j/"))
            (set_personImage
               (Some (mkUploaded Samples.photo "data:image/png;base64,iVBORw=="))
               Samples.initial)))
      (mkBrowser ∅ [] []) [] in
  let loaded :=
    snd (handleLoadSession
           (snd (onStart env (snd (handleSaveSession env restored))))) in
  personImage (app loaded)
  = Some (mkUploaded (mkFile [x89; x50; x4e; x47] "person.png" "image/png")
            "data:image/png;base64,iVBORw==")
  /\ styleTheme (app loaded) = Artistic.
Proof.
  intros env restored loaded.
  destruct (save_restart_load_data_urls env restored _ _ "image/png"
              [x89; x50; x4e; x47] "image/jpeg" [xff; xd8; xff]
              (fun _ _ => eq_refl) eq_refl eq_refl eq_refl eq_refl eq_refl
              eq_refl eq_refl eq_refl) as (_ & Hperson & _ & _ & Hstyle & _).
  split; [exact Hperson | exact Hstyle].
Defined.

(** X15.  Starting over, with a working storage: the menu button clears
    the uploads, the result, the error and the stylist panel, and puts the
    settings back to their defaults; it keeps the history, the saved
    session and the language; it removes the two image keys from the
    storage and leaves every other key - the history and the saved session
    among them - as it is; the view becomes the try-on screen. *)
Theorem onStart_resets env w :
  (forall store key, storage_throws env store (RemoveItem key) = false) ->
  let w' := snd (onStart env w) in
  fst (onStart env w) = Ok tt
  /\ reset_by_startNew (app w') = cleared
  /\ (history (app w'), savedSession (app w'), language (app w'))
     = (history (app w), savedSession (app w), language (app w))
  /\ view (app w') = View.tryOn
  /\ localStorage (browser w') !! "trayonPersonImage" = None
  /\ localStorage (browser w') !! "trayonClothingImage" = None
  /\ (forall key, key <> "trayonPersonImage" -> key <> "trayonClothingImage" ->
        localStorage (browser w') !! key = localStorage (browser w) !! key)
  /\ calls w' = calls w.
Proof.
  intros Hstorage w'. subst w'. rewrite onStart_run. cbn zeta.
  rewrite !Hstorage.
  unfold reset_by_startNew, cleared, started_over, without. fields.
  split_and!; try done.
  - by rewrite lookup_delete_ne, lookup_delete_eq.
  - by rewrite lookup_delete_eq.
  - intros key H1 H2. by rewrite !lookup_delete_ne.
Qed.

Lemma onStart_resets_witness :
  let env := Samples.browser_env Samples.studio Samples.storage_ok in
  let w :=
    mkWorld (set_history [mkHistoryItem "p" "c" "r"] (app Samples.ready))
      (mkBrowser (<["trayonPersonImage" := "blob:me"]>
                    (<["trayonHistory" := "[...]"]> ∅)) [] []) [] in
  personImage (app (snd (onStart env w))) = None
  /\ history (app (snd (onStart env w))) = [mkHistoryItem "p" "c" "r"]
  /\ localStorage (browser (snd (onStart env w))) !! "trayonPersonImage" = None
  /\ localStorage (browser (snd (onStart env w))) !! "trayonHistory"
     = Some "[...]".
Proof.
  intros env w.
  destruct (onStart_resets env w (fun _ _ => eq_refl))
    as (_ & Hreset & Hkept & _ & Hperson & _ & Hothers & _).
  split_and!.
  - exact (f_equal (fun x => x.1.1.1.1.1.1.1.1.1.1) Hreset).
  - exact (f_equal (fun x => x.1.1) Hkept).
  - exact Hperson.
  - exact (Hothers "trayonHistory" ltac:(discriminate) ltac:(discriminate)).
Defined.

(** X16.  Starting over is not atomic.  When one of the two unguarded
    [removeItem] calls throws, the exception leaves the handler - the
    button's [setView('tryOn')] is never reached, the view stays where it
    was - although the state has been reset already: uploads, result,
    error and stylist panel are cleared.  When it is the second call that
    throws, the first key is gone from the storage. *)
Theorem onStart_interrupted env w :
  let store := localStorage (browser w) in
  let w' := snd (onStart env w) in
  (storage_throws env store (RemoveItem "trayonPersonImage") = true ->
   fst (onStart env w) = Throw storage_error
   /\ reset_by_startNew (app w') = cleared
   /\ view (app w') = view (app w)
   /\ browser w' = browser w)
  /\ (storage_throws env store (RemoveItem "trayonPersonImage") = false ->
      storage_throws env (delete "trayonPersonImage" store)
        (RemoveItem "trayonClothingImage") = true ->
      fst (onStart env w) = Throw storage_error
      /\ reset_by_startNew (app w') = cleared
      /\ view (app w') = view (app w)
      /\ localStorage (browser w') = delete "trayonPersonImage" store).
Proof.
  intros store w'. subst store w'. rewrite onStart_run. cbn zeta.
  unfold reset_by_startNew, cleared, started_over, without.
  split.
  - by intros ->.
  - by intros -> ->.
Qed.

Lemma onStart_interrupted_witness :
  let env := Samples.browser_env Samples.studio Samples.storage_denied in
  let shown :=
    mkWorld
      (set_view View.result
         (set_generatedImage
            (Some (mkGenerated "data:image/png;base64,QUJD" "image/png"))
            (app Samples.ready)))
      (browser Samples.ready) [] in
  fst (onStart env shown) = Throw storage_error
  /\ generatedImage (app (snd (onStart env shown))) = None
  /\ view (app (snd (onStart env shown))) = View.result.
Proof.
  intros env shown.
  destruct (proj1 (onStart_interrupted env shown) eq_refl)
    as (Hthrown & Hreset & Hview & _).
  split_and!.
  - exact Hthrown.
  - exact (f_equal (fun x => x.1.1.1.1.1.1.1.1.2) Hreset).
  - exact Hview.
Defined.

End SessionFrame.

(* ===================================================================== *)
(** ** What survives a reload                                             *)
(* ===================================================================== *)

Module ReloadFacts.
Import Js Codec Gateway App AppMore CodecMore JsFacts CodecFacts TryOnFacts
  SessionFacts StorageFacts TryOnFrame.

Lemma or_else_truthy (s fallback : string) :
  s <> EmptyString -> or_else s fallback = s.
Proof. by destruct s. Qed.

(** X17.  The settings survive a reload.  With a working storage, what
    the persistence effects write is what the lazy initialisers read back
    on the next visit: the style theme, the language, the background
    toggle (for a [JSON.parse] that reads [true] and [false]) and the
    colour theme come back as they were. *)
Theorem settings_survive_reload env w later :
  storage_works env ->
  parse_bool env "true" = Ok true ->
  parse_bool env "false" = Ok false ->
  (same_item "trayonStyleTheme" (snd (persist_styleTheme env w)) later ->
   fst (styleTheme_init env later) = Ok (styleTheme (app w)))
  /\ (same_item "trayonLanguage" (snd (useLocalization_effect env w)) later ->
      fst (useLocalization_init env later) = Ok (language (app w)))
  /\ (same_item "trayonRemoveBg" (snd (persist_removeBg env w)) later ->
      fst (removeBgEnabled_init env later) = Ok (removeBgEnabled (app w)))
  /\ (forall theme, theme <> EmptyString ->
        same_item "trayonTheme" (snd (useTheme_effect env theme w)) later ->
        fst (useTheme_init env later) = Ok theme).
Proof.
  intros Hstorage Htrue Hfalse. unfold same_item. split_and!.
  - run_storage. rewrite !Hstorage. step. fields. rewrite lookup_insert_eq.
    intros <-. by destruct (styleTheme (app w)).
  - run_storage. rewrite !Hstorage. step. fields. rewrite lookup_insert_eq.
    intros <-. by destruct (language (app w)).
  - run_storage. rewrite !Hstorage. step. fields. rewrite lookup_insert_eq.
    intros <-. destruct (removeBgEnabled (app w)); by rewrite ?Htrue, ?Hfalse.
  - intros theme Htheme. run_storage. rewrite !Hstorage. step.
    fields. rewrite lookup_insert_eq. intros <-. by rewrite or_else_truthy.
Qed.

Lemma settings_survive_reload_witness :
  let env := Samples.browser_env Samples.studio Samples.storage_ok in
  let w :=
    mkWorld (set_styleTheme MagazineCover (set_removeBgEnabled false Samples.initial))
      (mkBrowser ∅ [] []) [] in
  fst (styleTheme_init env (snd (persist_styleTheme env w))) = Ok MagazineCover
  /\ fst (removeBgEnabled_init env (snd (persist_removeBg env w))) = Ok false.
Proof.
  intros env w. split.
  - exact (proj1 (settings_survive_reload env w (snd (persist_styleTheme env w))
                    (fun _ _ => eq_refl) eq_refl eq_refl) eq_refl).
  - exact (proj1 (proj2 (proj2 (settings_survive_reload env w
                                  (snd (persist_removeBg env w))
                                  (fun _ _ => eq_refl) eq_refl eq_refl)))
             eq_refl).
Defined.

(** X18.  The history survives a reload.  With a working storage and a
    JSON codec that reads back the history it wrote, the start-up effect
    restores the history the persistence effect saved - and it does so
    even when what it loads afterwards (the saved session, the persisted
    images) cannot be read. *)
Theorem history_survives_reload env w later :
  storage_works env ->
  let text := stringify_history env (history (app w)) in
  text <> EmptyString ->
  parse_history env text = Ok (history (app w)) ->
  same_item "trayonHistory" (snd (persist_history env w)) later ->
  fst (load_effect env later) = Ok tt
  /\ history (app (snd (load_effect env later))) = history (app w).
Proof.
  intros Hstorage text Htext Hparse. subst text. unfold same_item.
  assert (truthy (stringify_history env (history (app w))) = true) as Htruthy
    by (by destruct (stringify_history env (history (app w)))).
  unfold load_effect, when_present, restore_image. run_storage.
  rewrite !Hstorage. step. fields. rewrite lookup_insert_eq. intros <-.
  rewrite Htruthy, Hparse. step.
  repeat branch; fields; try done.
Qed.

Lemma history_survives_reload_witness :
  let env :=
    App.mkEnv Samples.studio (fun _ => Samples.english) (fun _ => false)
      Samples.blob_url Samples.storage_ok (fun _ => true)
      (fun h => match h with [] => "[]" | _ => "[{...}]" end)
      (fun s => if String.eqb s "[]" then Ok []
                else Ok [mkHistoryItem "p" "c" "r"])
      (fun _ => "{}") (fun _ => Throw (Error "Unexpected end of JSON input"))
      (fun s => Ok (String.eqb s "true")) in
  let w :=
    mkWorld (set_history [mkHistoryItem "p" "c" "r"] Samples.initial)
      (mkBrowser (<["trayonSavedSession" := "{"]> ∅) [] []) [] in
  let later :=
    mkWorld Samples.initial
      (mkBrowser (localStorage (browser (snd (persist_history env w)))) [] []) [] in
  history (app (snd (load_effect env later))) = [mkHistoryItem "p" "c" "r"].
Proof.
  intros env w later.
  exact (proj2 (history_survives_reload env w later (fun _ _ => eq_refl)
                  ltac:(discriminate) eq_refl eq_refl)).
Defined.

(** What the start-up effect does with a stored preview that is not a data
    URL: nothing. *)
Lemma load_effect_skips env later :
  match localStorage (browser later) !! "trayonPersonImage" with
  | Some url => comma_free url = true
  | None => True
  end ->
  match localStorage (browser later) !! "trayonClothingImage" with
  | Some url => comma_free url = true
  | None => True
  end ->
  personImage (app (snd (load_effect env later))) = personImage (app later)
  /\ clothingImage (app (snd (load_effect env later))) = clothingImage (app later).
Proof.
  intros Hp Hc.
  unfold load_effect, when_present, restore_image. run_storage.
  repeat branch; fields; try done;
    repeat match goal with
      | H : ?x = Some _, H' : context [match ?x with _ => _ end] |- _ =>
          rewrite H in H'
      end;
    unfold comma_free in *;
    repeat match goal with
      | H : dataURLtoFile ?s _ = _ |- _ =>
          rewrite dataURLtoFile_no_comma in H by assumption
      end; done.
Qed.

(** X19.  Uploaded pictures do not survive a reload.  The preview of an
    upload is an object URL; the persistence effects store that URL, and
    on the next visit the start-up effect cannot turn it into a file: with
    both pictures uploaded and persisted, their object URLs holding no
    comma, the component that starts without images stays without
    them. *)
Theorem uploads_not_restored env w later person clothing :
  storage_works env ->
  is_image_type (type person) = true ->
  is_image_type (type clothing) = true ->
  comma_free (createObjectURL env person) = true ->
  comma_free (createObjectURL env clothing) = true ->
  let uploaded :=
    snd (handleImageChange env ClothingSlot clothing
           (snd (handleImageChange env PersonSlot person w))) in
  let persisted :=
    snd (persist_clothingImage env (snd (persist_personImage env uploaded))) in
  same_item "trayonPersonImage" persisted later ->
  same_item "trayonClothingImage" persisted later ->
  personImage (app later) = None ->
  clothingImage (app later) = None ->
  (localStorage (browser later) !! "trayonPersonImage"
   = Some (createObjectURL env person)
   /\ localStorage (browser later) !! "trayonClothingImage"
      = Some (createObjectURL env clothing))
  /\ personImage (app (snd (load_effect env later))) = None
  /\ clothingImage (app (snd (load_effect env later))) = None.
Proof.
  intros Hstorage Hperson Hclothing Hpurl Hcurl uploaded persisted.
  assert (localStorage (browser persisted) !! "trayonPersonImage"
          = Some (createObjectURL env person)
          /\ localStorage (browser persisted) !! "trayonClothingImage"
             = Some (createObjectURL env clothing)) as [Hp Hc].
  { subst persisted uploaded. run_storage. rewrite Hperson, Hclothing.
    cbn [negb]. step. fields. rewrite !Hstorage. step. fields.
    rewrite ?Hstorage. step. fields.
    by rewrite lookup_insert_eq, lookup_insert_ne, lookup_insert_eq. }
  unfold same_item. rewrite Hp, Hc. intros Hp' Hc' Hnop Hnoc.
  split; [done|].
  destruct (load_effect_skips env later) as [-> ->];
    rewrite <- ?Hp', <- ?Hc'; done.
Qed.

Lemma uploads_not_restored_witness :
  let env := Samples.browser_env Samples.studio Samples.storage_ok in
  let uploaded :=
    snd (handleImageChange env ClothingSlot Samples.dress
           (snd (handleImageChange env PersonSlot Samples.photo Samples.fresh))) in
  let persisted :=
    snd (persist_clothingImage env (snd (persist_personImage env uploaded))) in
  let later :=
    mkWorld Samples.initial (mkBrowser (localStorage (browser persisted)) [] [])
      [] in
  personImage (app uploaded)
  = Some (mkUploaded Samples.photo "blob:http://localhost:3000/me.png")
  /\ personImage (app (snd (load_effect env later))) = None
  /\ clothingImage (app (snd (load_effect env later))) = None.
Proof.
  intros env uploaded persisted later. split; [reflexivity|].
  exact (proj2 (uploads_not_restored env Samples.fresh later Samples.photo
                  Samples.dress (fun _ _ => eq_refl) eq_refl eq_refl
                  eq_refl eq_refl eq_refl eq_refl eq_refl eq_refl)).
Defined.

End ReloadFacts.

(* ===================================================================== *)
(** ** More on the stylist panel                                          *)
(* ===================================================================== *)

Module PanelFacts.
Import Js Codec Gateway App AppMore CodecMore Screen JsFacts CodecFacts
  TryOnFacts SuggestionFacts TryOnFrame CodecCases.

#[local] Set Warnings "-clear-no-such-hyp".

(** The three ways [handleGetSuggestions] runs. *)
Lemma getSuggestions_no_prompt env order w :
  truthy (finalPrompt (app w)) = false ->
  handleGetSuggestions env order w
  = (Ok tt,
     mkWorld (set_error (Some (t env (language (app w)) errorSelectStyle)) (app w))
       (browser w) (calls w)).
Proof.
  intros Hprompt. unfold handleGetSuggestions, getSuggestions_in. run_monad.
  by rewrite Hprompt.
Qed.

Lemma getSuggestions_rejected env order w e :
  truthy (finalPrompt (app w)) = true ->
  getClothingSuggestions (gateway env) (length (calls w))
    (finalPrompt (app w)) (language (app w)) = Throw e ->
  handleGetSuggestions env order w
  = (Ok tt,
     mkWorld
       (set_loadingText EmptyString
          (set_isLoading false
             (set_error
                (Some (or_else (message_of e)
                         (t env (language (app w)) errorUnexpected)))
                (set_suggestionImages ∅
                   (set_suggestions []
                      (set_error None
                         (set_loadingText
                            (t env (language (app w)) gettingSuggestions)
                            (app w))))))))
       (browser w)
       (calls w ++ [getClothingSuggestionsCall (finalPrompt (app w))
                      (language (app w)) (preferredColors (app w))])).
Proof.
  intros Hprompt Hfail. unfold handleGetSuggestions, getSuggestions_in.
  run_monad. rewrite Hprompt. cbn [negb]. step. by rewrite Hfail.
Qed.

Lemma getSuggestions_settling env order w results :
  truthy (finalPrompt (app w)) = true ->
  getClothingSuggestions (gateway env) (length (calls w))
    (finalPrompt (app w)) (language (app w)) = Ok results ->
  handleGetSuggestions env order w
  = (Ok tt,
     finished (pending_of env (S (length (calls w))) results) order
       (marked env w results)).
Proof.
  intros Hprompt Hresults.
  unfold handleGetSuggestions, getSuggestions_in. run_monad.
  rewrite Hprompt. cbn [negb]. step.
  rewrite Hresults. step. rewrite start_generations_effect. step. fields.
  rewrite length_app, Nat.add_1_r, <- app_assoc. cbn [length].
  unfold marked, finished.
  match goal with
  | |- context [[?c] ++ ?l] => change ([c] ++ l) with (c :: l)
  end.
  lazymatch goal with
  | |- context [settle_all ?p order ?w3] =>
      destruct (settle_all_shape p order w3) as (images & logs & ->)
  end.
  done.
Qed.

Lemma getSuggestions_resolved env order w results :
  truthy (finalPrompt (app w)) = true ->
  getClothingSuggestions (gateway env) (length (calls w))
    (finalPrompt (app w)) (language (app w)) = Ok results ->
  exists images logs,
    handleGetSuggestions env order w
    = (Ok tt,
       mkWorld
         (set_loadingText EmptyString
            (set_isLoading false
               (set_suggestionImages images
                  (set_loadingText
                     (t env (language (app w)) generatingImageGallery)
                     (set_suggestions results
                        (set_error None
                           (set_loadingText
                              (t env (language (app w)) gettingSuggestions)
                              (app w))))))))
         (mkBrowser (localStorage (browser w)) logs (alerts (browser w)))
         (calls w
            ++ getClothingSuggestionsCall (finalPrompt (app w))
                 (language (app w)) (preferredColors (app w))
            :: map (fun s => generateClothingImageCall (description s)
                               (styleTheme (app w))) results)).
Proof.
  intros Hprompt Hresults.
  rewrite (getSuggestions_settling env order w results Hprompt Hresults).
  unfold finished.
  destruct (settle_all_shape (pending_of env (S (length (calls w))) results)
              order (marked env w results)) as (images & logs & ->).
  by exists images, logs.
Qed.

(** X20.  Asking for suggestions never throws and stays within the
    stylist panel: whatever the model answers and in whatever order the
    image generations settle, [handleGetSuggestions] returns; the uploads,
    the result, the view, the history, the settings, the saved session,
    the prompt fields, the storage and the alerts are as they were; and
    once a prompt was there, it ends with the loading flag off and the
    loading text empty. *)
Theorem handleGetSuggestions_frame env order w :
  let w' := snd (handleGetSuggestions env order w) in
  fst (handleGetSuggestions env order w) = Ok tt
  /\ beside_suggestions (app w') = beside_suggestions (app w)
  /\ localStorage (browser w') = localStorage (browser w)
  /\ alerts (browser w') = alerts (browser w)
  /\ (truthy (finalPrompt (app w)) = true ->
      isLoading (app w') = false /\ loadingText (app w') = EmptyString).
Proof.
  intros w'. subst w'.
  destruct (truthy (finalPrompt (app w))) eqn:Hprompt.
  - destruct (getClothingSuggestions (gateway env) (length (calls w))
                (finalPrompt (app w)) (language (app w)))
      as [results|e] eqn:Hanswer.
    + destruct (getSuggestions_resolved env order w results Hprompt Hanswer)
        as (images & logs & ->).
      by split_and!.
    + rewrite (getSuggestions_rejected env order w e Hprompt Hanswer).
      by split_and!.
  - rewrite (getSuggestions_no_prompt env order w Hprompt). by split_and!.
Qed.

(** Settling leaves alone the names that are not in the batch. *)
Lemma settle_all_elsewhere pending order w k :
  k ∉ (fun p => name p.1) <$> pending ->
  suggestionImages (app (snd (settle_all pending order w))) !! k
  = suggestionImages (app w) !! k.
Proof.
  intros Hk. revert w. induction order as [|i order IH]; intros w; [done|].
  cbn [settle_all]. destruct (pending !! i) as [[s o]|] eqn:Hpi; [|apply IH].
  destruct (settle_effect s o w) as (images1 & Hsettle & Hother & _).
  unfold bind. rewrite Hsettle. rewrite IH. cbn.
  apply Hother. intros ->. apply Hk.
  apply list_elem_of_fmap. exists (s, o). split; [done|].
  by apply list_elem_of_lookup_2 with i.
Qed.

(** X21.  A batch of suggestions, in the call log and on the screen.
    When the model answers with a list - of any length, with or without
    repeated names - the handler makes the one [getClothingSuggestions]
    call and then one [generateClothingImage] call per suggestion, in list
    order; the list is shown as it came and the error message is cleared; and whatever order the
    generations settle in, and whether they succeed, every tile left
    carries the name of a suggestion of this batch: nothing of an earlier
    batch remains. *)
Theorem suggestion_batch env order w results :
  truthy (finalPrompt (app w)) = true ->
  getClothingSuggestions (gateway env) (length (calls w))
    (finalPrompt (app w)) (language (app w)) = Ok results ->
  let w' := snd (handleGetSuggestions env order w) in
  calls w'
  = calls w
      ++ getClothingSuggestionsCall (finalPrompt (app w)) (language (app w))
           (preferredColors (app w))
      :: map (fun s => generateClothingImageCall (description s)
                         (styleTheme (app w))) results
  /\ suggestions (app w') = results
  /\ error (app w') = None
  /\ (forall k, k ∉ name <$> results -> suggestionImages (app w') !! k = None).
Proof.
  intros Hprompt Hresults w'.
  destruct (getSuggestions_resolved env order w results Hprompt Hresults)
    as (images & logs & Hrun).
  destruct (handleGetSuggestions_run env order w results Hprompt Hresults)
    as (w3 & Hmarked & Himages & _).
  subst w'. split_and!; [by rewrite Hrun..|].
  intros k Hk. rewrite Himages, settle_all_elsewhere.
  - rewrite Hmarked, mark_loading_lookup. by rewrite decide_False.
  - by rewrite pending_of_names.
Qed.

Lemma suggestion_batch_witness :
  let env := Samples.browser_env (Samples.stylist "image/png") Samples.storage_ok in
  calls (snd (handleGetSuggestions env [2; 0; 1] Samples.styled))
  = [getClothingSuggestionsCall "A casual weekend outfit" Ru EmptyString;
     generateClothingImageCall "A long grey wool coat" Photorealistic;
     generateClothingImageCall "A red silk scarf" Photorealistic;
     generateClothingImageCall "Black leather ankle boots" Photorealistic].
Proof.
  intros env.
  exact (proj1 (suggestion_batch env [2; 0; 1] Samples.styled
                  [Samples.coat; Samples.scarf; Samples.boots]
                  eq_refl eq_refl)).
Defined.

(** X22.  No suggestions.  Without a prompt - nothing chosen, or the
    custom style chosen and its text left empty - the handler only sets
    the [errorSelectStyle] message: no call is made and the suggestions on
    the screen stay.  With a prompt and the [getClothingSuggestions] call
    failing, that one call is the only one made, the suggestions and tiles
    of the earlier batch are gone, the storage and the alerts are as they
    were, and the message shown is one of the two fixed texts of the
    gateway.  (Nothing is said of the console, where the gateway reports
    the failure.) *)
Theorem suggestions_unavailable env order w :
  let w' := snd (handleGetSuggestions env order w) in
  (truthy (finalPrompt (app w)) = false ->
   w' = mkWorld
          (set_error (Some (t env (language (app w)) errorSelectStyle)) (app w))
          (browser w) (calls w))
  /\ (forall e,
        truthy (finalPrompt (app w)) = true ->
        getClothingSuggestions (gateway env) (length (calls w))
          (finalPrompt (app w)) (language (app w)) = Throw e ->
        calls w'
        = calls w ++ [getClothingSuggestionsCall (finalPrompt (app w))
                        (language (app w)) (preferredColors (app w))]
        /\ suggestions (app w') = []
        /\ suggestionImages (app w') = ∅
        /\ localStorage (browser w') = localStorage (browser w)
        /\ alerts (browser w') = alerts (browser w)
        /\ error (app w')
           = Some (if truthy (API_KEY (gateway env))
                   then "Failed to get clothing suggestions. Please check the console."
                   else "API_KEY environment variable is not set.")).
Proof.
  intros w'. subst w'. split.
  - intros Hprompt. by rewrite getSuggestions_no_prompt.
  - intros e Hprompt Hfail. rewrite (getSuggestions_rejected env order w e) by done.
    fields. split_and!; [done..|].
    unfold getClothingSuggestions in Hfail.
    destruct (truthy (API_KEY (gateway env))).
    + by apply rethrow_as_message in Hfail as ->.
    + by injection Hfail as <-.
Qed.

Lemma suggestions_unavailable_witness :
  let env := Samples.browser_env Samples.offline Samples.storage_ok in
  let before :=
    mkWorld (set_suggestions [Samples.coat] (app Samples.styled))
      (browser Samples.styled) [] in
  suggestions (app (snd (handleGetSuggestions env [] before))) = []
  /\ error (app (snd (handleGetSuggestions env [] before)))
     = Some "Failed to get clothing suggestions. Please check the console.".
Proof.
  intros env before.
  destruct (proj2 (suggestions_unavailable env [] before)
              (Error "Failed to get clothing suggestions. Please check the console.")
              eq_refl eq_refl) as (_ & Hnone & _ & _ & _ & Herror).
  split; [exact Hnone | exact Herror].
Defined.

(** *** The style theme and the generated pictures *)

Lemma settle_same_panel s o w1 w2 :
  same_panel w1 w2 -> same_panel (snd (settle s o w1)) (snd (settle s o w2)).
Proof.
  intros [Himages Hbrowser]. unfold same_panel. run_suggestions.
  destruct o as [imageResult|e]; step.
  - destruct (dataURLtoFile _ _) as [[imageFile|]|e]; step; fields;
      by rewrite ?Himages, ?Hbrowser.
  - fields. by rewrite Himages, Hbrowser.
Qed.

Lemma settle_all_same_panel pending order w1 w2 :
  same_panel w1 w2 ->
  same_panel (snd (settle_all pending order w1))
    (snd (settle_all pending order w2)).
Proof.
  revert w1 w2. induction order as [|i order IH]; intros w1 w2 Hsame; [done|].
  cbn [settle_all]. destruct (pending !! i) as [[s o]|]; [|by apply IH].
  pose proof (settle_same_panel s o w1 w2 Hsame) as Hstep.
  destruct (settle_effect s o w1) as (images1 & Hs1 & _).
  destruct (settle_effect s o w2) as (images2 & Hs2 & _).
  unfold bind. rewrite Hs1, Hs2 in *. by apply IH.
Qed.

Lemma finished_same_panel pending order m1 m2 :
  same_panel m1 m2 ->
  suggestions (app m1) = suggestions (app m2) ->
  error (app m1) = error (app m2) ->
  length (calls m1) = length (calls m2) ->
  let f1 := finished pending order m1 in
  let f2 := finished pending order m2 in
  suggestions (app f1) = suggestions (app f2)
  /\ suggestionImages (app f1) = suggestionImages (app f2)
  /\ error (app f1) = error (app f2)
  /\ browser f1 = browser f2
  /\ length (calls f1) = length (calls f2).
Proof.
  intros Hsame Hsuggestions Herror Hcalls f1 f2. subst f1 f2. unfold finished.
  destruct (settle_all_same_panel pending order m1 m2 Hsame)
    as [Himages Hbrowser].
  destruct (settle_all_shape pending order m1) as (images1 & logs1 & H1).
  destruct (settle_all_shape pending order m2) as (images2 & logs2 & H2).
  rewrite H1, H2 in *. clear H1 H2. fields. by split_and!.
Qed.

(** X23.  The style theme has no part in the suggestions.  The handler
    passes the chosen theme to [generateClothingImage], which takes the
    description alone: run from two states that differ in the style theme
    only, it returns the same, shows the same suggestions, the same tiles
    with the same pictures, the same error message, and leaves the same
    browser; the theme shows in the logged arguments of the calls and
    nowhere else. *)
Theorem suggestions_ignore_style env order w theme :
  let w1 := snd (handleGetSuggestions env order w) in
  let w2 :=
    snd (handleGetSuggestions env order
           (mkWorld (set_styleTheme theme (app w)) (browser w) (calls w))) in
  suggestions (app w2) = suggestions (app w1)
  /\ suggestionImages (app w2) = suggestionImages (app w1)
  /\ error (app w2) = error (app w1)
  /\ browser w2 = browser w1
  /\ length (calls w2) = length (calls w1).
Proof.
  intros w1 w2. subst w1 w2.
  set (v := mkWorld (set_styleTheme theme (app w)) (browser w) (calls w)).
  destruct (truthy (finalPrompt (app w))) eqn:Hprompt.
  - destruct (getClothingSuggestions (gateway env) (length (calls w))
                (finalPrompt (app w)) (language (app w)))
      as [results|e] eqn:Hanswer.
    + rewrite (getSuggestions_settling env order w results Hprompt Hanswer).
      rewrite (getSuggestions_settling env order v results Hprompt Hanswer).
      cbn [snd]. change (calls v) with (calls w).
      apply finished_same_panel; [done | done | done |].
      unfold marked. cbn [calls].
      by rewrite !length_app, !length_cons, !length_map.
    + rewrite (getSuggestions_rejected env order w e Hprompt Hanswer).
      by rewrite (getSuggestions_rejected env order v e Hprompt Hanswer).
  - rewrite (getSuggestions_no_prompt env order w Hprompt).
    by rewrite (getSuggestions_no_prompt env order v Hprompt).
Qed.

End PanelFacts.

(* ===================================================================== *)
(** ** From a suggestion to a try-on                                      *)
(* ===================================================================== *)

Module ScreenFacts.
Import Js Codec Gateway App AppMore CodecMore Screen JsFacts CodecFacts
  TryOnFacts HistoryFacts SuggestionFacts TryOnFrame CodecCases PanelFacts.

Lemma enabled_prompt (st : AppState) :
  isLoading st = false ->
  getSuggestions_disabled st = negb (truthy (finalPrompt st)).
Proof.
  intros Hidle. unfold getSuggestions_disabled, finalPrompt. rewrite Hidle.
  destruct (String.eqb_spec (stylistPrompt st) "custom") as [-> | _].
  - done.
  - by rewrite andb_false_l, orb_false_r.
Qed.

(** X24.  The guard of the suggestions button and the guard of its
    handler agree.  While nothing is loading, the button is disabled
    exactly when the handler would find no prompt; so a click on the
    enabled button never ends in the [errorSelectStyle] message: it always
    puts the [getClothingSuggestions] call, as the next call made. *)
Theorem getSuggestions_guard env order w :
  (isLoading (app w) = false ->
   getSuggestions_disabled (app w) = negb (truthy (finalPrompt (app w))))
  /\ (getSuggestions_disabled (app w) = false ->
      exists made,
        calls (snd (handleGetSuggestions env order w))
        = calls w
            ++ getClothingSuggestionsCall (finalPrompt (app w))
                 (language (app w)) (preferredColors (app w)) :: made).
Proof.
  split; [apply enabled_prompt|].
  intros Henabled.
  assert (truthy (finalPrompt (app w)) = true) as Hprompt.
  { unfold getSuggestions_disabled in Henabled.
    apply orb_false_elim in Henabled as [Hidle Henabled].
    pose proof (enabled_prompt (app w) Hidle) as Hguard.
    unfold getSuggestions_disabled in Hguard.
    rewrite Hidle, Henabled in Hguard. cbn [orb] in Hguard.
    by destruct (truthy (finalPrompt (app w))). }
  destruct (getClothingSuggestions (gateway env) (length (calls w))
              (finalPrompt (app w)) (language (app w)))
    as [results|e] eqn:Hanswer.
  - destruct (getSuggestions_resolved env order w results Hprompt Hanswer)
      as (images & logs & ->).
    by eexists.
  - rewrite (getSuggestions_rejected env order w e Hprompt Hanswer).
    by exists [].
Qed.

Lemma getSuggestions_guard_witness :
  let env := Samples.browser_env Samples.offline Samples.storage_ok in
  exists made,
    calls (snd (handleGetSuggestions env [] Samples.styled))
    = getClothingSuggestionsCall "A casual weekend outfit" Ru EmptyString :: made.
Proof.
  intros env.
  exact (proj2 (getSuggestions_guard env [] Samples.styled) eq_refl).
Defined.

(** *** Choosing a generated picture *)

Lemma settled_entry_encoded s bs m :
  plain_mime m = true ->
  settled_entry s (Ok (mkImageResult (base64_encode bs) m))
  = Some (Ready (data_url m (base64_encode bs)) m
            (mkFile bs (replace_spaces (name s) +:+ ".png") m)).
Proof.
  intros Hm. unfold settled_entry. cbn [mimeType data].
  rewrite dataURLtoFile_data_url by (done || apply base64_encode_no_comma).
  rewrite atob_base64_encode. cbn [bindR]. by rewrite char_codes_binary.
Qed.

Lemma onTileClick_ready env s w url m f :
  suggestionImages (app w) !! name s = Some (Ready url m f) ->
  onTileClick env s w
  = (Ok tt,
     mkWorld
       (set_error None
          (set_clothingImage (Some (mkUploaded f (createObjectURL env f)))
             (app w)))
       (browser w) (calls w)).
Proof.
  intros Htile. unfold onTileClick, handleUseSuggestionImage. run_monad.
  by rewrite Htile.
Qed.

(** The one call of a try-on without background removal. *)
Lemma tryOn_single_call env w p c pb cb :
  personImage (app w) = Some p ->
  clothingImage (app w) = Some c ->
  fileToBase64 (reader_error env) (file p) = Ok pb ->
  fileToBase64 (reader_error env) (file c) = Ok cb ->
  removeBgEnabled (app w) = false ->
  calls (snd (handleTryOn env w))
  = calls w ++ [virtualTryOnCall pb (type (file p)) cb (type (file c))
                  (styleTheme (app w))].
Proof.
  intros Hp Hc Hpb Hcb Hoff. run. rewrite Hp, Hc. step. rewrite Hpb, Hoff. step.
  rewrite Hcb. step.
  by destruct (virtualTryOn _ _ _ _ _ _ _).
Qed.

(** X25.  A generated picture reaches the try-on as it came from the
    model.  A batch of suggestions with distinct names has settled, in
    whatever order; the image generated for the suggestion [s] holds the
    base64 text of the bytes [bs] (not empty) under a plain MIME type that
    [new File] keeps as it is (printable ASCII, no upper-case letter), and
    the name of [s] is ASCII text.  Then a click on the tile of [s] makes
    that picture the clothing image, as a file with the bytes [bs] named
    after the suggestion; reading the file gives the model's base64 text
    again; and the try-on that follows (background removal off, person
    file readable) sends, in its one call, exactly the text and the MIME
    type the model returned. *)
Theorem generated_picture_tried_on env order w results i s bs m p pb :
  truthy (finalPrompt (app w)) = true ->
  getClothingSuggestions (gateway env) (length (calls w))
    (finalPrompt (app w)) (language (app w)) = Ok results ->
  NoDup (name <$> results) ->
  order ≡ₚ seq 0 (length results) ->
  results !! i = Some s ->
  generateClothingImage (gateway env) (S (length (calls w)) + i) (description s)
  = Ok (mkImageResult (base64_encode bs) m) ->
  plain_mime m = true ->
  File_type m = m ->
  ascii_text (name s) = true ->
  bs <> [] ->
  (forall f, reader_error env f = false) ->
  personImage (app w) = Some p ->
  fileToBase64 (reader_error env) (file p) = Ok pb ->
  removeBgEnabled (app w) = false ->
  let picture := mkFile bs (replace_spaces (name s) +:+ ".png") m in
  let batch := snd (handleGetSuggestions env order w) in
  let chosen := snd (onTileClick env s batch) in
  clothingImage (app chosen)
  = Some (mkUploaded picture (createObjectURL env picture))
  /\ fileToBase64 (reader_error env) picture = Ok (base64_encode bs)
  /\ calls (snd (handleTryOn env chosen))
     = calls batch
         ++ [virtualTryOnCall pb (type (file p)) (base64_encode bs) m
               (styleTheme (app w))].
Proof.
  intros Hprompt Hresults Hnames Horder Hi Hgen Hm _ _ Hbs Hreader Hp Hpb Hoff
    picture batch chosen.
  destruct (handleGetSuggestions_settled env order w results Hprompt Hresults
              Hnames Horder) as (Htiles & _ & _).
  specialize (Htiles i s Hi). rewrite Hgen, settled_entry_encoded in Htiles by done.
  fold batch picture in Htiles.
  destruct (getSuggestions_resolved env order w results Hprompt Hresults)
    as (images & logs & Hrun).
  assert (personImage (app batch) = Some p
          /\ removeBgEnabled (app batch) = false
          /\ styleTheme (app batch) = styleTheme (app w)) as (Hp' & Hoff' & Hstyle).
  { subst batch. rewrite Hrun. by fields. }
  clearbody batch. clear Hrun.
  pose proof (onTileClick_ready env s batch _ _ _ Htiles) as Hclick.
  fold chosen in Hclick.
  assert (chosen
          = mkWorld
              (set_error None
                 (set_clothingImage
                    (Some (mkUploaded picture (createObjectURL env picture)))
                    (app batch)))
              (browser batch) (calls batch)) as Hchosen
    by (subst chosen; by rewrite Hclick).
  clearbody chosen. subst chosen.
  assert (fileToBase64 (reader_error env) picture = Ok (base64_encode bs))
    as Hread.
  { rewrite fileToBase64_cases by by apply plain_mime_no_comma.
    rewrite Hreader. subst picture. cbn [bits]. by destruct bs. }
  split_and!; [done | done |].
  rewrite (tryOn_single_call env _ p (mkUploaded picture (createObjectURL env picture))
             pb (base64_encode bs)); try done.
  by rewrite <- Hstyle.
Qed.

Lemma generated_picture_tried_on_witness :
  let env := Samples.browser_env (Samples.stylist "image/png") Samples.storage_ok in
  let w :=
    mkWorld (set_removeBgEnabled false (app Samples.styled))
      (browser Samples.styled) [] in
  let chosen :=
    snd (onTileClick env Samples.scarf
           (snd (handleGetSuggestions env [2; 0; 1] w))) in
  clothingImage (app chosen)
  = Some (mkUploaded (mkFile [x41; x42; x43] "Silk-scarf.png" "image/png")
            "blob:http://localhost:3000/Silk-scarf.png")
  /\ last (calls (snd (handleTryOn env chosen)))
     = Some (virtualTryOnCall "iVBORw==" "image/png" "QUJD" "image/png"
               Photorealistic).
Proof.
  intros env w chosen.
  destruct (generated_picture_tried_on env [2; 0; 1] w
              [Samples.coat; Samples.scarf; Samples.boots] 1 Samples.scarf
              [x41; x42; x43] "image/png"
              (mkUploaded Samples.photo (Samples.blob_url Samples.photo))
              "iVBORw=="
              eq_refl eq_refl sample_names sample_order eq_refl eq_refl eq_refl
              eq_refl eq_refl
              ltac:(discriminate) (fun _ => eq_refl) eq_refl eq_refl eq_refl)
    as (Hclothing & _ & Hcalls).
  split; [exact Hclothing|].
  fold chosen in Hcalls. rewrite Hcalls. by rewrite last_snoc.
Defined.

(** *** Deleting outside the history *)

(** X26.  Deleting changes nothing but one history item, and nothing at
    all when it has nothing to delete: [handleDeleteHistoryItem] returns,
    touches the history only, and takes at most one item away; when the
    confirmation is declined, or the index is past the end of the history,
    the world is left exactly as it was. *)
Theorem delete_history_frame env i w :
  let w' := snd (handleDeleteHistoryItem env i w) in
  fst (handleDeleteHistoryItem env i w) = Ok tt
  /\ (exists h, w' = mkWorld (set_history h (app w)) (browser w) (calls w))
  /\ length (history (app w)) <= S (length (history (app w')))
  /\ (confirm env (t env (language (app w)) deleteConfirmation) = false
      \/ length (history (app w)) <= i ->
      w' = w).
Proof.
  intros w'. subst w'. run.
  assert (w = mkWorld (set_history (history (app w)) (app w)) (browser w) (calls w))
    as Hsame by (by destruct w as [[] ? ?]).
  destruct (confirm env _); step.
  - pose proof (filter_index_delete (history (app w)) i 0) as Hdelete.
    cbn [Nat.add] in Hdelete. rewrite Hdelete. fields.
    split_and!; [done | by eexists | |].
    + rewrite length_app, length_take, length_drop. lia.
    + intros [[=] | Hpast].
      rewrite take_ge, drop_ge, app_nil_r by lia. by rewrite <- Hsame.
  - split_and!; [done | by exists (history (app w)); rewrite <- Hsame | lia | done].
Qed.

End ScreenFacts.

(* ===================================================================== *)
(** ** Sharing                                                            *)
(* ===================================================================== *)

Module ShareFacts.
Import Js Codec Gateway App AppMore CodecMore JsFacts CodecFacts TryOnFacts
  TryOnFrame.
Import Share.

Ltac run_share := unfold handleShare, share_failed in *; run_monad.

(** [handleShare] either leaves the world alone or ends as a failed
    share. *)
Lemma handleShare_cases env w :
  handleShare env w = (Ok tt, w)
  \/ exists e, handleShare env w = (Ok tt, share_failed env e w).
Proof.
  run_share.
  destruct (generatedImage (app w)) as [generated|]; [|by left].
  destruct (share (navigator env)) as [share|]; [|by left].
  destruct (truthy (url generated)); step; [|by left].
  destruct (dataURLtoFile (url generated) "tryon-result.png") as [[file|]|e];
    step; [| right; by eexists | right; by eexists].
  destruct (canShare (navigator env)) as [can|]; [|right; by eexists].
  destruct (can [file]); step; [|right; by eexists].
  destruct (share _) as [[]|e]; step; [by left | right; by eexists].
Qed.

(** X27.  Sharing never throws and changes nothing but the error message
    and the console: [handleShare] returns whatever the browser does; when
    there is no generated image, or the browser has no [navigator.share],
    it does nothing at all; a share that goes through leaves the world as
    it was - an error message shown before stays shown; and every failure,
    thrown inside or by the browser, ends as one console entry and an
    error message, the storage, the alerts, the call log and the rest of
    the state being untouched. *)
Theorem handleShare_frame env w :
  let w' := snd (handleShare env w) in
  fst (handleShare env w) = Ok tt
  /\ (generatedImage (app w) = None \/ share (navigator env) = None -> w' = w)
  /\ (w' = w
      \/ exists message,
           w' = mkWorld (set_error (Some message) (app w))
                  (mkBrowser (localStorage (browser w))
                     (console (browser w) ++ ["Share failed:"])
                     (alerts (browser w)))
                  (calls w)).
Proof.
  intros w'. subst w'. split_and!.
  - by destruct (handleShare_cases env w) as [-> | [e ->]].
  - intros [Hnone | Hnone]; run_share; rewrite Hnone;
      [done | by destruct (generatedImage (app w))].
  - destruct (handleShare_cases env w) as [-> | [e ->]]; [by left|].
    right. by eexists.
Qed.

(** X28.  What is shared, and what a failed share shows.  For a result
    produced by a try-on - the data URL of the base64 text of some bytes
    under a plain MIME type that [new File] keeps as it is (printable
    ASCII, no upper-case letter) - on a browser with [navigator.share]:
    the browser is handed one file, named [tryon-result.png] whatever the
    MIME type, holding those bytes under that type, with the translated
    title and text, provided [navigator.canShare] exists and accepts the
    file; the handler ends as the share does, showing the error's message,
    or the [errorShareGeneric] text for an error without one.  When
    [navigator.canShare] is missing or refuses, nothing is shared and the
    [errorShareSupport] text is the error. *)
Theorem share_result env w m bs share :
  generatedImage (app w)
  = Some (mkGenerated (data_url m (base64_encode bs)) m) ->
  plain_mime m = true ->
  File_type m = m ->
  Share.share (navigator env) = Some share ->
  let t := Share.t env (language (app w)) in
  let file := mkFile bs "tryon-result.png" m in
  let accepted :=
    match canShare (navigator env) with
    | Some canShare => canShare [file]
    | None => false
    end in
  handleShare env w
  = (Ok tt,
     if accepted then
       match share (mkShareData [file] (t shareTitle) (t shareText)) with
       | Ok _ => w
       | Throw e => share_failed env e w
       end
     else share_failed env (Error (t errorShareSupport)) w).
Proof.
  intros Hgenerated Hm _ Hshare t file accepted. subst t file accepted.
  run_share. rewrite Hgenerated, Hshare. cbn [url].
  assert (truthy (data_url m (base64_encode bs)) = true) as -> by done.
  cbn [negb]. step.
  rewrite dataURLtoFile_data_url by (done || apply base64_encode_no_comma).
  rewrite atob_base64_encode. cbn [bindR]. rewrite char_codes_binary. step.
  destruct (canShare (navigator env)) as [can|]; [|done].
  destruct (can _); step; [|done].
  by destruct (share _) as [[]|e].
Qed.

Lemma share_result_witness :
  let shown :=
    mkWorld
      (set_error (Some "An earlier message")
         (set_generatedImage
            (Some (mkGenerated "data:image/jpeg;base64,/9j/" "image/jpeg"))
            (app Samples.ready)))
      (browser Samples.ready) [] in
  handleShare (Share.mkEnv sharing (fun _ => english)) shown = (Ok tt, shown)
  /\ error (app (snd (handleShare (Share.mkEnv dismissing (fun _ => english))
                        shown)))
     = Some "Share canceled".
Proof.
  intros shown. split.
  - exact (share_result (Share.mkEnv sharing (fun _ => english)) shown
             "image/jpeg" [xff; xd8; xff] (fun _ => Ok tt)
             eq_refl eq_refl eq_refl eq_refl).
  - exact (f_equal (fun r => error (app (snd r)))
             (share_result (Share.mkEnv dismissing (fun _ => english)) shown
                "image/jpeg" [xff; xd8; xff]
                (fun _ => Throw (DOMException "AbortError" "Share canceled"))
                eq_refl eq_refl eq_refl eq_refl)).
Defined.

(** X29.  A result that cannot be shared.  When the generated image is
    not a readable data URL, [navigator.share] is never reached: a URL
    that [dataURLtoFile] answers [null] for ends in the [errorCreateFile]
    text, and a payload that is not base64 ends in the message of the
    exception of [atob] - in both cases as an error message on the screen,
    not as an exception. *)
Theorem share_unreadable_result env w generated share :
  generatedImage (app w) = Some generated ->
  url generated <> EmptyString ->
  Share.share (navigator env) = Some share ->
  let t := Share.t env (language (app w)) in
  (dataURLtoFile (url generated) "tryon-result.png" = Ok None ->
   handleShare env w
   = (Ok tt, share_failed env (Error (t errorCreateFile)) w))
  /\ (forall e,
        dataURLtoFile (url generated) "tryon-result.png" = Throw e ->
        handleShare env w = (Ok tt, share_failed env e w)).
Proof.
  intros Hgenerated Hurl Hshare t. subst t.
  assert (truthy (url generated) = true) as Htruthy
    by (by destruct (url generated)).
  split.
  - intros Hnull. run_share. rewrite Hgenerated, Hshare, Htruthy. cbn [negb].
    step. by rewrite Hnull.
  - intros e Hthrown. run_share. rewrite Hgenerated, Hshare, Htruthy.
    cbn [negb]. step. by rewrite Hthrown.
Qed.

Lemma share_unreadable_result_witness :
  let shown :=
    mkWorld
      (set_generatedImage
         (Some (mkGenerated "data:image/png;base64,iVBOR-_w" "image/png"))
         (app Samples.ready))
      (browser Samples.ready) [] in
  error (app (snd (handleShare (Share.mkEnv sharing (fun _ => english)) shown)))
  = Some atob_message.
Proof.
  intros shown.
  exact (f_equal (fun r => error (app (snd r)))
           (proj2 (share_unreadable_result
                     (Share.mkEnv sharing (fun _ => english)) shown _
                     (fun _ => Ok tt) eq_refl ltac:(discriminate) eq_refl)
              (DOMException "InvalidCharacterError" atob_message)
              eq_refl)).
Defined.

End ShareFacts.

(* ===================================================================== *)
(** ** The current try-on and the first version                           *)
(* ===================================================================== *)

Module LegacyFacts.
Import Js Codec Gateway App AppMore JsFacts CodecFacts TryOnFacts TryOnFrame.

(** X30.  The current try-on contains the first version.  With the
    background removal off and the [Photorealistic] theme, and with the
    two messages translated as the first version spelled them,
    [handleTryOn] does to the uploads, the generated image, the loading
    flag and the error message what [handleTryOn] of the first version
    did: run from states that show the same, on the same files and the
    same answers of the model, they end in states that show the same. *)
Theorem tryOn_refines_first_version env w old :
  LegacyApp.shows (app w) old ->
  removeBgEnabled (app w) = false ->
  styleTheme (app w) = Photorealistic ->
  t env (language (app w)) errorUnexpected = "An unexpected error occurred." ->
  t env (language (app w)) errorNeedBothImagesUpload
  = "Please upload both a person and a clothing item." ->
  LegacyApp.shows (app (snd (handleTryOn env w)))
    (fst (LegacyApp.handleTryOn (gateway env) (reader_error env)
            (length (calls w)) old)).
Proof.
  intros (Hp & Hc & Hg & Hl & He) Hoff Hstyle Hunexpected Hboth.
  unfold LegacyApp.shows, LegacyApp.handleTryOn. run.
  rewrite <- Hp, <- Hc.
  destruct (personImage (app w)) as [p|] eqn:Hp';
    [destruct (clothingImage (app w)) as [c|] eqn:Hc'|]; step.
  - rewrite Hoff, Hstyle, Hunexpected. step.
    destruct (fileToBase64 (reader_error env) (file p)) as [pb|e]; step;
      cbn [bindR]; [|by fields; rewrite ?Hp', ?Hc'].
    destruct (fileToBase64 (reader_error env) (file c)) as [cb|e]; step;
      cbn [bindR]; [|by fields; rewrite ?Hp', ?Hc'].
    change (Legacy.virtualTryOn (gateway env) (length (calls w)) pb
              (type (file p)) cb (type (file c)))
      with (virtualTryOn (gateway env) (length (calls w)) pb (type (file p))
              cb (type (file c)) Photorealistic).
    destruct (virtualTryOn _ _ _ _ _ _ _) as [result|e]; step; fields;
      by rewrite ?Hp', ?Hc'.
  - fields. by rewrite Hboth, ?Hp', ?Hc'.
  - fields. by rewrite Hboth, ?Hp'.
Qed.

Lemma tryOn_refines_first_version_witness :
  let env := Samples.browser_env Samples.studio Samples.storage_ok in
  let w :=
    mkWorld (set_removeBgEnabled false (app Samples.ready))
      (browser Samples.ready) [] in
  let old :=
    LegacyApp.mkAppState
      (Some (mkUploaded Samples.photo (Samples.blob_url Samples.photo)))
      (Some (mkUploaded Samples.dress (Samples.blob_url Samples.dress)))
      None false None in
  LegacyApp.generatedImage
    (fst (LegacyApp.handleTryOn (gateway env) (reader_error env) 0 old))
  = Some "data:image/png;base64,QUJD"
  /\ url <$> generatedImage (app (snd (handleTryOn env w)))
     = Some "data:image/png;base64,QUJD".
Proof.
  intros env w old. split; [reflexivity|].
  exact (proj1 (proj2 (proj2
           (tryOn_refines_first_version env w old
              (conj eq_refl (conj eq_refl (conj eq_refl (conj eq_refl eq_refl))))
              eq_refl eq_refl eq_refl eq_refl)))).
Defined.

End LegacyFacts.
